(** * VideoSuiteYT backend: a shallow embedding of the Python sources

    The development follows the modules of [backend/src]
    ([audio_pipeline.py], [ollama_client.py], [video_engine.py],
    [whisper_service.py], [main.py]), states the properties of the
    specification over them, and then further properties of the sources.

    Conventions of the embedding:
    - a Python function that can raise returns an [outcome];
    - the outside world (file system, sub-processes, hash seed) is read
      through a [World] record, and everything a function does to the
      outside world is recorded, in order, in a list of [effect]s;
    - the [float]s of the voice stage are the binary64 numbers of IEEE
      754 ([spec_float] at precision 53), with their rounding, their
      infinities and their NaN; the word target of the script prompt,
      whose operands are small integers, is computed in exact rationals;
    - [str] is [string]; its characters are the 8-bit [ascii] ones.

    The ResourceBudget of the specification has no counterpart in the
    sources; it is modelled from the text of the specification, in a
    module of its own. *)

From Stdlib Require Import ZArith QArith Qround List String Ascii Bool Lia.
From Stdlib Require Import DecimalString.
From Stdlib Require Import SpecFloat.
From stdpp Require Import base gmap strings list fin_maps.

Import ListNotations.
Set Warnings "-register-all".
Local Open Scope string_scope.
Local Open Scope Z_scope.

(* ===================================================================== *)
(** ** The Python runtime the sources rely on *)
(* ===================================================================== *)

Module Py.

(** An exception: its class name and [str(e)]. *)
Record exn : Type := Exn { exn_class : string; exn_str : string }.

Inductive outcome (A : Type) : Type :=
| Return (a : A)
| Raise (e : exn).
Arguments Return {A} a.
Arguments Raise {A} e.

(** The double quote and the line feed. *)
Definition dquote : string := String (ascii_of_nat 34) EmptyString.
Definition nl : string := String (ascii_of_nat 10) EmptyString.

(** Truthiness of an optional [str]: [None] and the empty string are
    falsy. *)
Definition truthy_str (s : option string) : bool :=
  match s with
  | Some (String _ _) => true
  | _ => false
  end.

(** [str(n)] for an [int]. *)
Definition str_of_int (n : Z) : string := NilZero.string_of_int (Z.to_int n).

(** [''.join(parts)] *)
Definition concat_all (parts : list string) : string :=
  fold_right String.append EmptyString parts.

(** [sep.join(parts)] for the line feed as separator. *)
Fixpoint join_lines (parts : list string) : string :=
  match parts with
  | [] => EmptyString
  | [p] => p
  | p :: rest => p +:+ nl +:+ join_lines rest
  end.

(** [c.isspace()] on the 8-bit range: TAB..CR, FS..US, the space, NEL
    (133) and the no-break space (160). *)
Definition isspace (c : ascii) : bool :=
  let n := Z.of_nat (nat_of_ascii c) in
  ((9 <=? n) && (n <=? 13)) || ((28 <=? n) && (n <=? 32))
  || (n =? 133) || (n =? 160).

(** [s.split()]: maximal runs of non-space characters. [cur] is the run
    being read. *)
Fixpoint split_go (s : string) (cur : string) : list string :=
  match s with
  | EmptyString =>
      match cur with EmptyString => [] | _ => [cur] end
  | String c s' =>
      if isspace c then
        match cur with
        | EmptyString => split_go s' EmptyString
        | _ => cur :: split_go s' EmptyString
        end
      else split_go s' (cur +:+ String c EmptyString)
  end.

Definition split (s : string) : list string := split_go s EmptyString.

(** [sub in s] *)
Fixpoint contains (sub s : string) : bool :=
  String.prefix sub s ||
  match s with
  | EmptyString => false
  | String _ s' => contains sub s'
  end.

(** [s.replace(old, new)] for a non-empty [old]: every non-overlapping
    occurrence, left to right. [skip] counts the characters of a matched
    occurrence that are still to be dropped. *)
Fixpoint replace_go (old new s : string) (skip : nat) : string :=
  match s with
  | EmptyString => EmptyString
  | String c s' =>
      match skip with
      | S k => replace_go old new s' k
      | O =>
          if String.prefix old s
          then new +:+ replace_go old new s' (Nat.pred (String.length old))
          else String c (replace_go old new s' O)
      end
  end.

Definition replace (old new s : string) : string := replace_go old new s O.

(** [s.find(c)] and [s.rfind(c)] for a one-character needle; [-1] when
    the character does not occur. *)
Fixpoint find_from (c : ascii) (s : string) (i : Z) : Z :=
  match s with
  | EmptyString => -1
  | String d s' => if Ascii.eqb c d then i else find_from c s' (i + 1)
  end.

Definition find (c : ascii) (s : string) : Z := find_from c s 0.

Fixpoint rfind_from (c : ascii) (s : string) (i : Z) (last : Z) : Z :=
  match s with
  | EmptyString => last
  | String d s' =>
      rfind_from c s' (i + 1) (if Ascii.eqb c d then i else last)
  end.

Definition rfind (c : ascii) (s : string) : Z := rfind_from c s 0 (-1).

(** [s[a:b]] for [0 <= a]; [b] is clipped to the length, an empty or
    reversed range gives the empty string. *)
Definition slice (s : string) (a b : Z) : string :=
  String.substring (Z.to_nat a) (Z.to_nat (b - a)) s.

(** [os.path.join(a, b)] on POSIX. *)
Definition ends_with_slash (a : string) : bool :=
  match String.get (Nat.pred (String.length a)) a with
  | Some c => Ascii.eqb c "/"%char
  | None => false
  end.

Definition path_join (a b : string) : string :=
  if String.prefix "/" b then b
  else match a with
       | EmptyString => b
       | _ => if ends_with_slash a then a +:+ b else a +:+ "/" +:+ b
       end.

(** [int(x)]: truncation towards zero, on an exact rational. *)
Definition int_of_float (x : Q) : Z :=
  if Qle_bool 0 x then Qfloor x else Qceiling x.

(** Python's [float]: binary64, 53 bits of precision. The floats of
    Python are the values that are [valid_binary 53 1024]. *)
Definition float : Type := spec_float.

(** [float(n)], rounded to nearest even. *)
Definition float_of_int (n : Z) : float := binary_normalize 53 1024 n 0 false.

Definition fmul (x y : float) : float := SFmul 53 1024 x y.

Definition fdiv (x y : float) : float := SFdiv 53 1024 x y.

(** [a / b] on two [int]s below 2^53 in absolute value, [b] not zero:
    the quotient of the two converted operands, rounded once. *)
Definition truediv (a b : Z) : float :=
  fdiv (float_of_int a) (float_of_int b).

(** A value that is an [int] or a [float]. *)
Inductive number : Type :=
| Int (n : Z)
| Float (x : float).

(** [max(1, x)] where [x] is a float: Python keeps the first argument,
    the int [1], unless [x > 1]; a NaN is greater than nothing. *)
Definition max1 (x : float) : number :=
  if SFltb (float_of_int 1) x then Float x else Int 1.

(** [k * d] for an int [k]. *)
Definition int_times (k : Z) (d : number) : number :=
  match d with
  | Int n => Int (k * n)
  | Float x => Float (fmul (float_of_int k) x)
  end.

(** [int(d)]: a float is truncated towards zero; an infinity and a NaN
    are refused. *)
Definition int_of_number (d : number) : outcome Z :=
  match d with
  | Int n => Return n
  | Float (S754_zero _) => Return 0
  | Float (S754_infinity _) =>
      Raise (Exn "OverflowError" "cannot convert float infinity to integer")
  | Float S754_nan =>
      Raise (Exn "ValueError" "cannot convert float NaN to integer")
  | Float (S754_finite s m e) =>
      let magnitude :=
        if 0 <=? e then Z.pos m * 2 ^ e else Z.pos m / 2 ^ (- e) in
      Return (if s then - magnitude else magnitude)
  end.

(** The exact value of a finite float ([float.as_integer_ratio], not
    reduced). *)
Definition rational (x : float) : option Q :=
  match x with
  | S754_zero _ => Some 0%Q
  | S754_finite s m e =>
      let n := if s then Z.neg m else Z.pos m in
      Some (if 0 <=? e then inject_Z (n * 2 ^ e)
            else Qmake n (Z.to_pos (2 ^ (- e))))
  | _ => None
  end.

(** [abs(h) % 10000] *)
Definition abs_mod (h m : Z) : Z := Z.abs h mod m.

End Py.

(* ===================================================================== *)
(** ** The outside world and the effects on it *)
(* ===================================================================== *)

Module Sys.
Import Py.

(** JSON values, as [json.loads] and [response.json()] build them. *)
Inductive json : Type :=
| JNone
| JBool (b : bool)
| JInt (n : Z)
| JFloat (x : Q)
| JStr (s : string)
| JList (l : list json)
| JDict (kv : list (string * json)).

(** [subprocess.CompletedProcess] *)
Record completed : Type :=
  Completed { returncode : Z; stdout : string; stderr : string }.

(** The reply of [session.post]: the status and what
    [await response.json()] gives. *)
Record http_response : Type :=
  Response { status : Z; body : outcome json }.

(** [datetime.now()] *)
Record datetime : Type :=
  DateTime { year : Z; month : Z; day : Z;
             hour : Z; minute : Z; second : Z }.

(** Everything the sources read from outside themselves. *)
Record World : Type := {
  path_exists : string -> bool;                     (* os.path.exists *)
  subprocess_run : list string -> outcome completed;  (* subprocess.run *)
  np_alloc : Z -> option exn;  (* np.zeros(n), 0 <= n: [None] is success *)
  sf_write : string -> option exn;    (* soundfile.write: [None] is success *)
  str_hash : string -> Z;                           (* hash(str) *)
  now : datetime;                                   (* datetime.now() *)
  http_post : string -> json -> outcome http_response;
  json_loads : string -> outcome json               (* json.loads *)
}.

(** Everything the sources do to the outside, in program order. *)
Inductive effect : Type :=
| SfWrite (path : string) (data : list Q) (samplerate : Z)
| Run (cmd : list string)
| Post (url : string) (payload : json).

Definition IO (A : Type) : Type := World -> list effect * outcome A.

Definition ret {A} (a : A) : IO A := fun _ => ([], Return a).

Definition raise {A} (e : exn) : IO A := fun _ => ([], Raise e).

(** A computation that touches nothing outside. *)
Definition pure {A} (r : outcome A) : IO A := fun _ => ([], r).

Definition bind {A B} (m : IO A) (k : A -> IO B) : IO B :=
  fun w =>
    match m w with
    | (log, Return a) => let '(log', r) := k a w in ((log ++ log')%list, r)
    | (log, Raise e) => (log, Raise e)
    end.

(** [try: m  except Exception as e: h e] *)
Definition try_except {A} (m : IO A) (h : exn -> IO A) : IO A :=
  fun w =>
    match m w with
    | (log, Return a) => (log, Return a)
    | (log, Raise e) => let '(log', r) := h e w in ((log ++ log')%list, r)
    end.

(** [try: m  except C: h], for one exception class [C]. *)
Definition try_except_class {A} (cls : string) (m : IO A) (h : IO A)
  : IO A :=
  try_except m
    (fun e => if String.eqb (exn_class e) cls then h else raise e).

(** The primitive operations. *)
Definition os_path_exists (p : string) : IO bool :=
  fun w => ([], Return (path_exists w p)).

Definition run (cmd : list string) : IO completed :=
  fun w => ([Run cmd], subprocess_run w cmd).

(** [np.zeros(n)] allocates [n] samples: a negative size is refused, any
    other is granted or refused by the machine. *)
Definition allocate (n : Z) : IO unit :=
  fun w =>
    if n <? 0
    then ([], Raise (Exn "ValueError" "negative dimensions are not allowed"))
    else match np_alloc w n with
         | None => ([], Return tt)
         | Some e => ([], Raise e)
         end.

Definition write (p : string) (data : list Q) (rate : Z) : IO unit :=
  fun w =>
    match sf_write w p with
    | None => ([SfWrite p data rate], Return tt)
    | Some e => ([], Raise e)
    end.

Definition hash (s : string) : IO Z := fun w => ([], Return (str_hash w s)).

Definition datetime_now : IO datetime := fun w => ([], Return (now w)).

Definition post (url : string) (payload : json) : IO http_response :=
  fun w => ([Post url payload], http_post w url payload).

Definition loads (s : string) : IO json := fun w => ([], json_loads w s).

(** [await response.json()] *)
Definition response_json (r : http_response) : IO json :=
  fun _ => ([], body r).

End Sys.

Notation "'let*' x := m 'in' k" := (Sys.bind m (fun x => k))
  (at level 10, x name, m at level 100, k at level 200).
Notation "m ;;; k" := (Sys.bind m (fun _ => k))
  (at level 100, k at level 200, right associativity).

(* ===================================================================== *)
(** ** audio_pipeline.py *)
(* ===================================================================== *)

Module AudioPipeline.
Import Py Sys.

(** [VoiceSettings] and [AudioRequest] of main.py. *)
Record VoiceSettings : Type := {
  voice_type : string;
  voice_id : string;
  reference_audio_path : option string;
  speed : float;
  pitch : float
}.

Record AudioRequest : Type := {
  text : string;
  voice_settings : VoiceSettings
}.

(** [self.audio_dir] is the only attribute the methods read. *)
Record t : Type := { audio_dir : string }.

Definition default : t := {| audio_dir := "assets/audio" |}.

(** The samples of [np.zeros(n, dtype=np.float32)], once allocated. *)
Definition np_zeros (n : Z) : list Q := repeat 0%Q (Z.to_nat n).

(** [len(text.split()) / 150 * settings.speed] *)
Definition spoken_length (text : string) (speed : float) : float :=
  fmul (truediv (Z.of_nat (length (split text))) 150) speed.

Definition sample_rate : Z := 22050.

(** The placeholder both voice generators build and write:
    [duration = max(1, ...)], [np.zeros(int(sample_rate * duration))],
    [sf.write], [return output_path]. *)
Definition write_placeholder (text output_path : string)
    (settings : VoiceSettings) : IO string :=
  let duration := max1 (spoken_length text (speed settings)) in
  let* n := pure (int_of_number (int_times sample_rate duration)) in
  allocate n ;;;
  let audio_data := np_zeros n in
  write output_path audio_data sample_rate ;;;
  ret output_path.

Definition _generate_preset_voice (text output_path : string)
    (settings : VoiceSettings) : IO string :=
  try_except
    (write_placeholder text output_path settings)
    (fun e => raise e).

Definition _generate_custom_voice (text output_path : string)
    (settings : VoiceSettings) : IO string :=
  try_except
    (let* present :=
       match reference_audio_path settings with
       | Some (String c p) => os_path_exists (String c p)
       | _ => ret false
       end in
     if negb present
     then raise (Exn "ValueError"
                   "Custom voice requires reference audio file (10-60s)")
     else write_placeholder text output_path settings)
    (fun e => raise e).

(** The argument vectors of [_normalize_loudness]: [cmd], and the one
    vector that both [cmd2] and [cmd_fallback] are. [lufs] is the text
    the f-string prints for [target_lufs]. *)
Definition loudnorm_cmd (audio_path lufs output_path : string)
  : list string :=
  [ "ffmpeg"; "-y"; "-i"; audio_path;
    "-af"; "loudnorm=I=" +:+ lufs +:+ ":TP=-1.5:LRA=11:print_format=json";
    "-af"; "volume=1.0";
    output_path ].

Definition volume_cmd (audio_path output_path : string) : list string :=
  [ "ffmpeg"; "-y"; "-i"; audio_path;
    "-af"; "volume=1.0";
    output_path ].

Definition _normalize_loudness (audio_path lufs : string) : IO string :=
  try_except
    (let output_path := replace ".wav" "_normalized.wav" audio_path in
     let* result := run (loudnorm_cmd audio_path lufs output_path) in
     if returncode result =? 0 then
       try_except
         (if contains "input_i" (stderr result)
          then run (volume_cmd audio_path output_path) ;;; ret tt
          else ret tt)
         (fun _ => ret tt) ;;;
       ret output_path
     else
       run (volume_cmd audio_path output_path) ;;;
       ret output_path)
    (fun _ => ret audio_path).

(** The test [settings.reference_audio_path and os.path.exists(...)] read
    off a world: the condition under which [_generate_custom_voice]
    does not raise its [ValueError]. *)
Definition has_reference (w : World) (settings : VoiceSettings) : bool :=
  match reference_audio_path settings with
  | Some (String c p) => path_exists w (String c p)
  | _ => false
  end.

(** Where [generate_voiceover] puts the placeholder. *)
Definition voiceover_path (self : t) (w : World) (request : AudioRequest)
  : string :=
  path_join (audio_dir self)
    ("voiceover_" +:+ str_of_int (abs_mod (str_hash w (text request)) 10000)
     +:+ ".wav").

Definition generate_voiceover (self : t) (request : AudioRequest)
  : IO string :=
  try_except
    (let* h := hash (text request) in
     let output_path :=
       path_join (audio_dir self)
         ("voiceover_" +:+ str_of_int (abs_mod h 10000) +:+ ".wav") in
     let* audio_path :=
       if String.eqb (voice_type (voice_settings request)) "preset"
       then _generate_preset_voice (text request) output_path
              (voice_settings request)
       else _generate_custom_voice (text request) output_path
              (voice_settings request) in
     let* normalized_path := _normalize_loudness audio_path "-16" in
     ret normalized_path)
    (fun e => raise e).

End AudioPipeline.

(* ===================================================================== *)
(** ** ollama_client.py *)
(* ===================================================================== *)

Module OllamaClient.
Import Py Sys.

(** [ScriptGenerationRequest] of main.py. *)
Record ScriptGenerationRequest : Type := {
  topic : string;
  target_duration_seconds : Z;
  tone : string;
  style : string;
  request_model_name : string
}.

Record t : Type := {
  base_url : string;
  model_name : string;
  context_size : Z;
  is_model_loaded : bool
}.

Definition default : t :=
  {| base_url := "http://localhost:11434";
     model_name := "llama3.2:latest";
     context_size := 4096;
     is_model_loaded := false |}.

Definition set_loaded (self : t) (b : bool) : t :=
  {| base_url := base_url self; model_name := model_name self;
     context_size := context_size self; is_model_loaded := b |}.

Definition set_model_name (self : t) (name : string) : t :=
  {| base_url := base_url self; model_name := name;
     context_size := context_size self;
     is_model_loaded := is_model_loaded self |}.

(** [load_model] never raises; it returns the client as it leaves it. *)
Definition load_model (self : t) (name : option string) : IO (t * bool) :=
  let self1 :=
    match name with
    | Some (String c n) => set_model_name self (String c n)
    | _ => self
    end in
  try_except
    (let* response :=
       post (base_url self1 +:+ "/api/generate")
         (JDict [ ("model", JStr (model_name self1));
                  ("prompt", JStr "A");
                  ("stream", JBool false);
                  ("options", JDict [("num_predict", JInt 1)]) ]) in
     if status response =? 200
     then ret (set_loaded self1 true, true)
     else ret (set_loaded self1 false, false))
    (fun _ => ret (set_loaded self1 false, false)).

Definition indent : string := "            ".

Definition system_prompt : string :=
  join_lines
    [ EmptyString;
      indent +:+ "You are a scriptwriter for engaging YouTube Shorts and TikTok videos.";
      indent +:+ "Your scripts should be conversational, highlight the main point quickly, ";
      indent +:+ "and be exactly the target duration. Break the script into ";
      indent +:+ "clear scenes with visual suggestions.";
      indent ].

(** [request.target_duration_seconds * 150 / 60], as an exact rational:
    while the product is below 2^53 in absolute value, the float quotient
    of the code truncates to the same integer. *)
Definition target_words (request : ScriptGenerationRequest) : Q :=
  (inject_Z (target_duration_seconds request * 150) / 60)%Q.

Definition user_prompt (request : ScriptGenerationRequest) : string :=
  let secs := str_of_int (target_duration_seconds request) in
  join_lines
    [ EmptyString;
      indent +:+ "Write a script for a " +:+ secs
        +:+ "-second vertical short about " +:+ dquote
        +:+ topic request +:+ dquote +:+ ".";
      indent;
      indent +:+ "Requirements:";
      indent +:+ "- Tone: " +:+ tone request;
      indent +:+ "- Style: " +:+ style request;
      indent +:+ "- Target duration: " +:+ secs +:+ " seconds";
      indent +:+ "- Include 3-5 scenes with visual suggestions";
      indent +:+ "- Total word count: ~"
        +:+ str_of_int (int_of_float (target_words request)) +:+ " words";
      indent;
      indent +:+ "Format the output as JSON with:";
      indent +:+ "- title: Brief title for the video";
      indent +:+ "- scenes: Array of scenes, each with:";
      indent +:+ "  - duration: seconds";
      indent +:+ "  - visual: description of what to show";
      indent +:+ "  - voiceover: what to say";
      indent +:+ "- hashtags: 3-5 relevant hashtags";
      indent ].

Definition generate_payload (self : t) (request : ScriptGenerationRequest)
  : json :=
  JDict [ ("model", JStr (model_name self));
          ("prompt", JStr ("system" +:+ nl +:+ system_prompt +:+ nl
                           +:+ "user" +:+ nl +:+ user_prompt request
                           +:+ nl +:+ "assistant"));
          ("stream", JBool false);
          ("options", JDict [ ("num_predict", JInt 1024);
                              ("temperature", JFloat (7 # 10));
                              ("top_p", JFloat (9 # 10)) ]) ].

(** [data.get(key, default)]; only a [dict] has [get]. *)
Fixpoint assoc (key : string) (kv : list (string * json)) : option json :=
  match kv with
  | [] => None
  | (k, v) :: rest => if String.eqb k key then Some v else assoc key rest
  end.

Definition dict_get (data : json) (key : string) (default : json)
  : IO json :=
  match data with
  | JDict kv => ret (match assoc key kv with Some v => v | None => default end)
  | _ => raise (Exn "AttributeError" "object has no attribute 'get'")
  end.

(** [response_text.find] and [.rfind] exist on a [str] only. *)
Definition as_str (v : json) : IO string :=
  match v with
  | JStr s => ret s
  | _ => raise (Exn "AttributeError" "object has no attribute 'find'")
  end.

(** The script built around the raw text when [json.loads] rejects it. *)
Definition raw_text_script (request : ScriptGenerationRequest)
    (response_text : json) : json :=
  JDict [ ("title", JStr ("Video about " +:+ topic request));
          ("scenes",
            JList [ JDict [ ("duration", JInt (target_duration_seconds request));
                            ("visual", JStr "Generic visual");
                            ("voiceover", response_text) ] ]);
          ("hashtags", JList [JStr "#shorts"; JStr "#video"; JStr "#ai"]) ].

(** The scenes of a script, when it is a dictionary with a list under
    ["scenes"]. *)
Definition scenes (script : json) : option (list json) :=
  match script with
  | JDict kv =>
      match assoc "scenes" kv with
      | Some (JList l) => Some l
      | _ => None
      end
  | _ => None
  end.

(** The [try] block of lines 149-163: [Some v] when a [return v] was
    executed, [None] when control falls out of the block. *)
Definition parse_response (request : ScriptGenerationRequest)
    (response_text : json) : IO (option json) :=
  try_except_class "JSONDecodeError"
    (let* txt := as_str response_text in
     let json_start := find "{" txt in
     if negb (json_start =? -1) then
       let json_end := rfind "}" txt + 1 in
       if json_end >? json_start then
         let json_str := slice txt json_start json_end in
         let* v := loads json_str in
         ret (Some v)
       else ret None
     else ret None)
    (ret (Some (raw_text_script request response_text))).

Definition generate_script (self : t) (request : ScriptGenerationRequest)
  : IO json :=
  try_except
    (let* self1 :=
       if negb (is_model_loaded self)
       then (let* r := load_model self None in ret (fst r))
       else ret self in
     let* response :=
       post (base_url self1 +:+ "/api/generate")
         (generate_payload self1 request) in
     let* returned :=
       if status response =? 200 then
         let* data := response_json response in
         let* response_text := dict_get data "response" (JStr EmptyString) in
         parse_response request response_text
       else
         raise (Exn "Exception"
                  ("Ollama API returned status "
                   +:+ str_of_int (status response))) in
     match returned with
     | Some v => ret v
     | None => ret JNone
     end)
    (fun e => raise e).

End OllamaClient.

(* ===================================================================== *)
(** ** video_engine.py *)
(* ===================================================================== *)

Module VideoEngine.
Import Py Sys.

(** The [settings] object of [export_video]: every attribute may be
    [None]. *)
Record ExportSettings : Type := {
  platform : string;
  resolution : option string;
  fps : option Z;
  codec : option string;
  bit_rate : option string
}.

(** A clip dictionary; [clip.get("path", ...)] has a default. *)
Record VideoClip : Type := {
  clip_path : option string;
  clip_duration : option Q
}.

Record t : Type := { video_dir : string; output_dir : string }.

Definition default : t :=
  {| video_dir := "assets/video"; output_dir := "output" |}.

Record preset : Type := {
  preset_resolution : string;
  preset_fps : Z;
  preset_codec : string;
  preset_bitrate : string
}.

Definition shorts_preset : preset :=
  {| preset_resolution := "1080x1920"; preset_fps := 30;
     preset_codec := "h.264"; preset_bitrate := "8M" |}.

Definition platform_presets : list (string * preset) :=
  [ ("youtube-shorts", shorts_preset);
    ("tiktok", shorts_preset);
    ("instagram-reels", shorts_preset) ].

Fixpoint presets_get (name : string) (ps : list (string * preset))
  : option preset :=
  match ps with
  | [] => None
  | (k, v) :: rest => if String.eqb k name then Some v else presets_get name rest
  end.

(** [platform_presets.get(p, {}).get(field, default)] *)
Definition preset_field {A} (p : string) (field : preset -> A) (default : A)
  : A :=
  match presets_get p platform_presets with
  | Some ps => field ps
  | None => default
  end.

(** [x or y] on an optional string and an optional integer. *)
Definition or_str (x : option string) (y : string) : string :=
  match x with
  | Some (String c r) => String c r
  | _ => y
  end.

Definition or_int (x : option Z) (y : Z) : Z :=
  match x with
  | Some k => if k =? 0 then y else k
  | None => y
  end.

(** What the probe of [_check_nvenc] reports on a machine. *)
Definition codecs_probe : list string := ["ffmpeg"; "-hide_banner"; "-codecs"].

Definition nvenc_reported (w : World) : bool :=
  match subprocess_run w codecs_probe with
  | Return result => contains "h264_nvenc" (stdout result)
  | Raise _ => false
  end.

(** [_check_nvenc] *)
Definition _check_nvenc : IO bool :=
  try_except
    (let* result := run ["ffmpeg"; "-hide_banner"; "-codecs"] in
     ret (contains "h264_nvenc" (stdout result)))
    (fun _ => ret false).

(** The first loop of [_build_ffmpeg_command]: the clips whose file
    exists, in order. [i] is the [enumerate] index. *)
Fixpoint existing_clips (clips : list VideoClip) (i : Z)
  : IO (list string) :=
  match clips with
  | [] => ret []
  | clip :: rest =>
      let video_path :=
        match clip_path clip with
        | Some p => p
        | None => "video_clip_" +:+ str_of_int i +:+ ".mp4"
        end in
      let* present := os_path_exists video_path in
      let* others := existing_clips rest (i + 1) in
      ret (if present then video_path :: others else others)
  end.

Definition input_args (video_files : list string) : list string :=
  flat_map (fun p => ["-i"; p]) video_files.

(** One [scale] filter per kept clip. *)
Definition scale_filter (resolution : string) (i : Z) : string :=
  "[" +:+ str_of_int i +:+ ":v]scale=" +:+ resolution
  +:+ ":force_original_aspect_ratio=decrease,pad=" +:+ resolution
  +:+ ":(ow-iw)/2:(oh-ih)/2,setsar=1[f" +:+ str_of_int i +:+ "]".

Definition indices (n : nat) : list Z := map Z.of_nat (seq 0 n).

Definition concat_filter (n : nat) : string :=
  concat_all (map (fun i => "[f" +:+ str_of_int i +:+ "]") (indices n))
  +:+ "concat=n=" +:+ str_of_int (Z.of_nat n) +:+ ":v=1:a=0[outv]".

Definition video_filters (resolution : string) (fps : Z)
    (video_files : list string) : list string :=
  match video_files with
  | [] =>
      [ "color=c=black:s=" +:+ resolution +:+ ":d=10,fps="
        +:+ str_of_int fps +:+ "[outv]" ]
  | _ =>
      (map (scale_filter resolution) (indices (length video_files))
       ++ [concat_filter (length video_files)])%list
  end.

Definition subtitles_filter (captions_path : string) : string :=
  "[outv]subtitles=" +:+ captions_path
  +:+ ":force_style='Fontsize=24,PrimaryColour=&H00FFFF,Outline=1,Shadow=1,MarginV=100'[outsub]".

(** [";".join(parts)] *)
Fixpoint join_semicolon (parts : list string) : string :=
  match parts with
  | [] => EmptyString
  | [p] => p
  | p :: rest => p +:+ ";" +:+ join_semicolon rest
  end.

(** The arguments after the inputs. *)
Definition encode_args (filter_complex video_map audio_map vcodec : string)
    (bitrate : string) (fps : Z) : list string :=
  [ "-filter_complex"; filter_complex;
    "-map"; video_map;
    "-map"; audio_map;
    "-c:v"; vcodec;
    "-b:v"; bitrate;
    "-maxrate"; bitrate;
    "-bufsize"; "2M";
    "-c:a"; "aac";
    "-b:a"; "192k";
    "-vf"; "fps=" +:+ str_of_int fps;
    "-shortest";
    "-profile:v"; "main";
    "-level"; "4.2";
    "-movflags"; "+faststart";
    "output.mp4" ].

Definition _build_ffmpeg_command (resolution : string) (fps : Z)
    (codec bitrate : string) (video_clips : list VideoClip)
    (audio_path : string) (captions_path : option string)
  : IO (list string) :=
  let* video_files := existing_clips video_clips 0 in
  let inputs := (input_args video_files ++ ["-i"; audio_path])%list in
  let audio_input_idx := Z.of_nat (length video_files) in
  let filter_parts := video_filters resolution fps video_files in
  let* with_subtitles :=
    match captions_path with
    | Some (String c p) => os_path_exists (String c p)
    | _ => ret false
    end in
  let filter_parts :=
    if with_subtitles
    then (filter_parts
          ++ [subtitles_filter (or_str captions_path EmptyString)])%list
    else filter_parts in
  let filter_complex := join_semicolon filter_parts in
  let* nvenc := _check_nvenc in
  ret (["ffmpeg"; "-y"]
       ++ inputs
       ++ encode_args filter_complex
            (if truthy_str captions_path then "[outsub]" else "[outv]")
            (str_of_int audio_input_idx +:+ ":a")
            (if nvenc then "h264_nvenc" else "h264")
            bitrate fps)%list.

(** Two decimal digits, zero padded ([%m], [%d], [%H], [%M], [%S]);
    four for [%Y]. *)
Definition pad (width : nat) (n : Z) : string :=
  let digits := str_of_int n in
  concat_all (repeat "0" (width - String.length digits)) +:+ digits.

(** [now.strftime('%Y%m%d_%H%M%S')], for the years of four digits; how
    an earlier year is padded is left to the C library. *)
Definition strftime_stamp (d : datetime) : string :=
  pad 4 (year d) +:+ pad 2 (month d) +:+ pad 2 (day d) +:+ "_"
  +:+ pad 2 (hour d) +:+ pad 2 (minute d) +:+ pad 2 (second d).

Definition export_video (self : t) (settings : ExportSettings)
    (video_clips : list VideoClip) (audio_path : string)
    (captions_path : option string) : IO string :=
  try_except
    (let resolution :=
       or_str (resolution settings)
         (preset_field (platform settings) preset_resolution "1080x1920") in
     let fps :=
       or_int (fps settings)
         (preset_field (platform settings) preset_fps 30) in
     let codec :=
       or_str (codec settings)
         (preset_field (platform settings) preset_codec "h.264") in
     let bitrate :=
       or_str (bit_rate settings)
         (preset_field (platform settings) preset_bitrate "8M") in
     let* d := datetime_now in
     let output_filename := "short_" +:+ strftime_stamp d +:+ ".mp4" in
     let output_path := path_join (output_dir self) output_filename in
     let* cmd :=
       _build_ffmpeg_command resolution fps codec bitrate video_clips
         audio_path captions_path in
     let* result := run cmd in
     if returncode result =? 0
     then ret output_path
     else raise (Exn "Exception" ("FFmpeg failed: " +:+ stderr result)))
    (fun e => raise e).

End VideoEngine.

(* ===================================================================== *)
(** ** main.py: the HTTP handlers over the services *)
(* ===================================================================== *)

Module Main.
Import Py Sys.

(** [AppState]; the services are created on first use. What a handler
    writes to [app.state] (the service it creates, the model it unloads
    when [current_vram_usage > 8]) does not reach its reply and is not
    returned here. The two [os.makedirs(..., exist_ok=True)] of the
    [AudioPipeline] constructor are taken to succeed and are not
    recorded. *)
Record AppState : Type := {
  ollama_client : option OllamaClient.t;
  audio_pipeline : option AudioPipeline.t;
  vram_available : Z;
  current_vram_usage : Z
}.

Definition initial : AppState :=
  {| ollama_client := None; audio_pipeline := None;
     vram_available := 12; current_vram_usage := 0 |}.

(** The dictionaries the handlers return. The [token_count] entry of the
    script handler, [len(str(result).split())], is left out. *)
Inductive ScriptResponse : Type :=
| ScriptSuccess (script : json) (duration_estimate_seconds : Z)
| ScriptFailure (error recommendation : string).

Inductive AudioResponse : Type :=
| AudioSuccess (audio_path : string) (duration_seconds : float)
| AudioFailure (error recommendation : string).

Definition generate_script (st : AppState)
    (request : OllamaClient.ScriptGenerationRequest) : IO ScriptResponse :=
  try_except
    (let client :=
       match ollama_client st with
       | Some c => c
       | None => OllamaClient.default
       end in
     let* result := OllamaClient.generate_script client request in
     ret (ScriptSuccess result
            (OllamaClient.target_duration_seconds request)))
    (fun e =>
       ret (ScriptFailure (exn_str e)
              "Try using a smaller model or reducing context length")).

Definition generate_audio (st : AppState)
    (request : AudioPipeline.AudioRequest) : IO AudioResponse :=
  try_except
    (let pipeline :=
       match audio_pipeline st with
       | Some p => p
       | None => AudioPipeline.default
       end in
     let* audio_path := AudioPipeline.generate_voiceover pipeline request in
     ret (AudioSuccess audio_path
            (AudioPipeline.spoken_length (AudioPipeline.text request)
               (AudioPipeline.speed (AudioPipeline.voice_settings request)))))
    (fun e =>
       ret (AudioFailure (exn_str e)
              "Try using preset voices instead of custom voice cloning")).

End Main.

(* ===================================================================== *)
(** ** ResourceBudget (section 4.1 of the specification) *)
(* ===================================================================== *)

Module ResourceBudget.

(** Modelled from the spec: the repository has no ResourceBudget (main.py
    only stores the constants [vram_available = 12] and
    [current_vram_usage = 0] and never updates them). The state follows
    the BudgetState of section 3: the total accelerator memory, the memory
    currently leased, the leases in force, and a FIFO queue of waiters. *)
Record BudgetState : Type := {
  total : N;
  leased : Z;
  active : gmap nat N;
  waiters : list (string * N);
  next_id : nat
}.

(** Modelled from the spec: what [acquire] answers: a lease, a place in
    the queue, or [ResourceUnavailable]. *)
Inductive answer : Type :=
| Granted (lease : nat)
| Queued
| ResourceUnavailable.

(** Modelled from the spec: the budget at startup, after the probe of
    the hardware. *)
Definition init (capacity : N) : BudgetState :=
  {| total := capacity; leased := 0; active := ∅; waiters := [];
     next_id := 0 |}.

(** Modelled from the spec: [available() -> memory]. *)
Definition available (st : BudgetState) : Z := Z.of_N (total st) - leased st.

(** Modelled from the spec: a lease of [mem] is written into the state. *)
Definition grant (st : BudgetState) (mem : N) : BudgetState :=
  {| total := total st;
     leased := leased st + Z.of_N mem;
     active := <[next_id st := mem]> (active st);
     waiters := waiters st;
     next_id := S (next_id st) |}.

(** Modelled from the spec: [acquire(stage_name, estimated_memory)]: an
    estimate above the ceiling fails at once and is never queued; one
    that fits the ceiling but not the headroom is queued in FIFO order;
    any other is granted. The exclusive mode is advisory metadata that
    the orchestrator checks; it does not touch the counters and is left
    out. *)
Definition acquire (st : BudgetState) (stage_name : string)
    (estimated_memory : N) : BudgetState * answer :=
  if (Z.of_N (total st) <? Z.of_N estimated_memory) then
    (st, ResourceUnavailable)
  else if (available st <? Z.of_N estimated_memory) then
    ({| total := total st; leased := leased st; active := active st;
        waiters := (waiters st ++ [(stage_name, estimated_memory)])%list;
        next_id := next_id st |}, Queued)
  else (grant st estimated_memory, Granted (next_id st)).

(** Modelled from the spec: queued requests are granted, first in first
    out, as leases are released: the head of the queue is served as long
    as it fits the headroom. *)
Fixpoint serve (queue : list (string * N)) (st : BudgetState)
  : BudgetState :=
  match queue with
  | [] => st
  | (stage, mem) :: rest =>
      if (available st <? Z.of_N mem) then st
      else
        serve rest
          (grant {| total := total st; leased := leased st;
                    active := active st; waiters := rest;
                    next_id := next_id st |} mem)
  end.

(** Modelled from the spec: [release(lease)] is idempotent: a lease that
    is not in force is left alone. *)
Definition release (st : BudgetState) (lease : nat) : BudgetState :=
  match active st !! lease with
  | None => st
  | Some mem =>
      let st' :=
        {| total := total st;
           leased := leased st - Z.of_N mem;
           active := delete lease (active st);
           waiters := waiters st;
           next_id := next_id st |} in
      serve (waiters st') st'
  end.

(** Modelled from the spec: a sequence of [acquire] and [release]
    calls. *)
Inductive op : Type :=
| Acquire (stage_name : string) (estimated_memory : N)
| Release (lease : nat).

Definition step (st : BudgetState) (o : op) : BudgetState :=
  match o with
  | Acquire stage mem => fst (acquire st stage mem)
  | Release lease => release st lease
  end.

Definition run (capacity : N) (ops : list op) : BudgetState :=
  fold_left step ops (init capacity).

(** The memory the leases in force add up to. *)
Definition reserved (m : gmap nat N) : Z :=
  map_fold (fun _ mem acc => Z.of_N mem + acc) 0 m.

(** The invariant of the budget of a machine with [capacity] memory: the
    ceiling is the one fixed at startup, the counter of leased memory is
    the sum of the leases in force and stays under the ceiling, and no
    lease in force has an identifier that is still to be issued. *)
Definition well_formed (capacity : N) (st : BudgetState) : Prop :=
  total st = capacity
  /\ leased st = reserved (active st)
  /\ leased st <= Z.of_N capacity
  /\ (forall k, (next_id st <= k)%nat -> active st !! k = None).

End ResourceBudget.

(* ===================================================================== *)
(** ** Reading an FFmpeg argument vector *)
(* ===================================================================== *)

Module FFmpeg.

(** FFmpeg reads its arguments from left to right. An option of
[value_options] takes the next argument as its value, whatever that
is; an option given several times for one output file keeps the value
given last. *)
Definition value_options : list string :=
  [ "-i"; "-af"; "-vf"; "-filter_complex"; "-map"; "-c:v"; "-c:a";
    "-b:v"; "-b:a"; "-maxrate"; "-bufsize"; "-profile:v"; "-level";
    "-movflags" ].

Definition takes_value (a : string) : bool :=
  existsb (String.eqb a) value_options.

(** The values given to the option [opt], in order. [pending] is the
option that waits for its value. *)
Fixpoint scan (opt : string) (args : list string) (pending : option string)
  : list string :=
  match args with
  | [] => []
  | a :: rest =>
      match pending with
      | Some o =>
          if String.eqb o opt then a :: scan opt rest None
          else scan opt rest None
      | None =>
          if takes_value a then scan opt rest (Some a)
          else scan opt rest None
      end
  end.

Definition option_values (opt : string) (cmd : list string) : list string :=
  scan opt (tl cmd) None.

Definition audio_filters (cmd : list string) : list string :=
  option_values "-af" cmd.

(** The audio filter FFmpeg runs for the output file. *)
Definition applied_audio_filter (cmd : list string) : option string :=
  last (audio_filters cmd).

(** The video encoder FFmpeg uses for the output file. *)
Definition video_encoder (cmd : list string) : option string :=
  last (option_values "-c:v" cmd).

(** The file the command writes: its last argument. *)
Definition output_file (cmd : list string) : option string :=
  last cmd.

End FFmpeg.

(* ===================================================================== *)
(** ** Concrete worlds and requests *)
(* ===================================================================== *)

Module Scenario.
Import Py Sys.

Definition ok_process : completed :=
  {| returncode := 0; stdout := EmptyString; stderr := EmptyString |}.

(** A machine on which every file is missing, every sub-process exits
    with 0 and nothing answers on HTTP. Its [json_loads] answers as
    [json.loads] does on the texts used below, none of which is JSON. *)
Definition plain_world : World :=
  {| path_exists := fun _ => false;
     subprocess_run := fun _ => Return ok_process;
     np_alloc := fun _ => None;
     sf_write := fun _ => None;
     str_hash := fun _ => 123456;
     now := DateTime 2024 1 2 3 4 5;
     http_post := fun _ _ => Raise (Exn "ClientConnectorError" "refused");
     json_loads := fun _ => Raise (Exn "JSONDecodeError" "Expecting value") |}.

(** The same machine without an [ffmpeg] executable: [subprocess.run]
    raises. *)
Definition no_ffmpeg_world : World :=
  {| path_exists := path_exists plain_world;
     subprocess_run :=
       fun _ => Raise (Exn "FileNotFoundError"
                         "[Errno 2] No such file or directory: 'ffmpeg'");
     np_alloc := np_alloc plain_world;
     sf_write := sf_write plain_world;
     str_hash := str_hash plain_world;
     now := now plain_world;
     http_post := http_post plain_world;
     json_loads := json_loads plain_world |}.

(** A machine whose language model answers every request with status
    200 and the given text. *)
Definition model_says (answer : string) : World :=
  {| path_exists := path_exists plain_world;
     subprocess_run := subprocess_run plain_world;
     np_alloc := np_alloc plain_world;
     sf_write := sf_write plain_world;
     str_hash := str_hash plain_world;
     now := now plain_world;
     http_post :=
       fun _ _ => Return (Response 200
                            (Return (JDict [("response", JStr answer)])));
     json_loads := json_loads plain_world |}.

Definition preset_settings : AudioPipeline.VoiceSettings :=
  {| AudioPipeline.voice_type := "preset";
     AudioPipeline.voice_id := "default";
     AudioPipeline.reference_audio_path := None;
     AudioPipeline.speed := float_of_int 1;
     AudioPipeline.pitch := float_of_int 1 |}.

Definition custom_settings : AudioPipeline.VoiceSettings :=
  {| AudioPipeline.voice_type := "custom";
     AudioPipeline.voice_id := "default";
     AudioPipeline.reference_audio_path := None;
     AudioPipeline.speed := float_of_int 1;
     AudioPipeline.pitch := float_of_int 1 |}.

(** [n] words separated by single spaces. *)
Fixpoint words (n : nat) : string :=
  match n with
  | O => EmptyString
  | S k => "habit " +:+ words k
  end.

(** The length in seconds of [data] played at [rate] samples a second. *)
Definition seconds_of (data : list Q) (rate : Z) : Q :=
  (inject_Z (Z.of_nat (length data)) / inject_Z rate)%Q.

(** Within ten percent of the 45 seconds of the scenario. *)
Definition within_tolerance (d : Q) : Prop :=
  (45 * (9 # 10) <= d /\ d <= 45 * (11 # 10))%Q.

(** The job of the end-to-end scenario. *)
Definition daily_habits : OllamaClient.ScriptGenerationRequest :=
  {| OllamaClient.topic := "daily habits";
     OllamaClient.target_duration_seconds := 45;
     OllamaClient.tone := "engaging";
     OllamaClient.style := "conversational";
     OllamaClient.request_model_name := "llama3.1:8b-q4_K_M" |}.

(** The settings of [test_video_engine]. *)
Definition shorts_settings : VideoEngine.ExportSettings :=
  {| VideoEngine.platform := "youtube-shorts";
     VideoEngine.resolution := Some "1080x1920";
     VideoEngine.fps := Some 30;
     VideoEngine.codec := Some "h.264";
     VideoEngine.bit_rate := Some "8M" |}.

End Scenario.

(* ===================================================================== *)
(** ** More of the Python runtime *)
(* ===================================================================== *)

Module PyMore.
Import Py.

(** [s.lstrip()], [s.rstrip()] and [s.strip()]: white space off the ends. *)
Fixpoint lstrip (s : string) : string :=
  match s with
  | EmptyString => EmptyString
  | String c s' => if isspace c then lstrip s' else s
  end.

Fixpoint rstrip (s : string) : string :=
  match s with
  | EmptyString => EmptyString
  | String c s' =>
      match rstrip s' with
      | EmptyString => if isspace c then EmptyString else String c EmptyString
      | r => String c r
      end
  end.

Definition strip (s : string) : string := rstrip (lstrip s).

(** [s.split(sep)] for a non-empty [sep]: the pieces between the
    occurrences of [sep], read left to right without overlap. [skip]
    counts the characters of a matched separator still to be dropped,
    [cur] is the piece being read. *)
Fixpoint split_sep_go (sep s : string) (skip : nat) (cur : string)
  : list string :=
  match s with
  | EmptyString => [cur]
  | String c s' =>
      match skip with
      | S k => split_sep_go sep s' k cur
      | O =>
          if String.prefix sep s
          then cur :: split_sep_go sep s' (Nat.pred (String.length sep))
                        EmptyString
          else split_sep_go sep s' O (cur +:+ String c EmptyString)
      end
  end.

Definition split_sep (sep s : string) : list string :=
  split_sep_go sep s O EmptyString.

(** [digits.zfill(width)] on a string of digits. *)
Definition zfill (width : nat) (digits : string) : string :=
  concat_all (repeat "0" (width - String.length digits)) +:+ digits.

(** The format [{n:0<width>d}]: zeros after the sign, up to [width]
    characters in all. *)
Definition format_0d (width : nat) (n : Z) : string :=
  if n <? 0
  then "-" +:+ zfill (Nat.pred width) (str_of_int (Z.abs n))
  else zfill width (str_of_int n).

(** Sequencing of two computations that may raise. *)
Definition and_then {A B} (m : outcome A) (k : A -> outcome B) : outcome B :=
  match m with
  | Return a => k a
  | Raise e => Raise e
  end.

(** *** Arithmetic of [float] *)

Definition fadd (x y : float) : float := SFadd 53 1024 x y.

Definition fsub (x y : float) : float := SFsub 53 1024 x y.

(** [x != 0.0] and [x < 0.0] as C has them: a NaN is not zero and is not
    below zero. *)
Definition nonzero (x : float) : bool :=
  match x with
  | S754_zero _ => false
  | _ => true
  end.

Definition negative (x : float) : bool := SFltb x (S754_zero false).

(** [copysign(0.0, y)] *)
Definition zero_like (y : float) : float :=
  match y with
  | S754_zero s | S754_infinity s | S754_finite s _ _ => S754_zero s
  | S754_nan => S754_zero false
  end.

(** [fmod(x, y)] of C: the remainder of the division truncated towards
    zero; it is exact and has the sign of [x]. *)
Definition c_fmod (x y : float) : float :=
  match x, y with
  | S754_nan, _ | _, S754_nan => S754_nan
  | S754_infinity _, _ => S754_nan
  | _, S754_zero _ => S754_nan
  | S754_zero _, _ => x
  | S754_finite _ _ _, S754_infinity _ => x
  | S754_finite sx mx ex, S754_finite _ my ey =>
      let e := Z.min ex ey in
      let r := (Z.pos mx * 2 ^ (ex - e)) mod (Z.pos my * 2 ^ (ey - e)) in
      if r =? 0 then S754_zero sx
      else binary_normalize 53 1024 (if sx then - r else r) e false
  end.

(** [floor(x)] of C. *)
Definition c_floor (x : float) : float :=
  match x with
  | S754_finite s m e =>
      if 0 <=? e then x
      else
        let n := (if s then Z.neg m else Z.pos m) / 2 ^ (- e) in
        if n =? 0 then S754_zero s else float_of_int n
  | _ => x
  end.

Definition zero_division {A} : outcome A :=
  Raise (Exn "ZeroDivisionError" "float modulo").

(** [x % y] on floats ([float_rem] of CPython). *)
Definition float_mod (x y : float) : outcome float :=
  if negb (nonzero y) then zero_division
  else
    let r := c_fmod x y in
    Return (if nonzero r
            then if xorb (negative y) (negative r) then fadd r y else r
            else zero_like y).

(** [x // y] on floats ([float_floor_div] of CPython). *)
Definition float_floordiv (x y : float) : outcome float :=
  if negb (nonzero y)
  then Raise (Exn "ZeroDivisionError" "float floor division by zero")
  else
    let r := c_fmod x y in
    let div := fdiv (fsub x r) y in
    let div :=
      if nonzero r && xorb (negative y) (negative r)
      then fsub div (float_of_int 1)
      else div in
    Return (if nonzero div
            then
              let fl := c_floor div in
              if SFltb (truediv 1 2) (fsub div fl)
              then fadd fl (float_of_int 1)
              else fl
            else zero_like (fdiv x y)).

(** [p] holds of the [2 ^ depth] integers from [lo] on. *)
Fixpoint range_all (depth : nat) (lo : Z) (p : Z -> bool) : bool :=
  match depth with
  | O => p lo
  | S d => range_all d lo p && range_all d (lo + 2 ^ Z.of_nat d) p
  end.

End PyMore.

(* ===================================================================== *)
(** ** More of the outside world *)
(* ===================================================================== *)

Module Host.
Import Py Sys.

(** A segment and the summary that [WhisperModel.transcribe] yields. *)
Record raw_segment : Type := {
  seg_start : float;
  seg_end : float;
  seg_text : string
}.

Record transcription_info : Type := {
  language : string;
  language_probability : float;
  duration : float
}.

(** What [import torch] followed by [torch.cuda.is_available()] does:
    it answers, the import raises [ImportError] (or a subclass of it,
    as [ModuleNotFoundError]), or something else is raised. *)
Inductive gpu_probe : Type :=
| Answers (b : bool)
| ImportFails
| ProbeRaises (e : exn).

(** What the remaining functions read from outside themselves, besides
    the [World]. These calls leave no trace in the list of effects. *)
Record Oracles : Type := {
  http_get : string -> outcome http_response;        (* session.get *)
  str_float : float -> string;                       (* str(x), x a float *)
  float_of_str : string -> outcome float;            (* float(s) *)
  int_of_str : string -> outcome Z;                  (* int(s) *)
  makedirs : string -> option exn;
      (* os.makedirs(path, exist_ok=True): [None] is success *)
  getsize : string -> outcome Z;                     (* os.path.getsize *)
  cuda_is_available : gpu_probe;
      (* import torch; torch.cuda.is_available() *)
  cuda_total_memory : outcome Z;
      (* torch.cuda.get_device_properties(0).total_memory *)
  whisper_model : string -> string -> string -> string -> outcome nat;
      (* WhisperModel(size, device=, compute_type=, download_root=) *)
  model_transcribe :
    nat -> string -> option string
    -> outcome (list raw_segment * transcription_info);
      (* model.transcribe(audio_path, language=, ...), its segments read
         to the end *)
  http_exception_str : Z -> string -> string
      (* str(HTTPException(status_code, detail)) *)
}.

(** [os.makedirs(path, exist_ok=True)] *)
Definition os_makedirs (o : Oracles) (path : string) : IO unit :=
  fun _ => match makedirs o path with
           | None => ([], Return tt)
           | Some e => ([], Raise e)
           end.

End Host.

(* ===================================================================== *)
(** ** ollama_client.py: the remaining methods *)
(* ===================================================================== *)

Module OllamaClientRest.
Import Py Sys Host OllamaClient.

(** [ScriptRefinementRequest] of main.py. *)
Record ScriptRefinementRequest : Type := {
  script : string;
  refine_duration_seconds : Z;
  adjustments : list string
}.

(** [list_models] *)
Definition list_models (o : Oracles) (self : OllamaClient.t) : IO json :=
  try_except
    (let* response :=
       (fun _ => ([], http_get o (base_url self +:+ "/api/tags"))) in
     if status response =? 200 then
       let* data := response_json response in
       dict_get data "models" (JList [])
     else ret (JList []))
    (fun _ => ret (JList [])).

Definition refine_system_prompt : string :=
  join_lines
    [ EmptyString;
      indent +:+ "You are a script editor who specializes in short-form video content.";
      indent +:+ "Your job is to refine scripts to meet specific duration and tone requirements.";
      indent ].

(** ["\n".join(f"- {adj}" for adj in request.adjustments)] *)
Definition adjustments_str (adjs : list string) : string :=
  join_lines (map (fun adj => "- " +:+ adj) adjs).

Definition refine_user_prompt (request : ScriptRefinementRequest) : string :=
  join_lines
    [ EmptyString;
      indent +:+ "Refine the following script to better meet the requirements:";
      indent;
      indent +:+ "Target duration: "
        +:+ str_of_int (refine_duration_seconds request) +:+ " seconds";
      indent +:+ "Current script length: ~"
        +:+ str_of_int (Z.of_nat (length (split (script request))))
        +:+ " words";
      indent;
      indent +:+ "Adjustments requested:";
      indent +:+ adjustments_str (adjustments request);
      indent;
      indent +:+ "Requirements:";
      indent +:+ "- Shorten or expand to hit the target duration exactly";
      indent +:+ "- Maintain the core message and engaging tone";
      indent +:+ "- Keep the same scene structure but adjust content";
      indent;
      indent +:+ "Return the refined script as JSON with:";
      indent +:+ "- title: Refined title";
      indent +:+ "- scenes: Array of scenes with adjusted content";
      indent +:+ "- hashtags: Updated hashtags";
      indent ].

Definition refine_payload (self : OllamaClient.t)
    (request : ScriptRefinementRequest) : json :=
  JDict [ ("model", JStr (model_name self));
          ("prompt", JStr ("system" +:+ nl +:+ refine_system_prompt +:+ nl
                           +:+ "user" +:+ nl +:+ refine_user_prompt request
                           +:+ nl +:+ "assistant"));
          ("stream", JBool false);
          ("options", JDict [ ("num_predict", JInt 1024);
                              ("temperature", JFloat (5 # 10)) ]) ].

(** The script built around the original text when [json.loads] rejects
    the answer. *)
Definition unrefined_script (request : ScriptRefinementRequest) : json :=
  JDict [ ("title", JStr "Refined Video Script");
          ("scenes",
            JList [ JDict [ ("duration", JInt (refine_duration_seconds request));
                            ("visual", JStr "Generic visual");
                            ("voiceover", JStr (script request)) ] ]);
          ("hashtags", JList [JStr "#shorts"; JStr "#video"]) ].

(** The [try] block of lines 224-237. *)
Definition parse_refined (request : ScriptRefinementRequest)
    (response_text : json) : IO (option json) :=
  try_except_class "JSONDecodeError"
    (let* txt := as_str response_text in
     let json_start := find "{" txt in
     if negb (json_start =? -1) then
       let json_end := rfind "}" txt + 1 in
       if json_end >? json_start then
         let json_str := slice txt json_start json_end in
         let* v := loads json_str in
         ret (Some v)
       else ret None
     else ret None)
    (ret (Some (unrefined_script request))).

Definition refine_script (self : OllamaClient.t)
    (request : ScriptRefinementRequest) : IO json :=
  try_except
    (let* self1 :=
       if negb (is_model_loaded self)
       then (let* r := load_model self None in ret (fst r))
       else ret self in
     let* response :=
       post (base_url self1 +:+ "/api/generate")
         (refine_payload self1 request) in
     let* returned :=
       if status response =? 200 then
         let* data := response_json response in
         let* response_text := dict_get data "response" (JStr EmptyString) in
         parse_refined request response_text
       else ret None in
     match returned with
     | Some v => ret v
     | None => ret JNone
     end)
    (fun e => raise e).

End OllamaClientRest.

(* ===================================================================== *)
(** ** audio_pipeline.py: the remaining methods *)
(* ===================================================================== *)

Module AudioPipelineRest.
Import Py PyMore Sys Host AudioPipeline.

Definition ffprobe_cmd (audio_path : string) : list string :=
  [ "ffprobe"; "-v"; "error";
    "-show_entries"; "format=duration";
    "-of"; "default=noprint_wrappers=1:nokey=1";
    audio_path ].

(** [_get_audio_duration] *)
Definition _get_audio_duration (o : Oracles) (audio_path : string)
  : IO float :=
  try_except
    (let* result := run (ffprobe_cmd audio_path) in
     pure (float_of_str o (strip (stdout result))))
    (fun _ => ret (float_of_int 60)).

(** What [_get_audio_duration] returns on a world, in closed form. *)
Definition measured_duration (o : Oracles) (w : World) (audio_path : string)
  : float :=
  match subprocess_run w (ffprobe_cmd audio_path) with
  | Return result =>
      match float_of_str o (strip (stdout result)) with
      | Return x => x
      | Raise _ => float_of_int 60
      end
  | Raise _ => float_of_int 60
  end.

(** The two mixing commands of [apply_auto_ducking]. *)
Definition ducking_cmd (voice_path music_path loop_music duration
                          output_path : string) : list string :=
  [ "ffmpeg"; "-y";
    "-i"; voice_path;
    "-i"; music_path;
    "-filter_complex";
    "[1:a]" +:+ loop_music +:+ "[music];"
      +:+ "[0:a][music]sidechaincompress=threshold=0.01:ratio=6:attack=200:release=2000:makeup=1dB[ducked]";
    "-map"; "[ducked]";
    "-map"; "0:a";
    "-c:a"; "aac";
    "-b:a"; "192k";
    "-t"; duration;
    output_path ].

Definition mix_cmd (voice_path music_path loop_music output_path : string)
  : list string :=
  [ "ffmpeg"; "-y";
    "-i"; voice_path;
    "-i"; music_path;
    "-filter_complex";
    "[1:a]" +:+ loop_music +:+ "[music];"
      +:+ "[0:a][music]amix=inputs=2:duration=first:dropout_transition=0";
    "-c:a"; "aac";
    "-b:a"; "192k";
    output_path ].

(** [apply_auto_ducking] *)
Definition apply_auto_ducking (o : Oracles)
    (voice_path music_path output_path : string) : IO string :=
  try_except
    (let* voice_duration := _get_audio_duration o voice_path in
     let* music_duration := _get_audio_duration o music_path in
     let* size :=
       pure (int_of_number
               (Float (fmul voice_duration (float_of_int 44100)))) in
     let loop_music := "loop=loop=-1:size=" +:+ str_of_int size in
     let* result :=
       run (ducking_cmd voice_path music_path loop_music
              (str_float o voice_duration) output_path) in
     if returncode result =? 0 then ret output_path
     else
       run (mix_cmd voice_path music_path loop_music output_path) ;;;
       ret output_path)
    (fun e => raise e).

(** [create_background_music] *)
Definition create_background_music (self : AudioPipeline.t) (mood : string)
    (duration : float) : IO string :=
  try_except
    (let* h := hash mood in
     let output_path :=
       path_join (audio_dir self)
         ("background_" +:+ mood +:+ "_" +:+ str_of_int (abs_mod h 10000)
          +:+ ".mp3") in
     let sample_rate := 44100 in
     let* n :=
       pure (int_of_number
               (Float (fmul (float_of_int sample_rate) duration))) in
     allocate n ;;;
     let audio_data := np_zeros n in
     write output_path audio_data sample_rate ;;;
     ret output_path)
    (fun e => raise e).

End AudioPipelineRest.

(* ===================================================================== *)
(** ** video_engine.py: the remaining methods *)
(* ===================================================================== *)

Module VideoEngineRest.
Import Py PyMore Sys Host VideoEngine.

Definition text_overlay_cmd (text duration output_path : string)
  : list string :=
  [ "ffmpeg"; "-y";
    "-f"; "lavfi"; "-i"; "color=c=black:s=1080x1920:d=10";
    "-vf";
    "drawtext=text='" +:+ text
      +:+ "':fontcolor=white:fontsize=48:x=(w-text_w)/2:y=(h-text_h)/2:borderw=2:bordercolor=black:box=1:boxcolor=black@0.5";
    "-c:v"; "h264";
    "-b:v"; "5M";
    "-t"; duration;
    "-pix_fmt"; "yuv420p";
    output_path ].

(** [create_text_overlay]; the [style] argument is not read. *)
Definition create_text_overlay (o : Oracles) (self : VideoEngine.t)
    (text : string) (duration : float) (style : string) : IO string :=
  try_except
    (let* h := hash text in
     let output_path :=
       path_join (video_dir self)
         ("text_" +:+ str_of_int (abs_mod h 10000) +:+ ".mp4") in
     let* result :=
       run (text_overlay_cmd text (str_float o duration) output_path) in
     if returncode result =? 0 then ret output_path
     else raise (Exn "Exception"
                   ("Text overlay creation failed: " +:+ stderr result)))
    (fun e => raise e).

Definition crossfade_cmd (fade_out_start duration output_path : string)
  : list string :=
  [ "ffmpeg"; "-y";
    "-f"; "lavfi"; "-i"; "color=c=black:s=1080x1920:d=1";
    "-f"; "lavfi"; "-i"; "color=c=white:s=1080x1920:d=1";
    "-filter_complex";
    "fade=t=in:st=0:d=0.5,fade=t=out:st=" +:+ fade_out_start +:+ ":d=0.5";
    "-c:v"; "h264";
    "-t"; duration;
    output_path ].

Definition fade_cmd (duration output_path : string) : list string :=
  [ "ffmpeg"; "-y";
    "-f"; "lavfi"; "-i"; "color=c=black:s=1080x1920:d=" +:+ duration;
    "-c:v"; "h264";
    output_path ].

(** [create_transition] *)
Definition create_transition (o : Oracles) (self : VideoEngine.t)
    (transition_type : string) (duration : float) : IO string :=
  try_except
    (let* h := hash (transition_type +:+ str_float o duration) in
     let output_path :=
       path_join (video_dir self)
         ("transition_" +:+ transition_type +:+ "_"
          +:+ str_of_int (abs_mod h 10000) +:+ ".mp4") in
     let cmd :=
       if String.eqb transition_type "crossfade"
       then crossfade_cmd (str_float o (fsub duration (truediv 1 2)))
              (str_float o duration) output_path
       else fade_cmd (str_float o duration) output_path in
     let* result := run cmd in
     if returncode result =? 0 then ret output_path
     else raise (Exn "Exception"
                   ("Transition creation failed: " +:+ stderr result)))
    (fun e => raise e).

(** The clips [_build_ffmpeg_command] keeps on a world: those whose
    file exists, a clip without a path standing for
    [video_clip_<index>.mp4]. *)
Fixpoint kept_clips (w : World) (clips : list VideoClip) (i : Z)
  : list string :=
  match clips with
  | [] => []
  | clip :: rest =>
      let video_path :=
        match clip_path clip with
        | Some p => p
        | None => "video_clip_" +:+ str_of_int i +:+ ".mp4"
        end in
      if path_exists w video_path
      then video_path :: kept_clips w rest (i + 1)
      else kept_clips w rest (i + 1)
  end.

(** Whether the subtitles filter is added on a world. *)
Definition captions_found (w : World) (captions_path : option string)
  : bool :=
  match captions_path with
  | Some (String c p) => path_exists w (String c p)
  | _ => false
  end.

(** A [settings] object as [export_video] reads it: an attribute may be
    missing ([None]), and a present attribute may hold [None]. *)
Record SettingsObject : Type := {
  class_name : string;
  platform_attr : option string;
  resolution_attr : option (option string);
  fps_attr : option (option Z);
  codec_attr : option (option string);
  bit_rate_attr : option (option string)
}.

(** [settings.<name>] *)
Definition getattr {A} (obj : SettingsObject) (name : string)
    (field : option A) : IO A :=
  match field with
  | Some v => ret v
  | None =>
      raise (Exn "AttributeError"
               ("'" +:+ class_name obj +:+ "' object has no attribute '"
                +:+ name +:+ "'"))
  end.

(** [settings.<name> or platform_presets.get(settings.platform, {})
    .get(<key>, <default>)] for a string and for an integer attribute:
    [settings.platform] is read only when the attribute is falsy. *)
Definition attr_or_str (obj : SettingsObject) (name : string)
    (field : option (option string)) (key : preset -> string)
    (default : string) : IO string :=
  let* v := getattr obj name field in
  match v with
  | Some (String c r) => ret (String c r)
  | _ =>
      let* p := getattr obj "platform" (platform_attr obj) in
      ret (preset_field p key default)
  end.

Definition attr_or_int (obj : SettingsObject) (name : string)
    (field : option (option Z)) (key : preset -> Z) (default : Z) : IO Z :=
  let* v := getattr obj name field in
  match v with
  | Some k =>
      if k =? 0
      then (let* p := getattr obj "platform" (platform_attr obj) in
            ret (preset_field p key default))
      else ret k
  | None =>
      let* p := getattr obj "platform" (platform_attr obj) in
      ret (preset_field p key default)
  end.

(** [export_video] on a settings object. *)
Definition export_video_obj (self : VideoEngine.t) (settings : SettingsObject)
    (video_clips : list VideoClip) (audio_path : string)
    (captions_path : option string) : IO string :=
  try_except
    (let* resolution :=
       attr_or_str settings "resolution" (resolution_attr settings)
         preset_resolution "1080x1920" in
     let* fps :=
       attr_or_int settings "fps" (fps_attr settings) preset_fps 30 in
     let* codec :=
       attr_or_str settings "codec" (codec_attr settings)
         preset_codec "h.264" in
     let* bitrate :=
       attr_or_str settings "bit_rate" (bit_rate_attr settings)
         preset_bitrate "8M" in
     let* d := datetime_now in
     let output_filename := "short_" +:+ strftime_stamp d +:+ ".mp4" in
     let output_path := path_join (output_dir self) output_filename in
     let* cmd :=
       _build_ffmpeg_command resolution fps codec bitrate video_clips
         audio_path captions_path in
     let* result := run cmd in
     if returncode result =? 0
     then ret output_path
     else raise (Exn "Exception" ("FFmpeg failed: " +:+ stderr result)))
    (fun e => raise e).

(** The object a record of settings stands for: every attribute is
    there. *)
Definition object_of (settings : ExportSettings) : SettingsObject :=
  {| class_name := "SimpleNamespace";
     platform_attr := Some (platform settings);
     resolution_attr := Some (resolution settings);
     fps_attr := Some (fps settings);
     codec_attr := Some (codec settings);
     bit_rate_attr := Some (bit_rate settings) |}.

End VideoEngineRest.

(* ===================================================================== *)
(** ** whisper_service.py *)
(* ===================================================================== *)

Module WhisperService.
Import Py PyMore Sys Host.

(** The attributes of a service; [model] is the handle of the loaded
    model, if any. *)
Record t : Type := {
  model_dir : string;
  device : string;
  compute_type : string;
  model : option nat;
  model_name : string
}.

(** A caption segment as [transcribe] stores it. *)
Record segment : Type := {
  start : float;
  end_ : float;
  text : string
}.

(** The dictionary [transcribe] returns. *)
Record transcription : Type := {
  full_text : string;
  srt : string;
  segments : list segment;
  detected_language : string;
  detected_probability : float;
  audio_duration : float
}.

(** [_check_gpu]: only a failing import is absorbed. *)
Definition _check_gpu (o : Oracles) : outcome bool :=
  match cuda_is_available o with
  | Answers b => Return b
  | ImportFails => Return false
  | ProbeRaises e => Raise e
  end.

Definition set_device (self : t) (d : string) : t :=
  {| model_dir := model_dir self; device := d;
     compute_type := compute_type self; model := model self;
     model_name := model_name self |}.

Definition set_compute_type (self : t) (c : string) : t :=
  {| model_dir := model_dir self; device := device self;
     compute_type := c; model := model self;
     model_name := model_name self |}.

Definition set_model (self : t) (h : nat) (name : string) : t :=
  {| model_dir := model_dir self; device := device self;
     compute_type := compute_type self; model := Some h;
     model_name := name |}.

(** The choice of device of [_load_model], lines 98-116.
    [total_memory / (1024**3) < 6] is decided on the integers: the
    quotient of an integer by a power of two is rounded only from 2^53
    on. *)
Definition choose_device (o : Oracles) (self : t) (use_gpu : bool)
  : t * outcome unit :=
  match (if use_gpu then _check_gpu o else Return false) with
  | Raise e => (self, Raise e)
  | Return true =>
      match cuda_total_memory o with
      | Return total_memory =>
          if total_memory <? 6 * 1024 ^ 3
          then (set_device self "cpu", Return tt)
          else (set_compute_type (set_device self "cuda") "float16",
                Return tt)
      | Raise _ => (set_device self "cpu", Return tt)
      end
  | Return false =>
      (set_compute_type (set_device self "cpu") "int8", Return tt)
  end.

(** [_load_model]: the service as it leaves it, also when it raises. *)
Definition _load_model (o : Oracles) (self : t) (model_size : string)
    (use_gpu : bool) : t * outcome unit :=
  match choose_device o self use_gpu with
  | (self1, Raise e) => (self1, Raise e)
  | (self1, Return _) =>
      match whisper_model o model_size (device self1) (compute_type self1)
              (model_dir self1) with
      | Return h => (set_model self1 h model_size, Return tt)
      | Raise e => (self1, Raise e)
      end
  end.

(** [int(x)] on a float. *)
Definition int_of (x : float) : outcome Z := int_of_number (Float x).

(** [_format_timestamp] *)
Definition _format_timestamp (seconds : float) : outcome string :=
  and_then (float_floordiv seconds (float_of_int 3600)) (fun q =>
  and_then (int_of q) (fun hours =>
  and_then (float_mod seconds (float_of_int 3600)) (fun r =>
  and_then (float_floordiv r (float_of_int 60)) (fun q =>
  and_then (int_of q) (fun minutes =>
  and_then (float_mod seconds (float_of_int 60)) (fun r =>
  and_then (int_of r) (fun secs =>
  and_then (float_mod seconds (float_of_int 1)) (fun r =>
  and_then (int_of (fmul r (float_of_int 1000))) (fun ms =>
  Return (format_0d 2 hours +:+ ":" +:+ format_0d 2 minutes +:+ ":"
          +:+ format_0d 2 secs +:+ "," +:+ format_0d 3 ms)))))))))).

(** One block of an SRT file. *)
Definition srt_block (i : Z) (seg : segment) : outcome string :=
  and_then (_format_timestamp (start seg)) (fun start_time =>
  and_then (_format_timestamp (end_ seg)) (fun end_time =>
  Return (str_of_int i +:+ nl
          +:+ start_time +:+ " --> " +:+ end_time +:+ nl
          +:+ text seg +:+ nl +:+ nl))).

(** The loop of [_segments_to_srt], from the index [i] on, after
    [srt_content]. *)
Fixpoint srt_from (i : Z) (segs : list segment) (srt_content : string)
  : outcome string :=
  match segs with
  | [] => Return srt_content
  | seg :: rest =>
      and_then (srt_block i seg) (fun block =>
      srt_from (i + 1) rest (srt_content +:+ block))
  end.

Definition _segments_to_srt (segs : list segment) : outcome string :=
  srt_from 1 segs EmptyString.

(** The loop of [transcribe], lines 65-76: the text gathered so far and
    the segments. *)
Fixpoint collect (raw : list raw_segment) (gathered : string)
  : string * list segment :=
  match raw with
  | [] => (gathered, [])
  | r :: rest =>
      let segment_text := strip (seg_text r) in
      let '(final, segs) :=
        collect rest (gathered +:+ segment_text +:+ " ") in
      (final,
       {| start := seg_start r; end_ := seg_end r; text := segment_text |}
       :: segs)
  end.

(** [transcribe]: the service as it leaves it, and its result. *)
Definition transcribe (o : Oracles) (self : t) (audio_path model_size : string)
    (lang : option string) (use_gpu : bool) : t * outcome transcription :=
  let '(self1, loaded) :=
    match model self with
    | Some _ =>
        if negb (String.eqb (model_name self) model_size)
        then _load_model o self model_size use_gpu
        else (self, Return tt)
    | None => _load_model o self model_size use_gpu
    end in
  match loaded, model self1 with
  | Raise e, _ => (self1, Raise e)
  | Return _, None =>
      (self1, Raise (Exn "AttributeError"
                       "'NoneType' object has no attribute 'transcribe'"))
  | Return _, Some h =>
      match model_transcribe o h audio_path lang with
      | Raise e => (self1, Raise e)
      | Return (raw, info) =>
          let '(gathered, segs) := collect raw EmptyString in
          (self1,
           and_then (_segments_to_srt segs) (fun srt_content =>
           Return {| full_text := strip gathered;
                     srt := srt_content;
                     segments := segs;
                     detected_language := language info;
                     detected_probability := language_probability info;
                     audio_duration := duration info |}))
      end
  end.

Definition burn_cmd (video_path captions_path output_path : string)
  : list string :=
  [ "ffmpeg"; "-y";
    "-i"; video_path;
    "-vf";
    "subtitles=" +:+ captions_path
      +:+ ":force_style='Fontsize=24,PrimaryColour=&H00FFFF,Outline=1,Shadow=1,MarginV=100'";
    "-c:v"; "h264";
    "-b:v"; "8M";
    "-c:a"; "copy";
    output_path ].

(** [burn_captions]; the [style] argument is not read. *)
Definition burn_captions (video_path captions_path output_path style : string)
  : IO string :=
  try_except
    (let* result := run (burn_cmd video_path captions_path output_path) in
     if returncode result =? 0 then ret output_path
     else raise (Exn "Exception"
                   ("Caption burning failed: " +:+ stderr result)))
    (fun e => raise e).

End WhisperService.

(* ===================================================================== *)
(** ** main.py: the remaining handlers and the startup checks *)
(* ===================================================================== *)

Module MainRest.
Import Py PyMore Sys Host.

(** [ProjectSettings]: the model has no [codec] field. *)
Record ProjectSettings : Type := {
  platform : string;
  resolution : string;
  fps : Z;
  bit_rate : string
}.

(** A [ProjectSettings] instance as an object with attributes. *)
Definition as_object (settings : ProjectSettings)
  : VideoEngineRest.SettingsObject :=
  {| VideoEngineRest.class_name := "ProjectSettings";
     VideoEngineRest.platform_attr := Some (platform settings);
     VideoEngineRest.resolution_attr := Some (Some (resolution settings));
     VideoEngineRest.fps_attr := Some (Some (fps settings));
     VideoEngineRest.codec_attr := None;
     VideoEngineRest.bit_rate_attr := Some (Some (bit_rate settings)) |}.

(** The dictionaries of the handlers. *)
Inductive ExportResponse : Type :=
| ExportSuccess (video_path : string) (file_size_bytes : Z)
| ExportFailure (error recommendation : string).

Inductive DuckingResponse : Type :=
| DuckingSuccess (output_path : string)
| DuckingFailure (error : string).

Inductive RefineResponse : Type :=
| RefineSuccess (script : json)
| RefineFailure (error : string).

Inductive ModelsResponse : Type :=
| ModelsSuccess (models : json)
| ModelsFailure (error : string).

(** [VideoEngine()] and [AudioPipeline()]: the constructors create their
    directories. *)
Definition new_video_engine (o : Oracles) : IO VideoEngine.t :=
  let self := VideoEngine.default in
  os_makedirs o (VideoEngine.video_dir self) ;;;
  os_makedirs o (VideoEngine.output_dir self) ;;;
  ret self.

Definition new_audio_pipeline (o : Oracles) : IO AudioPipeline.t :=
  let self := AudioPipeline.default in
  os_makedirs o (AudioPipeline.audio_dir self) ;;;
  os_makedirs o "assets/audio/voices" ;;;
  ret self.

(** [export_video]; [video_engine] is [app.state.video_engine]. *)
Definition export_video (o : Oracles) (video_engine : option VideoEngine.t)
    (settings : ProjectSettings)
    (video_clips : list VideoEngine.VideoClip) (audio_path : string)
    (captions_path : option string) : IO ExportResponse :=
  try_except
    (let* engine :=
       match video_engine with
       | Some engine => ret engine
       | None => new_video_engine o
       end in
     let* result_path :=
       VideoEngineRest.export_video_obj engine (as_object settings)
         video_clips audio_path captions_path in
     let* size := pure (getsize o result_path) in
     ret (ExportSuccess result_path size))
    (fun e =>
       ret (ExportFailure (exn_str e)
              "Try reducing resolution or FPS settings")).

(** [apply_audio_ducking] *)
Definition apply_audio_ducking (o : Oracles) (st : Main.AppState)
    (voice_path music_path output_path : string) : IO DuckingResponse :=
  try_except
    (match Main.audio_pipeline st with
     | Some _ => ret tt
     | None => new_audio_pipeline o ;;; ret tt
     end ;;;
     let* result_path :=
       AudioPipelineRest.apply_auto_ducking o voice_path music_path
         output_path in
     ret (DuckingSuccess result_path))
    (fun e => ret (DuckingFailure (exn_str e))).

(** [refine_script]; the [token_count] entry is left out. *)
Definition refine_script (st : Main.AppState)
    (request : OllamaClientRest.ScriptRefinementRequest)
  : IO RefineResponse :=
  try_except
    (let client :=
       match Main.ollama_client st with
       | Some c => c
       | None => OllamaClient.default
       end in
     let* result := OllamaClientRest.refine_script client request in
     ret (RefineSuccess result))
    (fun e => ret (RefineFailure (exn_str e))).

(** [list_available_models] *)
Definition list_available_models (o : Oracles) : IO ModelsResponse :=
  try_except
    (let* models := OllamaClientRest.list_models o OllamaClient.default in
     ret (ModelsSuccess models))
    (fun e => ret (ModelsFailure (exn_str e))).

Definition nvidia_smi_cmd : list string :=
  [ "nvidia-smi"; "--query-gpu=name,memory.total";
    "--format=csv,noheader,nounits" ].

(** [gpu_name, vram = gpu_info.split(", ")] *)
Definition unpack_pair (parts : list string) : IO (string * string) :=
  match parts with
  | [a; b] => ret (a, b)
  | _ :: _ :: _ :: _ =>
      raise (Exn "ValueError" "too many values to unpack (expected 2)")
  | _ =>
      raise (Exn "ValueError"
               ("not enough values to unpack (expected 2, got "
                +:+ str_of_int (Z.of_nat (length parts)) +:+ ")"))
  end.

(** [check_gpu_availability] *)
Definition check_gpu_availability (o : Oracles) : IO bool :=
  try_except
    (let* result := run nvidia_smi_cmd in
     if returncode result =? 0 then
       let gpu_info := strip (stdout result) in
       let* pair := unpack_pair (split_sep ", " gpu_info) in
       let* vram_int := pure (int_of_str o (strip (snd pair))) in
       ret (12 <=? vram_int)
     else ret false)
    (fun _ => ret false).

(** [check_ffmpeg] *)
Definition check_ffmpeg : IO bool :=
  try_except
    (let* result := run ["ffmpeg"; "-version"] in
     ret (returncode result =? 0))
    (fun _ => ret false).

(** What [download_file] ends with: a [FileResponse], or an
    [HTTPException]. *)
Inductive download : Type :=
| FileResponse (file_path filename : string)
| HTTPException (status_code : Z) (detail : string).

Definition search_paths : list string :=
  [ "output/"; "assets/audio/"; "assets/video/"; "models/"; "projects/" ].

(** The loop of [download_file]: the first directory that has the
    file. *)
Fixpoint first_existing (w : World) (dirs : list string) (filename : string)
  : option string :=
  match dirs with
  | [] => None
  | path :: rest =>
      let file_path := path_join path filename in
      if path_exists w file_path then Some file_path
      else first_existing w rest filename
  end.

(** [download_file]: the [HTTPException] raised in the [try] block is an
    [Exception], so the handler of the same block catches it. *)
Definition download_file (o : Oracles) (w : World) (filename : string)
  : download :=
  let attempt :=
    match first_existing w search_paths filename with
    | Some file_path => FileResponse file_path filename
    | None => HTTPException 404 ("File " +:+ filename +:+ " not found")
    end in
  match attempt with
  | FileResponse file_path name => FileResponse file_path name
  | HTTPException status_code detail =>
      HTTPException 500 (http_exception_str o status_code detail)
  end.

End MainRest.
(* ===================================================================== *)
(** ** More concrete worlds *)
(* ===================================================================== *)

Module ScenarioRest.
Import Py Sys Host Scenario.

(** A machine whose language model answers every request with the given
    status and no usable body. *)
Definition backend_status (code : Z) : World :=
  {| path_exists := path_exists plain_world;
     subprocess_run := subprocess_run plain_world;
     np_alloc := np_alloc plain_world;
     sf_write := sf_write plain_world;
     str_hash := str_hash plain_world;
     now := now plain_world;
     http_post :=
       fun _ _ => Return (Response code
                            (Raise (Exn "ContentTypeError" "unexpected mimetype")));
     json_loads := json_loads plain_world |}.

(** A machine whose language model wraps an empty JSON object in a
    Markdown fence; [json_loads] answers as [json.loads] does on that
    object and on text that is not JSON. *)
Definition fenced_answer : string :=
  "```json" +:+ nl +:+ "{}" +:+ nl +:+ "```".

Definition fenced_world : World :=
  {| path_exists := path_exists plain_world;
     subprocess_run := subprocess_run plain_world;
     np_alloc := np_alloc plain_world;
     sf_write := sf_write plain_world;
     str_hash := str_hash plain_world;
     now := now plain_world;
     http_post :=
       fun _ _ => Return (Response 200
                            (Return (JDict [("response", JStr fenced_answer)])));
     json_loads :=
       fun s => if String.eqb s "{}" then Return (JDict [])
                else Raise (Exn "JSONDecodeError" "Expecting value") |}.

(** Oracles of a machine without network, GPU or speech model. Its
    [float] and [int] read no text as a number and its [str] prints as
    Python does on the floats used below, 60.0, 1.0, 0.5 and 0.0. *)
Definition plain_oracles : Oracles :=
  {| http_get := fun _ => Raise (Exn "ClientConnectorError" "refused");
     str_float :=
       fun x => if SFeqb x (float_of_int 60) then "60.0"
                else if SFeqb x (float_of_int 1) then "1.0"
                else if SFeqb x (truediv 1 2) then "0.5"
                else "0.0";
     float_of_str :=
       fun s => Raise (Exn "ValueError"
                         ("could not convert string to float: '" +:+ s +:+ "'"));
     int_of_str :=
       fun s => Raise (Exn "ValueError"
                         ("invalid literal for int() with base 10: '" +:+ s
                          +:+ "'"));
     makedirs := fun _ => None;
     getsize :=
       fun p => Raise (Exn "FileNotFoundError"
                         ("[Errno 2] No such file or directory: '" +:+ p
                          +:+ "'"));
     cuda_is_available := ImportFails;
     cuda_total_memory :=
       Raise (Exn "ImportError" "No module named 'torch'");
     whisper_model :=
       fun _ _ _ _ => Raise (Exn "RuntimeError" "model not found");
     model_transcribe :=
       fun _ _ _ => Raise (Exn "RuntimeError" "no model");
     http_exception_str :=
       fun code detail => str_of_int code +:+ ": " +:+ detail |}.

(** A machine with two graphics cards: what [nvidia-smi] prints there,
    and oracles whose [int] reads the memory of a card. *)
Definition two_cards : completed :=
  {| returncode := 0;
     stdout := "NVIDIA GeForce RTX 3060, 12288" +:+ nl
               +:+ "NVIDIA GeForce RTX 3060, 12288" +:+ nl;
     stderr := EmptyString |}.

Definition two_cards_world : World :=
  {| path_exists := path_exists plain_world;
     subprocess_run := fun _ => Return two_cards;
     np_alloc := np_alloc plain_world;
     sf_write := sf_write plain_world;
     str_hash := str_hash plain_world;
     now := now plain_world;
     http_post := http_post plain_world;
     json_loads := json_loads plain_world |}.

Definition reading_oracles : Oracles :=
  {| http_get := http_get plain_oracles;
     str_float := str_float plain_oracles;
     float_of_str := float_of_str plain_oracles;
     int_of_str := fun _ => Return 12288;
     makedirs := makedirs plain_oracles;
     getsize := getsize plain_oracles;
     cuda_is_available := cuda_is_available plain_oracles;
     cuda_total_memory := cuda_total_memory plain_oracles;
     whisper_model := whisper_model plain_oracles;
     model_transcribe := model_transcribe plain_oracles;
     http_exception_str := http_exception_str plain_oracles |}.


End ScenarioRest.

(* ===================================================================== *)
(** ** Machines with a GPU *)
(* ===================================================================== *)

Module ScenarioGpu.
Import Py Sys Host ScenarioRest.

(** Oracles of a machine whose GPU has [total_memory] bytes and on which
    every speech model loads. *)
Definition gpu_oracles (total_memory : Z) : Oracles :=
  {| http_get := http_get plain_oracles;
     str_float := str_float plain_oracles;
     float_of_str := float_of_str plain_oracles;
     int_of_str := int_of_str plain_oracles;
     makedirs := makedirs plain_oracles;
     getsize := getsize plain_oracles;
     cuda_is_available := Answers true;
     cuda_total_memory := Return total_memory;
     whisper_model := fun _ _ _ _ => Return 1%nat;
     model_transcribe :=
       fun _ _ _ =>
         Return ([ {| seg_start := float_of_int 0;
                      seg_end := float_of_int 2;
                      seg_text := " Good habits. " |};
                   {| seg_start := float_of_int 2;
                      seg_end := truediv 5 2;
                      seg_text := "Start small." |} ],
                 {| language := "en";
                    language_probability := truediv 99 100;
                    duration := truediv 5 2 |});
     http_exception_str := http_exception_str plain_oracles |}.

(** A service as the constructor leaves it on a machine with a GPU,
    called with its default arguments. *)
Definition fresh_service : WhisperService.t :=
  {| WhisperService.model_dir := "models/whisper";
     WhisperService.device := "cuda";
     WhisperService.compute_type := "float16";
     WhisperService.model := None;
     WhisperService.model_name := "small" |}.

End ScenarioGpu.

(* ===================================================================== *)
(** * Properties *)
(* ===================================================================== *)

(** ** The effect monad *)

Section MonadFacts.
Import Py Sys.
Context {A : Type}.

(** [except Exception as e: ...; raise] changes neither the effects nor
    the outcome. *)
Lemma try_reraise (m : IO A) (w : World) :
  try_except m (fun e => raise e) w = m w.
Proof.
  unfold try_except, raise.
  destruct (m w) as [log [a|e]]; [reflexivity|].
  now rewrite app_nil_r.
Qed.

Lemma bind_return {B} (m : IO A) (k : A -> IO B) (w : World) log a :
  m w = (log, Return a) ->
  bind m k w = ((log ++ fst (k a w))%list, snd (k a w)).
Proof.
  intros Hm. unfold bind. rewrite Hm. now destruct (k a w).
Qed.

Lemma bind_raise {B} (m : IO A) (k : A -> IO B) (w : World) log e :
  m w = (log, Raise e) -> bind m k w = (log, Raise e).
Proof. intros Hm. unfold bind. now rewrite Hm. Qed.

End MonadFacts.

(** ** FFmpeg argument vectors of the audio pipeline *)

Section FFmpegFacts.
Import FFmpeg AudioPipeline.

Lemma audio_filters_loudnorm_cmd (audio_path lufs output_path : string) :
  audio_filters (loudnorm_cmd audio_path lufs output_path)
  = [ "loudnorm=I=" +:+ lufs +:+ ":TP=-1.5:LRA=11:print_format=json";
      "volume=1.0" ].
Proof.
  unfold audio_filters, option_values, loudnorm_cmd. cbn [tl scan].
  change (takes_value "-y") with false. change (takes_value "-i") with true.
  change (takes_value "-af") with true. cbn iota.
  change ("-i" =? "-af")%string with false.
  change ("-af" =? "-af")%string with true. cbn iota.
  now destruct (takes_value output_path).
Qed.

Lemma audio_filters_volume_cmd (audio_path output_path : string) :
  audio_filters (volume_cmd audio_path output_path) = ["volume=1.0"].
Proof.
  unfold audio_filters, option_values, volume_cmd. cbn [tl scan].
  change (takes_value "-y") with false. change (takes_value "-i") with true.
  change (takes_value "-af") with true. cbn iota.
  change ("-i" =? "-af")%string with false.
  change ("-af" =? "-af")%string with true. cbn iota.
  now destruct (takes_value output_path).
Qed.

End FFmpegFacts.

(** ** audio_pipeline.py *)

Section AudioPipelineFacts.
Import Py Sys FFmpeg AudioPipeline.

(** The number of samples of the placeholder, or the exception [int]
    raises on it. *)
Let samples (text : string) (settings : VoiceSettings) : outcome Z :=
  int_of_number
    (int_times sample_rate (max1 (spoken_length text (speed settings)))).

(** [write_placeholder] in closed form: it writes one file, unless
    [int], [np.zeros] or [sf.write] raises, and then it writes none. *)
Lemma write_placeholder_run text output_path settings w :
  write_placeholder text output_path settings w
  = match samples text settings with
    | Raise e => ([], Raise e)
    | Return n =>
        if n <? 0
        then ([], Raise (Exn "ValueError"
                           "negative dimensions are not allowed"))
        else
          match np_alloc w n with
          | Some e => ([], Raise e)
          | None =>
              match sf_write w output_path with
              | Some e => ([], Raise e)
              | None =>
                  ([SfWrite output_path (np_zeros n) sample_rate],
                   Return output_path)
              end
          end
    end.
Proof.
  unfold write_placeholder, samples, bind, pure, allocate, write, ret.
  destruct (int_of_number _) as [n|e]; [|reflexivity].
  destruct (n <? 0); [reflexivity|].
  destruct (np_alloc w n); [reflexivity|].
  now destruct (sf_write w output_path).
Qed.

Lemma preset_voice_run text output_path settings w :
  _generate_preset_voice text output_path settings w
  = write_placeholder text output_path settings w.
Proof. apply try_reraise. Qed.

Lemma custom_voice_run text output_path settings w :
  _generate_custom_voice text output_path settings w
  = if has_reference w settings
    then write_placeholder text output_path settings w
    else ([], Raise (Exn "ValueError"
                       "Custom voice requires reference audio file (10-60s)")).
Proof.
  unfold _generate_custom_voice. rewrite try_reraise.
  unfold has_reference, bind, os_path_exists, ret, raise.
  destruct (reference_audio_path settings) as [[|c p]|]; cbn [negb];
    try reflexivity.
  destruct (path_exists w (String c p)); cbn [negb app]; [|reflexivity].
  now destruct (write_placeholder text output_path settings w).
Qed.

(** [_normalize_loudness] in closed form: what it runs and returns for
    each behaviour of the two FFmpeg processes. *)
Lemma normalize_loudness_run audio_path lufs w :
  let out := replace ".wav" "_normalized.wav" audio_path in
  let first := loudnorm_cmd audio_path lufs out in
  let second := volume_cmd audio_path out in
  _normalize_loudness audio_path lufs w
  = match subprocess_run w first with
    | Raise _ => ([Run first], Return audio_path)
    | Return result =>
        if returncode result =? 0 then
          if contains "input_i" (stderr result)
          then ([Run first; Run second], Return out)
          else ([Run first], Return out)
        else
          match subprocess_run w second with
          | Raise _ => ([Run first; Run second], Return audio_path)
          | Return _ => ([Run first; Run second], Return out)
          end
    end.
Proof.
  intros out first second.
  unfold _normalize_loudness, try_except, bind, run, ret.
  fold out. fold first. fold second.
  destruct (subprocess_run w first) as [result|e]; [|reflexivity].
  destruct (returncode result =? 0).
  - destruct (contains "input_i" (stderr result)); [|reflexivity].
    now destruct (subprocess_run w second).
  - now destruct (subprocess_run w second).
Qed.

End AudioPipelineFacts.

(** ** Loudness normalisation *)

Section Normalisation.
Import Py Sys FFmpeg AudioPipeline.

(** What the claim asks of one recorded effect: it is an FFmpeg run whose
    audio filter for the output is the constant [volume=1.0]. *)
Let unit_gain (e : effect) : Prop :=
  exists cmd, e = Run cmd /\ applied_audio_filter cmd = Some "volume=1.0".

Lemma unit_gain_loudnorm audio_path lufs output_path :
  unit_gain (Run (loudnorm_cmd audio_path lufs output_path)).
Proof.
  eexists; split; [reflexivity|].
  unfold applied_audio_filter. now rewrite audio_filters_loudnorm_cmd.
Qed.

Lemma unit_gain_volume audio_path output_path :
  unit_gain (Run (volume_cmd audio_path output_path)).
Proof.
  eexists; split; [reflexivity|].
  unfold applied_audio_filter. now rewrite audio_filters_volume_cmd.
Qed.

(** C2. For every audio path, every target LUFS and every behaviour of the
    FFmpeg processes, [_normalize_loudness] runs the measuring command
    alone or followed by the second command; the second command is fixed
    by the two paths and carries [volume=1.0] as its only audio filter;
    and for each command run, the audio filter FFmpeg applies to the
    output file is [volume=1.0] (the [loudnorm] filter of the first
    command is overridden by the [-af volume=1.0] that follows it). The
    measured gain therefore never reaches the output. *)
Theorem normalize_loudness_applies_unit_gain
    (audio_path lufs : string) (w : World) :
  let out := replace ".wav" "_normalized.wav" audio_path in
  let first := loudnorm_cmd audio_path lufs out in
  let second := volume_cmd audio_path out in
  let log := fst (_normalize_loudness audio_path lufs w) in
  (log = [Run first] \/ log = [Run first; Run second])
  /\ audio_filters second = ["volume=1.0"]
  /\ output_file first = Some out
  /\ output_file second = Some out
  /\ Forall unit_gain log.
Proof.
  intros out first second log.
  assert (Hlog : log = [Run first] \/ log = [Run first; Run second]).
  { subst log. rewrite normalize_loudness_run. fold out first second.
    destruct (subprocess_run w first) as [result|e]; [|now left].
    destruct (returncode result =? 0).
    - destruct (contains "input_i" (stderr result)); [now right|now left].
    - destruct (subprocess_run w second); now right. }
  split; [exact Hlog|].
  split; [apply audio_filters_volume_cmd|].
  split; [reflexivity|]. split; [reflexivity|].
  destruct Hlog as [-> | ->]; repeat constructor;
    first [apply unit_gain_loudnorm | apply unit_gain_volume].
Qed.

End Normalisation.

(** ** The voice stage *)

Section VoiceStage.
Import Py Sys FFmpeg AudioPipeline.

(** The generator [generate_voiceover] picks for a request. *)
Let generator (self : t) (request : AudioRequest) (w : World)
  : list effect * outcome string :=
  if String.eqb (voice_type (voice_settings request)) "preset"
  then write_placeholder (text request) (voiceover_path self w request)
         (voice_settings request) w
  else if has_reference w (voice_settings request)
  then write_placeholder (text request) (voiceover_path self w request)
         (voice_settings request) w
  else ([], Raise (Exn "ValueError"
                     "Custom voice requires reference audio file (10-60s)")).

Lemma generate_voiceover_run self request w :
  generate_voiceover self request w
  = match generator self request w with
    | (log, Return audio_path) =>
        let '(log', r) := _normalize_loudness audio_path "-16" w in
        ((log ++ log')%list, r)
    | (log, Raise e) => (log, Raise e)
    end.
Proof.
  unfold generate_voiceover. rewrite try_reraise.
  unfold generator, voiceover_path.
  unfold bind at 1. unfold hash at 1. cbn [app].
  unfold bind at 1.
  destruct (String.eqb (voice_type (voice_settings request)) "preset").
  - rewrite preset_voice_run.
    destruct (write_placeholder _ _ _ w) as [log [p|e]]; [|reflexivity].
    unfold bind, ret.
    destruct (_normalize_loudness p "-16" w) as [log' [q|e]];
      now rewrite ?app_nil_r.
  - rewrite custom_voice_run.
    destruct (has_reference w (voice_settings request)); [|reflexivity].
    destruct (write_placeholder _ _ _ w) as [log [p|e]]; [|reflexivity].
    unfold bind, ret.
    destruct (_normalize_loudness p "-16" w) as [log' [q|e]];
      now rewrite ?app_nil_r.
Qed.

(** [_normalize_loudness] never raises, whatever FFmpeg does. *)
Lemma normalize_loudness_returns audio_path lufs w :
  exists p, snd (_normalize_loudness audio_path lufs w) = Return p
            /\ (p = audio_path
                \/ p = replace ".wav" "_normalized.wav" audio_path).
Proof.
  rewrite normalize_loudness_run.
  destruct (subprocess_run w _) as [result|e]; [|eauto].
  destruct (returncode result =? 0).
  - destruct (contains "input_i" (stderr result)); eauto.
  - destruct (subprocess_run w _); eauto.
Qed.

Lemma normalize_loudness_writes_nothing audio_path lufs w :
  Forall (fun e => exists cmd, e = Run cmd)
    (fst (_normalize_loudness audio_path lufs w)).
Proof.
  rewrite normalize_loudness_run.
  destruct (subprocess_run w _) as [result|e]; [|repeat constructor; eauto].
  destruct (returncode result =? 0).
  - destruct (contains "input_i" (stderr result)); repeat constructor; eauto.
  - destruct (subprocess_run w _); repeat constructor; eauto.
Qed.

Lemma np_zeros_silent n : Forall (fun x => x = 0%Q) (np_zeros n).
Proof.
  unfold np_zeros. induction (Z.to_nat n) as [|k IH]; cbn [repeat];
    constructor; auto.
Qed.

(** C7. For every voiceover request, preset or custom, every text and
    every machine, what the voice stage does is fixed as follows. Each
    generator writes exactly one file, [n] zero-valued samples at 22050
    Hz, where [n] is [int(22050 * max(1, words / 150 * speed))] in
    binary64, and returns its path; it writes nothing and raises when
    [int] raises (an infinite or NaN product), when [np.zeros] raises or
    when [soundfile.write] raises, and the custom generator also when the
    reference clip is missing. [generate_voiceover] runs the generator of
    the request on the path it derives from the text and, when the file
    was written, the loudness normalisation on that file, which only runs
    FFmpeg. So whenever [generate_voiceover] returns, the one audio file
    it wrote holds zeros only, at 22050 Hz. *)
Theorem voiceover_audio_is_silent
    (self : t) (request : AudioRequest) (w : World) :
  let settings := voice_settings request in
  let path := voiceover_path self w request in
  let count :=
    int_of_number
      (int_times 22050 (max1 (spoken_length (text request) (speed settings)))) in
  let written (output_path : string) : list effect * outcome string :=
    match count with
    | Raise e => ([], Raise e)
    | Return n =>
        if n <? 0
        then ([], Raise (Exn "ValueError"
                           "negative dimensions are not allowed"))
        else
          match np_alloc w n with
          | Some e => ([], Raise e)
          | None =>
              match sf_write w output_path with
              | Some e => ([], Raise e)
              | None =>
                  ([SfWrite output_path (repeat 0%Q (Z.to_nat n)) 22050],
                   Return output_path)
              end
          end
    end in
  let missing : exn :=
    Exn "ValueError" "Custom voice requires reference audio file (10-60s)" in
  (forall output_path,
      _generate_preset_voice (text request) output_path settings w
      = written output_path)
  /\ (forall output_path,
         _generate_custom_voice (text request) output_path settings w
         = if has_reference w settings then written output_path
           else ([], Raise missing))
  /\ generate_voiceover self request w
     = (if String.eqb (voice_type settings) "preset"
           || has_reference w settings
        then match written path with
             | (log, Return audio_path) =>
                 ((log ++ fst (_normalize_loudness audio_path "-16" w))%list,
                  snd (_normalize_loudness audio_path "-16" w))
             | (log, Raise e) => (log, Raise e)
             end
        else ([], Raise missing))
  /\ (forall audio_path lufs,
         Forall (fun e => exists cmd, e = Run cmd)
           (fst (_normalize_loudness audio_path lufs w)))
  /\ (forall p,
         snd (generate_voiceover self request w) = Return p ->
         exists n runs,
           fst (generate_voiceover self request w)
           = SfWrite path (repeat 0%Q n) 22050 :: runs
           /\ Forall (fun e => exists cmd, e = Run cmd) runs).
Proof.
  intros settings path count written missing.
  assert (Hw : forall output_path,
             write_placeholder (text request) output_path settings w
             = written output_path).
  { intros output_path. apply write_placeholder_run. }
  assert (Hv : generate_voiceover self request w
               = (if String.eqb (voice_type settings) "preset"
                     || has_reference w settings
                  then match written path with
                       | (log, Return audio_path) =>
                           ((log ++ fst (_normalize_loudness audio_path "-16" w))%list,
                            snd (_normalize_loudness audio_path "-16" w))
                       | (log, Raise e) => (log, Raise e)
                       end
                  else ([], Raise missing))).
  { rewrite generate_voiceover_run. unfold generator. fold settings path.
    destruct (String.eqb (voice_type settings) "preset"); cbn [orb].
    - rewrite Hw. destruct (written path) as [log [p|e]]; [|reflexivity].
      now destruct (_normalize_loudness p "-16" w).
    - destruct (has_reference w settings); [|reflexivity].
      rewrite Hw. destruct (written path) as [log [p|e]]; [|reflexivity].
      now destruct (_normalize_loudness p "-16" w). }
  split; [|split; [|split; [|split]]].
  - intros output_path. now rewrite preset_voice_run.
  - intros output_path. rewrite custom_voice_run. fold settings.
    now rewrite Hw.
  - exact Hv.
  - intros audio_path lufs. apply normalize_loudness_writes_nothing.
  - intros p. rewrite Hv.
    destruct (String.eqb (voice_type settings) "preset"
              || has_reference w settings); [|discriminate].
    subst written. cbv beta.
    destruct count as [n|e]; [|discriminate].
    destruct (n <? 0); [discriminate|].
    destruct (np_alloc w n); [discriminate|].
    destruct (sf_write w path); [discriminate|].
    intros _. exists (Z.to_nat n). eexists. split; [reflexivity|].
    apply normalize_loudness_writes_nothing.
Qed.

End VoiceStage.

(** ** The /audio/generate handler *)

Section AudioHandler.
Import Py Sys FFmpeg AudioPipeline Main Scenario.

Let pipeline_of (st : AppState) : AudioPipeline.t :=
  match audio_pipeline st with
  | Some p => p
  | None => AudioPipeline.default
  end.

Let advice : string :=
  "Try using preset voices instead of custom voice cloning".

Let duration_of (request : AudioRequest) : float :=
  spoken_length (text request) (speed (voice_settings request)).

Lemma generate_audio_run st request w :
  Main.generate_audio st request w
  = match generate_voiceover (pipeline_of st) request w with
    | (log, Return audio_path) =>
        (log, Return (AudioSuccess audio_path (duration_of request)))
    | (log, Raise e) => (log, Return (AudioFailure (exn_str e) advice))
    end.
Proof.
  unfold Main.generate_audio, try_except, bind, ret.
  fold (pipeline_of st).
  destruct (generate_voiceover (pipeline_of st) request w) as [log [p|e]];
    now rewrite app_nil_r.
Qed.




(** C3, as the specification words it, fails on the code: a custom voice
    without a reference clip is answered with a failure, not with the
    audio of a preset voice. *)
Lemma missing_reference_is_not_recovered :
  ~ (forall (st : AppState) (request : AudioRequest) (w : World),
        voice_type (voice_settings request) = "custom" ->
        has_reference w (voice_settings request) = false ->
        exists p d,
          snd (Main.generate_audio st request w) = Return (AudioSuccess p d)).
Proof.
  intros claim.
  destruct (claim Main.initial
              {| text := "hello world"; voice_settings := custom_settings |}
              plain_world eq_refl eq_refl) as (p & d & H).
  vm_compute in H. discriminate H.
Qed.

(** C3, amended. When a voice other than a preset one is requested and
    its reference clip is missing (no path, an empty path, or a path that
    does not exist), the voice stage does not fall back to a preset voice:
    [_generate_custom_voice] raises its [ValueError], nothing is written
    and no FFmpeg is run, [generate_voiceover] raises the same exception,
    and the handler answers failure with that message. *)
Theorem missing_reference_fails_the_voice_stage
    (st : AppState) (request : AudioRequest) (w : World) :
  voice_type (voice_settings request) <> "preset" ->
  has_reference w (voice_settings request) = false ->
  let error := "Custom voice requires reference audio file (10-60s)" in
  generate_voiceover (pipeline_of st) request w
  = ([], Raise (Exn "ValueError" error))
  /\ Main.generate_audio st request w
     = ([], Return (AudioFailure error advice)).
Proof.
  intros Hcustom Href error.
  assert (Hv : generate_voiceover (pipeline_of st) request w
               = ([], Raise (Exn "ValueError" error))).
  { rewrite generate_voiceover_run.
    destruct (String.eqb_spec (voice_type (voice_settings request)) "preset")
      as [E|_]; [contradiction|].
    now rewrite Href. }
  split; [exact Hv|].
  rewrite generate_audio_run. now rewrite Hv.
Qed.

Lemma missing_reference_fails_the_voice_stage_witness :
  Main.generate_audio Main.initial
    {| text := "hello world"; voice_settings := custom_settings |}
    plain_world
  = ([], Return (AudioFailure
                   "Custom voice requires reference audio file (10-60s)"
                   "Try using preset voices instead of custom voice cloning")).
Proof.
  refine (proj2 (missing_reference_fails_the_voice_stage Main.initial
                   {| text := "hello world";
                      voice_settings := custom_settings |}
                   plain_world _ _)).
  - vm_compute. discriminate.
  - reflexivity.
Defined.

End AudioHandler.

(** ** Length of the voiceover *)

Section VoiceoverLength.
Import Py Sys AudioPipeline Main Scenario.

(** Whether [max(1, n / 150 * 1.0)] is the int [1]. *)
Let lasts_one_second (n : nat) : bool :=
  match max1 (fmul (truediv (Z.of_nat n) 150) (float_of_int 1)) with
  | Int 1 => true
  | _ => false
  end.

(** A text of at most 150 words read at speed 1.0 gives the minimum, one
    second of audio: 22050 samples. *)
Lemma short_text_lasts_one_second (text : string) :
  (length (split text) <= 150)%nat ->
  int_of_number
    (int_times sample_rate (max1 (spoken_length text (float_of_int 1))))
  = Return 22050.
Proof.
  intros H.
  assert (Hall : forallb lasts_one_second (seq 0 151) = true)
    by (vm_compute; reflexivity).
  rewrite forallb_forall in Hall.
  specialize (Hall (length (split text))).
  assert (Hin : In (length (split text)) (seq 0 151)).
  { apply in_seq. lia. }
  apply Hall in Hin. unfold lasts_one_second in Hin.
  unfold spoken_length.
  destruct (max1 _) as [[|[| |]|]|]; try discriminate Hin.
  reflexivity.
Qed.

(** C6, on the code. A script that hits the word count targeted for 45
    seconds has 112 words. For it the voice stage writes 22050 samples at
    22050 Hz, one second of audio, and the handler reports the float
    [112 / 150 * 1.0], which is 6725375443539941 / 2^53, about 0.7467 of
    a second; neither is within ten percent of 45 seconds. *)
Theorem targeted_script_gives_one_second_of_audio :
  let request :=
    {| text := words 112; voice_settings := preset_settings |} in
  let reported := fmul (truediv 112 150) (float_of_int 1) in
  int_of_float (OllamaClient.target_words daily_habits) = 112
  /\ length (split (text request)) = 112%nat
  /\ fst (Main.generate_audio Main.initial request plain_world)
     = [ SfWrite "assets/audio/voiceover_3456.wav" (np_zeros 22050) 22050;
         Run (loudnorm_cmd "assets/audio/voiceover_3456.wav" "-16"
                "assets/audio/voiceover_3456_normalized.wav") ]
  /\ (seconds_of (np_zeros 22050) 22050 == 1)%Q
  /\ snd (Main.generate_audio Main.initial request plain_world)
     = Return (AudioSuccess "assets/audio/voiceover_3456_normalized.wav"
                 reported)
  /\ rational reported = Some (6725375443539941 # 9007199254740992)
  /\ ~ within_tolerance 1
  /\ ~ within_tolerance (6725375443539941 # 9007199254740992).
Proof.
  cbv zeta.
  assert (Hwords : length (split (words 112)) = 112%nat)
    by (vm_compute; reflexivity).
  assert (Hrun :
            Main.generate_audio Main.initial
              {| text := words 112; voice_settings := preset_settings |}
              plain_world
            = ([ SfWrite "assets/audio/voiceover_3456.wav" (np_zeros 22050)
                   22050;
                 Run (loudnorm_cmd "assets/audio/voiceover_3456.wav" "-16"
                        "assets/audio/voiceover_3456_normalized.wav") ],
               Return (AudioSuccess
                         "assets/audio/voiceover_3456_normalized.wav"
                         (fmul (truediv 112 150) (float_of_int 1))))).
  { unfold Main.generate_audio, try_except, bind at 1.
    unfold generate_voiceover. rewrite try_reraise.
    unfold bind at 1. unfold hash at 1. cbn [app].
    unfold bind at 1.
    change (String.eqb (voice_type (voice_settings _)) "preset") with true.
    cbv iota. rewrite preset_voice_run, write_placeholder_run.
    cbn [text voice_settings].
    change (speed preset_settings) with (float_of_int 1).
    rewrite (short_text_lasts_one_second (words 112)) by (rewrite Hwords; lia).
    change (22050 <? 0) with false. cbv iota.
    unfold spoken_length. rewrite Hwords.
    cbv -[np_zeros fmul truediv float_of_int]. reflexivity. }
  split; [|split; [|split; [|split; [|split; [|split; [|split]]]]]].
  - vm_compute. reflexivity.
  - exact Hwords.
  - now rewrite Hrun.
  - unfold seconds_of, np_zeros. rewrite repeat_length.
    vm_compute. reflexivity.
  - now rewrite Hrun.
  - vm_compute. reflexivity.
  - unfold within_tolerance, Qle. cbn. lia.
  - unfold within_tolerance, Qle. cbn. lia.
Qed.

End VoiceoverLength.

(** ** ollama_client.py *)

Section ScriptStage.
Import Py Sys OllamaClient Scenario.

Lemma load_model_keeps_the_address self w :
  exists log b, load_model self None w = (log, Return (set_loaded self b, b)).
Proof.
  unfold load_model, try_except, bind, post, ret.
  destruct (http_post w _ _) as [response|e]; [|eauto].
  destruct (status response =? 200); eauto.
Qed.

(** The block that reads the answer of the model, in closed form. *)
Lemma parse_response_run request txt w :
  parse_response request (JStr txt) w
  = ([],
     if negb (find "{" txt =? -1) then
       if rfind "}" txt + 1 >? find "{" txt then
         match json_loads w (slice txt (find "{" txt) (rfind "}" txt + 1)) with
         | Return v => Return (Some v)
         | Raise e =>
             if String.eqb (exn_class e) "JSONDecodeError"
             then Return (Some (raw_text_script request (JStr txt)))
             else Raise e
         end
       else Return None
     else Return None).
Proof.
  unfold parse_response, try_except_class, try_except, bind, as_str, ret,
    loads, raise.
  destruct (negb (find "{" txt =? -1)); [|reflexivity].
  destruct (rfind "}" txt + 1 >? find "{" txt); [|reflexivity].
  destruct (json_loads w _) as [v|e]; [reflexivity|].
  now destruct (String.eqb (exn_class e) "JSONDecodeError").
Qed.

(** [generate_script] on a reply with status 200 whose body is a
    dictionary with a text under ["response"]. *)
Lemma generate_script_on_text self request w kv txt :
  http_post w (base_url self +:+ "/api/generate")
    (generate_payload self request)
  = Return (Response 200 (Return (JDict kv))) ->
  assoc "response" kv = Some (JStr txt) ->
  snd (generate_script self request w)
  = match snd (parse_response request (JStr txt) w) with
    | Return (Some v) => Return v
    | Return None => Return JNone
    | Raise e => Raise e
    end.
Proof.
  intros Hpost Hkv.
  unfold generate_script. rewrite try_reraise.
  assert (Hself : exists log self1,
             (if negb (is_model_loaded self)
              then (let* r := load_model self None in ret (fst r))
              else ret self) w = (log, Return self1)
             /\ base_url self1 = base_url self
             /\ model_name self1 = model_name self).
  { destruct (negb (is_model_loaded self)).
    - destruct (load_model_keeps_the_address self w) as (log & b & E).
      unfold bind, ret. rewrite E. cbn. eauto.
    - unfold ret. eauto. }
  destruct Hself as (log & self1 & E & Hurl & Hname).
  rewrite (bind_return _ _ _ _ _ E). cbn [snd].
  assert (Hp : generate_payload self1 request = generate_payload self request).
  { unfold generate_payload. now rewrite Hname. }
  unfold bind at 1, post at 1. rewrite Hurl, Hp, Hpost. cbn [status].
  change (200 =? 200) with true. cbn iota.
  unfold bind, response_json, dict_get, ret. cbn [body]. rewrite Hkv.
  now destruct (parse_response request (JStr txt) w) as [plog [[v|]|e]].
Qed.

End ScriptStage.

(** ** The /script/generate handler *)

Section ScriptHandler.
Import Py Sys OllamaClient Main Scenario.

Let client_of (st : AppState) : OllamaClient.t :=
  match ollama_client st with
  | Some c => c
  | None => OllamaClient.default
  end.

Lemma script_handler_run st request w :
  snd (Main.generate_script st request w)
  = match snd (OllamaClient.generate_script (client_of st) request w) with
    | Return script =>
        Return (ScriptSuccess script (target_duration_seconds request))
    | Raise e =>
        Return (ScriptFailure (exn_str e)
                  "Try using a smaller model or reducing context length")
    end.
Proof.
  unfold Main.generate_script, try_except, bind, ret. fold (client_of st).
  now destruct (OllamaClient.generate_script (client_of st) request w)
    as [log [v|e]].
Qed.

(** C4, on the code. When the model answers with status 200 and a text
    that has no opening brace, or whose last closing brace stands before
    its first opening brace, [generate_script] returns [None], and the
    handler reports that [None] as a successful script. *)
Theorem generate_script_returns_none_on_prose
    (st : AppState) (request : ScriptGenerationRequest) (w : World)
    (kv : list (string * json)) (txt : string) :
  http_post w (base_url (client_of st) +:+ "/api/generate")
    (generate_payload (client_of st) request)
  = Return (Response 200 (Return (JDict kv))) ->
  assoc "response" kv = Some (JStr txt) ->
  find "{" txt = -1 \/ rfind "}" txt + 1 <= find "{" txt ->
  snd (OllamaClient.generate_script (client_of st) request w) = Return JNone
  /\ snd (Main.generate_script st request w)
     = Return (ScriptSuccess JNone (target_duration_seconds request)).
Proof.
  intros Hpost Hkv Hbraces.
  assert (H : snd (OllamaClient.generate_script (client_of st) request w)
              = Return JNone).
  { rewrite (generate_script_on_text _ _ _ _ _ Hpost Hkv).
    rewrite parse_response_run. cbn [snd].
    destruct Hbraces as [E | E].
    - now rewrite E.
    - destruct (negb (find "{" txt =? -1)); [|reflexivity].
      destruct (Z.gtb_spec (rfind "}" txt + 1) (find "{" txt)); [lia|].
      reflexivity. }
  split; [exact H|]. rewrite script_handler_run. now rewrite H.
Qed.

Lemma generate_script_returns_none_on_prose_witness :
  snd (OllamaClient.generate_script OllamaClient.default daily_habits
         (model_says "Here are five habits worth keeping."))
  = Return JNone
  /\ snd (Main.generate_script Main.initial daily_habits
            (model_says "Here are five habits worth keeping."))
     = Return (ScriptSuccess JNone 45).
Proof.
  refine (generate_script_returns_none_on_prose Main.initial daily_habits
            (model_says "Here are five habits worth keeping.")
            [("response", JStr "Here are five habits worth keeping.")]
            "Here are five habits worth keeping." _ _ _).
  - reflexivity.
  - reflexivity.
  - left. vm_compute. reflexivity.
Defined.

(** C5, as the specification words it, fails on the code: when the
    answer of the model is not JSON, the script artifact of the
    daily-habits job is the raw-text script, which has one scene. *)
Lemma script_has_fewer_than_three_scenes :
  ~ (forall (self : OllamaClient.t) (w : World) (script : json),
        snd (OllamaClient.generate_script self daily_habits w)
        = Return script ->
        exists l, scenes script = Some l /\ (3 <= length l)%nat).
Proof.
  intros claim.
  destruct (claim OllamaClient.default (model_says "{oops}") _ eq_refl)
    as (l & Hl & Hlen).
  vm_compute in Hl. injection Hl as <-. cbn in Hlen. lia.
Qed.

(** C5, amended. For the daily-habits job of 45 seconds the prompt asks
    the model for 3-5 scenes, and the number of scenes of the artifact is
    not checked: when the answer holds a brace-delimited span, the
    artifact is what [json.loads] makes of the span, whatever it is, and
    when [json.loads] rejects the span it is the raw-text script, which
    has exactly one scene, 45 seconds long, with the whole answer as its
    voiceover. *)
Theorem script_scenes_are_what_the_model_sent
    (self : OllamaClient.t) (w : World)
    (kv : list (string * json)) (txt : string) :
  http_post w (base_url self +:+ "/api/generate")
    (generate_payload self daily_habits)
  = Return (Response 200 (Return (JDict kv))) ->
  assoc "response" kv = Some (JStr txt) ->
  find "{" txt <> -1 ->
  rfind "}" txt + 1 > find "{" txt ->
  contains "- Include 3-5 scenes with visual suggestions"
    (user_prompt daily_habits) = true
  /\ snd (OllamaClient.generate_script self daily_habits w)
     = match json_loads w (slice txt (find "{" txt) (rfind "}" txt + 1)) with
       | Return v => Return v
       | Raise e =>
           if String.eqb (exn_class e) "JSONDecodeError"
           then Return (raw_text_script daily_habits (JStr txt))
           else Raise e
       end
  /\ scenes (raw_text_script daily_habits (JStr txt))
     = Some [ JDict [ ("duration", JInt 45);
                      ("visual", JStr "Generic visual");
                      ("voiceover", JStr txt) ] ].
Proof.
  intros Hpost Hkv Hopen Hclose.
  split; [vm_compute; reflexivity|]. split; [|reflexivity].
  rewrite (generate_script_on_text _ _ _ _ _ Hpost Hkv).
  rewrite parse_response_run. cbn [snd].
  destruct (Z.eqb_spec (find "{" txt) (-1)) as [E|_]; [contradiction|].
  cbn [negb].
  destruct (Z.gtb_spec (rfind "}" txt + 1) (find "{" txt)); [|lia].
  destruct (json_loads w _) as [v|e]; [reflexivity|].
  now destruct (String.eqb (exn_class e) "JSONDecodeError").
Qed.

Lemma script_scenes_are_what_the_model_sent_witness :
  snd (OllamaClient.generate_script OllamaClient.default daily_habits
         (model_says "{oops}"))
  = Return (raw_text_script daily_habits (JStr "{oops}")).
Proof.
  refine (proj1 (proj2
            (script_scenes_are_what_the_model_sent OllamaClient.default
               (model_says "{oops}") [("response", JStr "{oops}")] "{oops}"
               _ _ _ _))).
  - reflexivity.
  - reflexivity.
  - vm_compute. discriminate.
  - vm_compute. reflexivity.
Defined.

End ScriptHandler.

(** ** video_engine.py *)

Section RenderStage.
Import Py Sys FFmpeg VideoEngine Scenario.

Lemma existing_clips_run clips i w :
  exists files, existing_clips clips i w = ([], Return files).
Proof.
  revert i. induction clips as [|clip rest IH]; intros i.
  - exists []. reflexivity.
  - destruct (IH (i + 1)) as [files E].
    cbn [existing_clips]. unfold bind, os_path_exists, ret.
    rewrite E. cbn [app]. eauto.
Qed.

Lemma check_nvenc_run w :
  _check_nvenc w = ([Run codecs_probe], Return (nvenc_reported w)).
Proof.
  unfold _check_nvenc, nvenc_reported, try_except, bind, run, ret.
  fold codecs_probe.
  now destruct (subprocess_run w codecs_probe).
Qed.

(** The command of [_build_ffmpeg_command], in closed form. *)
Lemma build_ffmpeg_command_run
    resolution fps codec bitrate clips audio_path captions_path w :
  exists files filter_complex,
    _build_ffmpeg_command resolution fps codec bitrate clips audio_path
      captions_path w
    = ([Run codecs_probe],
       Return (["ffmpeg"; "-y"]
               ++ (input_args files ++ ["-i"; audio_path])
               ++ encode_args filter_complex
                    (if truthy_str captions_path then "[outsub]" else "[outv]")
                    (str_of_int (Z.of_nat (length files)) +:+ ":a")
                    (if nvenc_reported w then "h264_nvenc" else "h264")
                    bitrate fps)%list).
Proof.
  destruct (existing_clips_run clips 0 w) as [files E].
  unfold _build_ffmpeg_command.
  rewrite (bind_return _ _ _ _ _ E). cbn [app].
  set (subs := match captions_path with
               | Some (String c p) => os_path_exists (String c p)
               | _ => ret false
               end).
  assert (Hs : exists b, subs w = ([], Return b)).
  { subst subs. destruct captions_path as [[|c p]|]; unfold ret, os_path_exists; eauto. }
  destruct Hs as [b Hs].
  rewrite (bind_return _ _ _ _ _ Hs). cbn [app].
  unfold bind. rewrite check_nvenc_run. unfold ret. cbn [fst snd app].
  eauto.
Qed.

(** Reading the options of a command skips the inputs. *)
Lemma scan_input_args opt files rest :
  opt <> "-i" ->
  scan opt (input_args files ++ rest)%list None = scan opt rest None.
Proof.
  intros Hopt. induction files as [|p files IH]; [reflexivity|].
  cbn [input_args flat_map app scan].
  change (takes_value "-i") with true. cbn iota.
  destruct (String.eqb_spec "-i" opt) as [E|_]; [congruence|].
  exact IH.
Qed.

Lemma video_encoder_of_command files audio_path fc vmap amap vcodec bitrate fps :
  video_encoder
    (["ffmpeg"; "-y"]
     ++ (input_args files ++ ["-i"; audio_path])
     ++ encode_args fc vmap amap vcodec bitrate fps)%list
  = Some vcodec.
Proof.
  unfold video_encoder, option_values. cbn [app tl scan].
  change (takes_value "-y") with false. cbn iota.
  rewrite <- app_assoc. rewrite scan_input_args by discriminate.
  reflexivity.
Qed.

Lemma output_file_of_command pre fc vmap amap vcodec bitrate fps :
  output_file (pre ++ encode_args fc vmap amap vcodec bitrate fps)%list
  = Some "output.mp4".
Proof.
  unfold output_file, encode_args.
  change [ "-filter_complex"; fc; "-map"; vmap; "-map"; amap; "-c:v"; vcodec;
           "-b:v"; bitrate; "-maxrate"; bitrate; "-bufsize"; "2M";
           "-c:a"; "aac"; "-b:a"; "192k"; "-vf"; "fps=" +:+ str_of_int fps;
           "-shortest"; "-profile:v"; "main"; "-level"; "4.2";
           "-movflags"; "+faststart"; "output.mp4" ]
    with ([ "-filter_complex"; fc; "-map"; vmap; "-map"; amap; "-c:v"; vcodec;
            "-b:v"; bitrate; "-maxrate"; bitrate; "-bufsize"; "2M";
            "-c:a"; "aac"; "-b:a"; "192k"; "-vf"; "fps=" +:+ str_of_int fps;
            "-shortest"; "-profile:v"; "main"; "-level"; "4.2";
            "-movflags"; "+faststart" ] ++ ["output.mp4"])%list.
  rewrite app_assoc. apply last_snoc.
Qed.

(** [export_video] in closed form. *)
Lemma export_video_run self settings clips audio_path captions_path w :
  let output_path :=
    path_join (output_dir self)
      ("short_" +:+ strftime_stamp (now w) +:+ ".mp4") in
  exists files filter_complex,
    let cmd :=
      (["ffmpeg"; "-y"]
       ++ (input_args files ++ ["-i"; audio_path])
       ++ encode_args filter_complex
            (if truthy_str captions_path then "[outsub]" else "[outv]")
            (str_of_int (Z.of_nat (length files)) +:+ ":a")
            (if nvenc_reported w then "h264_nvenc" else "h264")
            (or_str (bit_rate settings)
               (preset_field (platform settings) preset_bitrate "8M"))
            (or_int (fps settings)
               (preset_field (platform settings) preset_fps 30)))%list in
    export_video self settings clips audio_path captions_path w
    = ([Run codecs_probe; Run cmd],
       match subprocess_run w cmd with
       | Return result =>
           if returncode result =? 0 then Return output_path
           else Raise (Exn "Exception" ("FFmpeg failed: " +:+ stderr result))
       | Raise e => Raise e
       end).
Proof.
  intros output_path.
  destruct (build_ffmpeg_command_run
              (or_str (resolution settings)
                 (preset_field (platform settings) preset_resolution "1080x1920"))
              (or_int (fps settings)
                 (preset_field (platform settings) preset_fps 30))
              (or_str (codec settings)
                 (preset_field (platform settings) preset_codec "h.264"))
              (or_str (bit_rate settings)
                 (preset_field (platform settings) preset_bitrate "8M"))
              clips audio_path captions_path w) as (files & fc & E).
  exists files, fc. cbv zeta.
  unfold export_video. rewrite try_reraise.
  unfold bind at 1. unfold datetime_now at 1. cbn [app].
  unfold bind at 1. rewrite E.
  unfold bind, run, ret, raise. fold output_path.
  destruct (subprocess_run w _) as [result|e]; [|reflexivity].
  now destruct (returncode result =? 0).
Qed.

End RenderStage.

(** ** The encoder and the output file of an export *)

Section ExportedFile.
Import Py Sys FFmpeg VideoEngine Scenario.

(** C8. For every export, on every machine: the FFmpeg command that
    [_build_ffmpeg_command] builds and [export_video] runs selects the
    encoder [h264_nvenc] if and only if the probe of [_check_nvenc]
    reports it (the probe ran and its output names [h264_nvenc]), and the
    software encoder [h264] otherwise, also when the probe itself
    raises; the export command is run in both cases. *)
Theorem render_encoder_follows_the_probe
    (self : VideoEngine.t) (settings : ExportSettings)
    (clips : list VideoClip) (audio_path : string)
    (captions_path : option string) (w : World) :
  let encoder := if nvenc_reported w then "h264_nvenc" else "h264" in
  (forall resolution fps codec bitrate,
      exists cmd,
        _build_ffmpeg_command resolution fps codec bitrate clips audio_path
          captions_path w
        = ([Run codecs_probe], Return cmd)
        /\ video_encoder cmd = Some encoder)
  /\ (exists cmd,
         fst (export_video self settings clips audio_path captions_path w)
         = [Run codecs_probe; Run cmd]
         /\ video_encoder cmd = Some encoder)
  /\ (encoder = "h264_nvenc" <-> nvenc_reported w = true)
  /\ (encoder = "h264" <-> nvenc_reported w = false).
Proof.
  intros encoder. split; [|split; [|split]].
  - intros resolution fps codec bitrate.
    destruct (build_ffmpeg_command_run resolution fps codec bitrate clips
                audio_path captions_path w) as (files & fc & E).
    eexists; split; [exact E|]. apply video_encoder_of_command.
  - destruct (export_video_run self settings clips audio_path captions_path w)
      as (files & fc & E).
    cbv zeta in E. rewrite E. cbn [fst].
    eexists; split; [reflexivity|]. apply video_encoder_of_command.
  - subst encoder. destruct (nvenc_reported w); split; intros H;
      first [reflexivity | discriminate H].
  - subst encoder. destruct (nvenc_reported w); split; intros H;
      first [reflexivity | discriminate H].
Qed.

Lemma length_append (a b : string) :
  String.length (a +:+ b) = (String.length a + String.length b)%nat.
Proof.
  induction a as [|c a IH]; [reflexivity|].
  change (S (String.length (a +:+ b))
          = S (String.length a + String.length b)).
  now rewrite IH.
Qed.

(** No output directory makes the returned path the file FFmpeg writes. *)
Lemma output_path_is_not_output_mp4 (dir stamp : string) :
  path_join dir ("short_" +:+ stamp +:+ ".mp4") <> "output.mp4".
Proof.
  unfold path_join.
  change (String.prefix "/" ("short_" +:+ stamp +:+ ".mp4")) with false.
  destruct dir as [|c dir]; [discriminate|].
  intros H. apply (f_equal String.length) in H.
  destruct (ends_with_slash (String c dir));
    rewrite !length_append in H; cbn [String.length] in H; lia.
Qed.

(** C10, on the code. For every export, on every machine: the path
    [export_video] returns when FFmpeg exits with 0 is the time-stamped
    path under the output directory, while the last argument of the one
    export command it runs, the file FFmpeg writes, is the fixed
    [output.mp4]; the two are never the same file name. *)
Theorem export_video_returns_a_file_it_does_not_write
    (self : VideoEngine.t) (settings : ExportSettings)
    (clips : list VideoClip) (audio_path : string)
    (captions_path : option string) (w : World) :
  let output_path :=
    path_join (output_dir self)
      ("short_" +:+ strftime_stamp (now w) +:+ ".mp4") in
  exists cmd,
    fst (export_video self settings clips audio_path captions_path w)
    = [Run codecs_probe; Run cmd]
    /\ output_file cmd = Some "output.mp4"
    /\ output_path <> "output.mp4"
    /\ snd (export_video self settings clips audio_path captions_path w)
       = match subprocess_run w cmd with
         | Return result =>
             if returncode result =? 0 then Return output_path
             else Raise (Exn "Exception"
                           ("FFmpeg failed: " +:+ stderr result))
         | Raise e => Raise e
         end.
Proof.
  intros output_path.
  destruct (export_video_run self settings clips audio_path captions_path w)
    as (files & fc & E).
  cbv zeta in E. rewrite E. cbn [fst snd].
  eexists; split; [reflexivity|]. split; [|split; [|reflexivity]].
  - rewrite app_assoc. apply output_file_of_command.
  - apply output_path_is_not_output_mp4.
Qed.

(** The export of [test_video_engine], on a machine where FFmpeg
    succeeds. *)
Example export_of_the_test_run :
  export_video VideoEngine.default shorts_settings [] "assets/audio/test.wav"
    None plain_world
  = ([ Run ["ffmpeg"; "-hide_banner"; "-codecs"];
       Run [ "ffmpeg"; "-y"; "-i"; "assets/audio/test.wav";
             "-filter_complex"; "color=c=black:s=1080x1920:d=10,fps=30[outv]";
             "-map"; "[outv]"; "-map"; "0:a"; "-c:v"; "h264";
             "-b:v"; "8M"; "-maxrate"; "8M"; "-bufsize"; "2M";
             "-c:a"; "aac"; "-b:a"; "192k"; "-vf"; "fps=30"; "-shortest";
             "-profile:v"; "main"; "-level"; "4.2";
             "-movflags"; "+faststart"; "output.mp4" ] ],
     Return "output/short_20240102_030405.mp4").
Proof. vm_compute. reflexivity. Qed.

End ExportedFile.

(** ** ResourceBudget *)

Section Budget.
Import ResourceBudget.

Lemma reserved_empty : reserved ∅ = 0.
Proof. unfold reserved. apply map_fold_empty. Qed.

Lemma reserved_insert (m : gmap nat N) (k : nat) (mem : N) :
  m !! k = None ->
  reserved (<[k := mem]> m) = Z.of_N mem + reserved m.
Proof.
  intros Hk. unfold reserved.
  rewrite map_fold_insert_L; [reflexivity| |exact Hk].
  intros; lia.
Qed.

Lemma reserved_delete (m : gmap nat N) (k : nat) (mem : N) :
  m !! k = Some mem ->
  reserved m = Z.of_N mem + reserved (delete k m).
Proof.
  intros Hk. unfold reserved.
  rewrite (map_fold_delete_L _ _ k mem m); [reflexivity| |exact Hk].
  intros; lia.
Qed.

Lemma reserved_nonneg (m : gmap nat N) : 0 <= reserved m.
Proof.
  induction m as [|k mem m Hk _ IH] using map_first_key_ind.
  - rewrite reserved_empty. lia.
  - rewrite reserved_insert by exact Hk. lia.
Qed.

Lemma init_well_formed capacity : well_formed capacity (init capacity).
Proof.
  unfold well_formed, init. cbn.
  rewrite reserved_empty. split; [reflexivity|].
  split; [reflexivity|]. split; [lia|].
  intros k _. apply lookup_empty.
Qed.

Lemma grant_well_formed capacity st mem :
  well_formed capacity st ->
  Z.of_N mem <= available st ->
  well_formed capacity (grant st mem).
Proof.
  intros (Ht & Hl & Hc & Hfresh) Hfit.
  unfold available in Hfit. rewrite Ht in Hfit.
  unfold well_formed, grant. cbn.
  rewrite reserved_insert by (apply Hfresh; lia).
  repeat split; try lia.
  intros k Hk. rewrite lookup_insert_ne by lia. apply Hfresh. lia.
Qed.

Lemma serve_well_formed capacity queue st :
  well_formed capacity st -> well_formed capacity (serve queue st).
Proof.
  revert st. induction queue as [|[stage mem] rest IH]; intros st Hwf;
    [exact Hwf|].
  cbn [serve]. destruct (Z.ltb_spec (available st) (Z.of_N mem)); [exact Hwf|].
  apply IH. apply grant_well_formed; [|assumption].
  destruct Hwf as (Ht & Hl & Hc & Hfresh). now repeat split.
Qed.

Lemma acquire_well_formed capacity st stage mem :
  well_formed capacity st ->
  well_formed capacity (fst (acquire st stage mem)).
Proof.
  intros Hwf. unfold acquire.
  destruct (Z.ltb_spec (Z.of_N (total st)) (Z.of_N mem)); [exact Hwf|].
  destruct (Z.ltb_spec (available st) (Z.of_N mem)).
  - destruct Hwf as (Ht & Hl & Hc & Hfresh). now repeat split.
  - now apply grant_well_formed.
Qed.

Lemma release_well_formed capacity st lease :
  well_formed capacity st -> well_formed capacity (release st lease).
Proof.
  intros Hwf. unfold release.
  destruct (active st !! lease) as [mem|] eqn:E; [|exact Hwf].
  apply serve_well_formed.
  destruct Hwf as (Ht & Hl & Hc & Hfresh).
  pose proof (reserved_delete _ _ _ E) as Hd.
  pose proof (reserved_nonneg (delete lease (active st))) as Hn.
  unfold well_formed. cbn. repeat split; try lia.
  intros k Hk. destruct (decide (k = lease)) as [->|Hne].
  - apply lookup_delete_eq.
  - rewrite lookup_delete_ne by congruence. now apply Hfresh.
Qed.

Lemma step_well_formed capacity st o :
  well_formed capacity st -> well_formed capacity (step st o).
Proof.
  destruct o as [stage mem|lease]; cbn [step].
  - apply acquire_well_formed.
  - apply release_well_formed.
Qed.

Lemma run_well_formed capacity ops : well_formed capacity (run capacity ops).
Proof.
  unfold run. generalize (init_well_formed capacity).
  generalize (init capacity) as st.
  induction ops as [|o ops IH]; intros st Hwf; [exact Hwf|].
  cbn [fold_left]. apply IH. now apply step_well_formed.
Qed.

(** C9. For every capacity fixed at startup and every sequence of
    [acquire] and [release] calls, whatever their arguments, [available()]
    is not negative and does not exceed the capacity; the ceiling itself
    never changes. *)
Theorem available_stays_within_capacity (capacity : N) (ops : list op) :
  0 <= available (run capacity ops) <= Z.of_N capacity
  /\ total (run capacity ops) = capacity.
Proof.
  destruct (run_well_formed capacity ops) as (Ht & Hl & Hc & _).
  pose proof (reserved_nonneg (active (run capacity ops))) as Hn.
  unfold available. rewrite Ht. split; [lia|reflexivity].
Qed.

(** A budget of 12 that serves a waiter when memory comes back. *)
Example budget_trace :
  let ops := [ Acquire "script" 8; Acquire "voice" 6; Acquire "render" 20;
               Release 0; Release 0 ] in
  map (fun n => available (run 12 (take n ops))) [0; 1; 2; 3; 4; 5]%nat
  = [12; 4; 4; 4; 6; 6]
  /\ waiters (run 12 (take 3 ops)) = [("voice", 6%N)]
  /\ waiters (run 12 ops) = [].
Proof. vm_compute. repeat split. Qed.

End Budget.
(* ===================================================================== *)
(** * Further properties of the sources *)
(* ===================================================================== *)

(** ** ollama_client.py: error paths and the extraction of the script *)

Section ScriptBackend.
Import Py Sys OllamaClient Main Scenario.

Lemma bind_then {A B} (m : IO A) (k : A -> IO B) (w : World) log a log' r :
  m w = (log, Return a) -> k a w = (log', r) ->
  bind m k w = ((log ++ log')%list, r).
Proof. intros Hm Hk. unfold bind. now rewrite Hm, Hk. Qed.

(** The first statement of [generate_script] and [refine_script]: a
    client that is not loaded sends the one-token request of
    [load_model]; the client it leaves talks to the same address with the
    same model. *)
Lemma ensure_loaded_run self w :
  exists self1,
    (if negb (is_model_loaded self)
     then (let* r := load_model self None in ret (fst r))
     else ret self) w
    = (if is_model_loaded self then []
       else [Post (base_url self +:+ "/api/generate")
               (JDict [ ("model", JStr (model_name self));
                        ("prompt", JStr "A");
                        ("stream", JBool false);
                        ("options", JDict [("num_predict", JInt 1)]) ])],
       Return self1)
    /\ base_url self1 = base_url self
    /\ model_name self1 = model_name self.
Proof.
  destruct (is_model_loaded self); cbn [negb].
  - exists self. unfold ret. auto.
  - unfold load_model, try_except, bind, post, ret.
    destruct (http_post w _ _) as [response|e].
    + destruct (status response =? 200); cbn [app fst];
        eexists; (split; [reflexivity|]); cbn; auto.
    + cbn [app fst]. eexists; (split; [reflexivity|]); cbn; auto.
Qed.

Lemma generate_script_on_status self request w response :
  http_post w (base_url self +:+ "/api/generate")
    (generate_payload self request) = Return response ->
  (status response =? 200) = false ->
  OllamaClient.generate_script self request w
  = (((if is_model_loaded self then []
       else [Post (base_url self +:+ "/api/generate")
               (JDict [ ("model", JStr (model_name self));
                        ("prompt", JStr "A");
                        ("stream", JBool false);
                        ("options", JDict [("num_predict", JInt 1)]) ])])
      ++ [Post (base_url self +:+ "/api/generate")
            (generate_payload self request)])%list,
     Raise (Exn "Exception"
              ("Ollama API returned status "
               +:+ str_of_int (status response)))).
Proof.
  intros Hpost Hstatus.
  unfold OllamaClient.generate_script. rewrite try_reraise.
  destruct (ensure_loaded_run self w) as (self1 & E & Hurl & Hname).
  assert (Hp : generate_payload self1 request = generate_payload self request).
  { unfold generate_payload. now rewrite Hname. }
  apply (bind_then _ _ _ _ _ _ _ E).
  unfold bind at 1, post at 1. rewrite Hurl, Hp, Hpost, Hstatus.
  reflexivity.
Qed.

(** X1. A reply with a status other than 200 is an error of the script
    stage: after the request that loads the model, if the client was not
    loaded, and the request for the script, [generate_script] raises with
    the status in its message, and the handler answers failure with that
    message. *)
Theorem generate_script_reports_bad_status
    (st : AppState) (request : ScriptGenerationRequest) (w : World)
    (response : http_response) :
  let client := match ollama_client st with
                | Some c => c
                | None => OllamaClient.default
                end in
  let url := base_url client +:+ "/api/generate" in
  http_post w url (generate_payload client request) = Return response ->
  status response <> 200 ->
  let message :=
    "Ollama API returned status " +:+ str_of_int (status response) in
  let requests :=
    ((if is_model_loaded client then []
      else [Post url
              (JDict [ ("model", JStr (model_name client));
                       ("prompt", JStr "A");
                       ("stream", JBool false);
                       ("options", JDict [("num_predict", JInt 1)]) ])])
     ++ [Post url (generate_payload client request)])%list in
  OllamaClient.generate_script client request w
  = (requests, Raise (Exn "Exception" message))
  /\ Main.generate_script st request w
     = (requests,
        Return (ScriptFailure message
                  "Try using a smaller model or reducing context length")).
Proof.
  intros client url Hpost Hstatus message requests.
  apply Z.eqb_neq in Hstatus.
  pose proof (generate_script_on_status _ _ _ _ Hpost Hstatus) as H.
  split; [exact H|].
  unfold Main.generate_script, try_except, bind. fold client.
  rewrite H. unfold ret. cbn [exn_str]. now rewrite app_nil_r.
Qed.

End ScriptBackend.

(** ** Searching and slicing strings *)

Section StringFacts.
Import Py.

Lemma append_String c (s t : string) : String c s +:+ t = String c (s +:+ t).
Proof. reflexivity. Qed.

Lemma find_from_absent c s i j :
  0 <= i -> find_from c s i = -1 -> find_from c s j = -1.
Proof.
  revert i j. induction s as [|d s IH]; intros i j Hi H; [reflexivity|].
  cbn [find_from] in *. destruct (Ascii.eqb c d); [lia|].
  apply (IH (i + 1)); [lia|exact H].
Qed.

(** The first occurrence of [c] in a text that has none before it. *)
Lemma find_from_app c pre rest i :
  find_from c pre 0 = -1 ->
  find_from c (pre +:+ String c rest) i = i + Z.of_nat (String.length pre).
Proof.
  revert i. induction pre as [|d pre IH]; intros i H.
  - change (EmptyString +:+ String c rest) with (String c rest).
    cbn [find_from String.length]. rewrite Ascii.eqb_refl. lia.
  - rewrite append_String. cbn [find_from String.length] in *.
    destruct (Ascii.eqb c d); [lia|].
    rewrite IH by (apply (find_from_absent c pre 1); [lia|exact H]). lia.
Qed.

Lemma rfind_from_absent c s i last :
  find_from c s 0 = -1 -> rfind_from c s i last = last.
Proof.
  revert i last. induction s as [|d s IH]; intros i last H; [reflexivity|].
  cbn [rfind_from find_from] in *. destruct (Ascii.eqb c d); [lia|].
  apply IH. apply (find_from_absent c s 1); [lia|exact H].
Qed.

(** The last occurrence of [c] in a text that has none after it. *)
Lemma rfind_from_app c s post i last :
  find_from c post 0 = -1 ->
  rfind_from c (s +:+ String c post) i last = i + Z.of_nat (String.length s).
Proof.
  revert i last. induction s as [|d s IH]; intros i last H.
  - change (EmptyString +:+ String c post) with (String c post).
    cbn [rfind_from String.length]. rewrite Ascii.eqb_refl.
    rewrite rfind_from_absent by exact H. lia.
  - rewrite append_String. cbn [rfind_from String.length].
    rewrite IH by exact H. lia.
Qed.

Lemma substring_skip pre s n :
  String.substring (String.length pre) n (pre +:+ s) = String.substring 0 n s.
Proof.
  induction pre as [|d pre IH]; [reflexivity|].
  rewrite append_String. cbn [String.length String.substring]. exact IH.
Qed.

Lemma substring_prefix s post :
  String.substring 0 (String.length s) (s +:+ post) = s.
Proof.
  induction s as [|d s IH]; [now destruct post|].
  rewrite append_String. cbn [String.length String.substring]. now rewrite IH.
Qed.

Lemma length_app (a b : string) :
  String.length (a +:+ b) = (String.length a + String.length b)%nat.
Proof.
  induction a as [|c a IH]; [reflexivity|].
  rewrite append_String. cbn [String.length]. now rewrite IH.
Qed.

Lemma append_assoc (a b c : string) : (a +:+ b) +:+ c = a +:+ (b +:+ c).
Proof.
  induction a as [|d a IH]; [reflexivity|].
  rewrite !append_String. now rewrite IH.
Qed.

(** In [pre{mid}post], with no opening brace in [pre] and no closing
    brace in [post], the span from the first opening brace to the last
    closing brace is [{mid}]. *)
Lemma brace_span pre mid post :
  find "{" pre = -1 ->
  find "}" post = -1 ->
  let txt := pre +:+ "{" +:+ mid +:+ "}" +:+ post in
  find "{" txt = Z.of_nat (String.length pre)
  /\ rfind "}" txt + 1 = Z.of_nat (String.length pre + String.length mid + 2)
  /\ slice txt (find "{" txt) (rfind "}" txt + 1) = "{" +:+ mid +:+ "}".
Proof.
  intros Hpre Hpost txt.
  assert (Hf : find "{" txt = Z.of_nat (String.length pre)).
  { unfold find, txt. change ("{" +:+ mid +:+ "}" +:+ post)
      with (String "{" (mid +:+ "}" +:+ post)).
    rewrite find_from_app by exact Hpre. lia. }
  assert (Hr : rfind "}" txt + 1
               = Z.of_nat (String.length pre + String.length mid + 2)).
  { unfold rfind, txt.
    replace (pre +:+ "{" +:+ mid +:+ "}" +:+ post)
      with ((pre +:+ "{" +:+ mid) +:+ String "}" post)
      by (now rewrite !append_assoc).
    rewrite rfind_from_app by exact Hpost.
    rewrite !length_app. cbn [String.length]. lia. }
  split; [exact Hf|]. split; [exact Hr|].
  unfold slice. rewrite Hf, Hr. rewrite Nat2Z.id.
  replace (Z.to_nat (Z.of_nat (String.length pre + String.length mid + 2)
                     - Z.of_nat (String.length pre)))
    with (String.length ("{" +:+ mid +:+ "}"))
    by (rewrite !length_app; cbn [String.length]; lia).
  unfold txt. rewrite substring_skip.
  replace ("{" +:+ mid +:+ "}" +:+ post) with (("{" +:+ mid +:+ "}") +:+ post)
    by (now rewrite !append_assoc).
  apply substring_prefix.
Qed.

End StringFacts.

(** ** The script inside a wrapped answer *)

Section WrappedAnswer.
Import Py Sys OllamaClient Scenario ScenarioRest.

(** X2. When the model wraps its JSON in prose or a Markdown fence (no
    opening brace before it, no closing brace after it),
    [generate_script] hands exactly the braces and what is between them
    to [json.loads], and returns what [json.loads] makes of it. *)
Theorem wrapped_json_is_extracted
    (self : OllamaClient.t) (request : ScriptGenerationRequest) (w : World)
    (kv : list (string * json)) (pre mid post : string) :
  let txt := pre +:+ "{" +:+ mid +:+ "}" +:+ post in
  http_post w (base_url self +:+ "/api/generate")
    (generate_payload self request)
  = Return (Response 200 (Return (JDict kv))) ->
  assoc "response" kv = Some (JStr txt) ->
  find "{" pre = -1 ->
  find "}" post = -1 ->
  snd (OllamaClient.generate_script self request w)
  = match json_loads w ("{" +:+ mid +:+ "}") with
    | Return v => Return v
    | Raise e =>
        if String.eqb (exn_class e) "JSONDecodeError"
        then Return (raw_text_script request (JStr txt))
        else Raise e
    end.
Proof.
  intros txt Hpost Hkv Hpre Hsuf.
  destruct (brace_span pre mid post Hpre Hsuf) as (Hf & Hr & Hs).
  fold txt in Hf, Hr, Hs.
  rewrite (generate_script_on_text _ _ _ _ _ Hpost Hkv).
  rewrite parse_response_run. cbn [snd]. rewrite Hs.
  destruct (Z.eqb_spec (find "{" txt) (-1)) as [E|_]; [lia|]. cbn [negb].
  destruct (Z.gtb_spec (rfind "}" txt + 1) (find "{" txt)); [|lia].
  destruct (json_loads w _) as [v|e]; [reflexivity|].
  now destruct (String.eqb (exn_class e) "JSONDecodeError").
Qed.

Lemma wrapped_json_is_extracted_witness :
  snd (OllamaClient.generate_script OllamaClient.default daily_habits
         fenced_world)
  = Return (JDict []).
Proof.
  refine (wrapped_json_is_extracted OllamaClient.default daily_habits
            fenced_world [("response", JStr fenced_answer)]
            ("```json" +:+ nl) EmptyString (nl +:+ "```") _ _ _ _).
  - reflexivity.
  - reflexivity.
  - vm_compute. reflexivity.
  - vm_compute. reflexivity.
Defined.

Lemma generate_script_reports_bad_status_witness :
  snd (Main.generate_script Main.initial daily_habits (backend_status 503))
  = Return (Main.ScriptFailure "Ollama API returned status 503"
              "Try using a smaller model or reducing context length").
Proof.
  refine (f_equal snd
            (proj2 (generate_script_reports_bad_status Main.initial
                      daily_habits (backend_status 503)
                      (Response 503
                         (Raise (Exn "ContentTypeError"
                                   "unexpected mimetype")))
                      _ _))).
  - reflexivity.
  - discriminate.
Defined.

End WrappedAnswer.

(** ** ollama_client.py: loading, refining, listing *)

Section ClientRest.
Import Py Sys Host OllamaClient OllamaClientRest Scenario ScenarioRest.

(** X3. [load_model] never raises: a backend that cannot be reached or that
    answers another status than 200 only shows in the [False] it returns,
    which is also the flag it leaves on the client. It sends one request,
    for one token, and renames the model when given a non-empty name. *)
Theorem load_model_never_raises
    (self : OllamaClient.t) (name : option string) (w : World) :
  let renamed := if truthy_str name
                 then match name with Some n => n | None => model_name self end
                 else model_name self in
  let url := base_url self +:+ "/api/generate" in
  let payload :=
    JDict [ ("model", JStr renamed); ("prompt", JStr "A");
            ("stream", JBool false);
            ("options", JDict [("num_predict", JInt 1)]) ] in
  let loaded := match http_post w url payload with
                | Return response => status response =? 200
                | Raise _ => false
                end in
  exists client,
    load_model self name w = ([Post url payload], Return (client, loaded))
    /\ is_model_loaded client = loaded
    /\ model_name client = renamed
    /\ base_url client = base_url self
    /\ context_size client = context_size self.
Proof.
  intros renamed url payload loaded.
  unfold load_model, try_except, bind, post, ret.
  assert (Hm : model_name
                 match name with
                 | Some (String c n) => set_model_name self (String c n)
                 | _ => self
                 end = renamed).
  { subst renamed. now destruct name as [[|c n]|]. }
  assert (Hu : base_url
                 match name with
                 | Some (String c n) => set_model_name self (String c n)
                 | _ => self
                 end = base_url self).
  { now destruct name as [[|c n]|]. }
  assert (Hc : context_size
                 match name with
                 | Some (String c n) => set_model_name self (String c n)
                 | _ => self
                 end = context_size self).
  { now destruct name as [[|c n]|]. }
  rewrite Hm, Hu. fold url. fold payload. subst loaded.
  destruct (http_post w url payload) as [response|e].
  - destruct (status response =? 200); cbn [app];
      eexists; (split; [reflexivity|]); cbn; auto.
  - cbn [app]. eexists; (split; [reflexivity|]); cbn; auto.
Qed.

(** What [refine_script] sends does not depend on the script it is asked
    to refine beyond its number of words. *)
Lemma refine_payload_counts_words self r1 r2 :
  refine_duration_seconds r1 = refine_duration_seconds r2 ->
  adjustments r1 = adjustments r2 ->
  length (split (script r1)) = length (split (script r2)) ->
  refine_payload self r1 = refine_payload self r2.
Proof.
  intros Hd Ha Hw. unfold refine_payload, refine_user_prompt.
  now rewrite Hd, Ha, Hw.
Qed.

Lemma refine_script_log self request w :
  exists log self1,
    (if negb (is_model_loaded self)
     then (let* r := load_model self None in ret (fst r))
     else ret self) w = (log, Return self1)
    /\ fst (refine_script self request w)
       = (log ++ [Post (base_url self +:+ "/api/generate")
                    (refine_payload self request)])%list.
Proof.
  destruct (ensure_loaded_run self w) as (self1 & E & Hurl & Hname).
  eexists _, self1. split; [exact E|].
  unfold refine_script. rewrite try_reraise.
  rewrite (bind_return _ _ _ _ _ E). cbn [fst].
  assert (Hp : refine_payload self1 request = refine_payload self request).
  { unfold refine_payload. now rewrite Hname. }
  unfold bind at 1, post at 1. rewrite Hurl, Hp.
  destruct (http_post w _ _) as [response|e]; [|reflexivity].
  destruct (status response =? 200).
  - unfold bind, response_json, ret.
    destruct (body response) as [data|e]; [|reflexivity].
    unfold dict_get, ret, raise.
    destruct data as [| | | | |l|kv]; try reflexivity.
    destruct (match assoc "response" kv with
              | Some v => v
              | None => JStr EmptyString
              end) as [| | | |txt| |]; try reflexivity.
    unfold parse_refined, try_except_class, try_except, bind, as_str, ret,
      loads, raise.
    destruct (negb (find "{" txt =? -1)); [|reflexivity].
    destruct (rfind "}" txt + 1 >? find "{" txt); [|reflexivity].
    destruct (json_loads w _) as [v|e]; [reflexivity|].
    now destruct (String.eqb (exn_class e) "JSONDecodeError").
  - reflexivity.
Qed.

End ClientRest.

Section Refinement.
Import Py Sys Host OllamaClient OllamaClientRest Scenario ScenarioRest.

Let client_of (st : Main.AppState) : OllamaClient.t :=
  match Main.ollama_client st with
  | Some c => c
  | None => OllamaClient.default
  end.

Lemma refine_handler_run st request w :
  snd (MainRest.refine_script st request w)
  = match snd (refine_script (client_of st) request w) with
    | Return v => Return (MainRest.RefineSuccess v)
    | Raise e => Return (MainRest.RefineFailure (exn_str e))
    end.
Proof.
  unfold MainRest.refine_script, try_except, bind, ret. fold (client_of st).
  now destruct (refine_script (client_of st) request w) as [log [v|e]].
Qed.

Lemma refine_script_on_reply self request w response :
  http_post w (base_url self +:+ "/api/generate")
    (refine_payload self request) = Return response ->
  snd (refine_script self request w)
  = if status response =? 200 then
      match body response with
      | Return (JDict kv) =>
          match (match assoc "response" kv with
                 | Some v => v
                 | None => JStr EmptyString
                 end) with
          | JStr txt =>
              match snd (parse_refined request (JStr txt) w) with
              | Return (Some v) => Return v
              | Return None => Return JNone
              | Raise e => Raise e
              end
          | _ => Raise (Exn "AttributeError"
                          "object has no attribute 'find'")
          end
      | Return _ => Raise (Exn "AttributeError"
                             "object has no attribute 'get'")
      | Raise e => Raise e
      end
    else Return JNone.
Proof.
  intros Hpost.
  unfold refine_script. rewrite try_reraise.
  destruct (ensure_loaded_run self w) as (self1 & E & Hurl & Hname).
  rewrite (bind_return _ _ _ _ _ E). cbn [snd].
  assert (Hp : refine_payload self1 request = refine_payload self request).
  { unfold refine_payload. now rewrite Hname. }
  unfold bind at 1, post at 1. rewrite Hurl, Hp, Hpost.
  destruct (status response =? 200); [|reflexivity].
  unfold bind, response_json, ret.
  destruct (body response) as [data|e]; [|reflexivity].
  unfold dict_get, ret, raise.
  destruct data as [| | | | |l|kv]; try reflexivity.
  destruct (match assoc "response" kv with
            | Some v => v
            | None => JStr EmptyString
            end) as [| | | |txt| |]; try reflexivity.
  now destruct (parse_refined request (JStr txt) w) as [plog [[v|]|e]].
Qed.

Lemma refine_script_on_status self request w response :
  http_post w (base_url self +:+ "/api/generate")
    (refine_payload self request) = Return response ->
  (status response =? 200) = false ->
  refine_script self request w
  = (((if is_model_loaded self then []
       else [Post (base_url self +:+ "/api/generate")
               (JDict [ ("model", JStr (model_name self));
                        ("prompt", JStr "A");
                        ("stream", JBool false);
                        ("options", JDict [("num_predict", JInt 1)]) ])])
      ++ [Post (base_url self +:+ "/api/generate")
            (refine_payload self request)])%list,
     Return JNone).
Proof.
  intros Hpost Hstatus.
  unfold refine_script. rewrite try_reraise.
  destruct (ensure_loaded_run self w) as (self1 & E & Hurl & Hname).
  assert (Hp : refine_payload self1 request = refine_payload self request).
  { unfold refine_payload. now rewrite Hname. }
  apply (bind_then _ _ _ _ _ _ _ E).
  unfold bind at 1, post at 1. rewrite Hurl, Hp, Hpost, Hstatus.
  reflexivity.
Qed.

(** X4. Unlike [generate_script], [refine_script] does not raise on a
    reply with a status other than 200: it returns [None], and the
    handler answers success with no script. *)
Theorem refine_script_hides_bad_status
    (st : Main.AppState) (request : ScriptRefinementRequest) (w : World)
    (response : http_response) :
  let client := client_of st in
  let url := base_url client +:+ "/api/generate" in
  http_post w url (refine_payload client request) = Return response ->
  status response <> 200 ->
  let requests :=
    ((if is_model_loaded client then []
      else [Post url
              (JDict [ ("model", JStr (model_name client));
                       ("prompt", JStr "A");
                       ("stream", JBool false);
                       ("options", JDict [("num_predict", JInt 1)]) ])])
     ++ [Post url (refine_payload client request)])%list in
  refine_script client request w = (requests, Return JNone)
  /\ MainRest.refine_script st request w
     = (requests, Return (MainRest.RefineSuccess JNone)).
Proof.
  intros client url Hpost Hstatus requests. apply Z.eqb_neq in Hstatus.
  pose proof (refine_script_on_status _ _ _ _ Hpost Hstatus) as H.
  split; [exact H|].
  unfold MainRest.refine_script, try_except, bind. fold (client_of st).
  fold client. rewrite H. unfold ret. now rewrite app_nil_r.
Qed.

Lemma refine_script_hides_bad_status_witness :
  snd (MainRest.refine_script Main.initial
         {| script := "Habits shape the day.";
            refine_duration_seconds := 30;
            adjustments := ["shorter"] |}
         (backend_status 503))
  = Return (MainRest.RefineSuccess JNone).
Proof.
  refine (f_equal snd
            (proj2 (refine_script_hides_bad_status Main.initial _
                      (backend_status 503)
                      (Response 503
                         (Raise (Exn "ContentTypeError"
                                   "unexpected mimetype")))
                      _ _))).
  - reflexivity.
  - discriminate.
Defined.

(** X5. The request [refine_script] sends carries the number of words of the
    script, never its text: two scripts of the same length, to be refined
    to the same duration with the same adjustments, produce the same
    requests. *)
Theorem refine_script_sends_only_the_word_count
    (self : OllamaClient.t) (r1 r2 : ScriptRefinementRequest) (w : World) :
  refine_duration_seconds r1 = refine_duration_seconds r2 ->
  adjustments r1 = adjustments r2 ->
  length (split (script r1)) = length (split (script r2)) ->
  fst (refine_script self r1 w) = fst (refine_script self r2 w).
Proof.
  intros Hd Ha Hw.
  destruct (refine_script_log self r1 w) as (log1 & s1 & E1 & ->).
  destruct (refine_script_log self r2 w) as (log2 & s2 & E2 & ->).
  rewrite E1 in E2. injection E2 as <- _.
  now rewrite (refine_payload_counts_words self r1 r2 Hd Ha Hw).
Qed.

Lemma refine_script_sends_only_the_word_count_witness :
  fst (refine_script OllamaClient.default
         {| script := "Habits shape the day.";
            refine_duration_seconds := 30; adjustments := ["shorter"] |}
         plain_world)
  = fst (refine_script OllamaClient.default
           {| script := "Nothing of this sort.";
              refine_duration_seconds := 30; adjustments := ["shorter"] |}
           plain_world).
Proof.
  refine (refine_script_sends_only_the_word_count OllamaClient.default
            {| script := "Habits shape the day.";
               refine_duration_seconds := 30; adjustments := ["shorter"] |}
            {| script := "Nothing of this sort.";
               refine_duration_seconds := 30; adjustments := ["shorter"] |}
            plain_world _ _ _).
  - reflexivity.
  - reflexivity.
  - vm_compute. reflexivity.
Defined.

(** X6. When the answer of the model holds a brace-delimited span that
    [json.loads] rejects, [refine_script] returns a script whose single
    scene reads the original, unrefined text, and whatever the model
    answered is dropped. *)
Theorem refine_script_falls_back_to_the_original
    (self : OllamaClient.t) (request : ScriptRefinementRequest) (w : World)
    (kv : list (string * json)) (txt : string) (e : exn) :
  http_post w (base_url self +:+ "/api/generate")
    (refine_payload self request)
  = Return (Response 200 (Return (JDict kv))) ->
  assoc "response" kv = Some (JStr txt) ->
  find "{" txt <> -1 ->
  rfind "}" txt + 1 > find "{" txt ->
  json_loads w (slice txt (find "{" txt) (rfind "}" txt + 1)) = Raise e ->
  exn_class e = "JSONDecodeError" ->
  snd (refine_script self request w) = Return (unrefined_script request)
  /\ scenes (unrefined_script request)
     = Some [ JDict [ ("duration", JInt (refine_duration_seconds request));
                      ("visual", JStr "Generic visual");
                      ("voiceover", JStr (script request)) ] ].
Proof.
  intros Hpost Hkv Hopen Hclose Hloads Hclass.
  split; [|reflexivity].
  rewrite (refine_script_on_reply _ _ _ _ Hpost). cbn [status body].
  change (200 =? 200) with true. cbn iota. rewrite Hkv.
  unfold parse_refined, try_except_class, try_except, bind, as_str, ret,
    loads, raise.
  destruct (Z.eqb_spec (find "{" txt) (-1)) as [E|_]; [contradiction|].
  cbn [negb].
  destruct (Z.gtb_spec (rfind "}" txt + 1) (find "{" txt)); [|lia].
  rewrite Hloads, Hclass. reflexivity.
Qed.

Lemma refine_script_falls_back_to_the_original_witness :
  snd (refine_script OllamaClient.default
         {| script := "Habits shape the day.";
            refine_duration_seconds := 30; adjustments := ["shorter"] |}
         (model_says "{oops}"))
  = Return (unrefined_script
              {| script := "Habits shape the day.";
                 refine_duration_seconds := 30;
                 adjustments := ["shorter"] |}).
Proof.
  refine (proj1 (refine_script_falls_back_to_the_original
                   OllamaClient.default _ (model_says "{oops}")
                   [("response", JStr "{oops}")] "{oops}"
                   (Exn "JSONDecodeError" "Expecting value") _ _ _ _ _ _)).
  - reflexivity.
  - reflexivity.
  - vm_compute. discriminate.
  - vm_compute. reflexivity.
  - reflexivity.
  - reflexivity.
Defined.

(** X7. [list_models] never raises: it returns the empty list when the
    backend cannot be reached, answers another status than 200, sends a
    body that is not JSON or not a dictionary, or sends a dictionary
    without ["models"]; otherwise it returns the ["models"] entry as it
    is. *)
Theorem list_models_never_raises
    (o : Oracles) (self : OllamaClient.t) (w : World) :
  list_models o self w
  = ([], Return
           match http_get o (base_url self +:+ "/api/tags") with
           | Return response =>
               if status response =? 200 then
                 match body response with
                 | Return (JDict kv) =>
                     match assoc "models" kv with
                     | Some models => models
                     | None => JList []
                     end
                 | _ => JList []
                 end
               else JList []
           | Raise _ => JList []
           end)
  /\ MainRest.list_available_models o w
     = ([], Return (MainRest.ModelsSuccess
                      match snd (list_models o OllamaClient.default w) with
                      | Return models => models
                      | Raise _ => JList []
                      end)).
Proof.
  assert (H : forall c,
             list_models o c w
             = ([], Return
                      match http_get o (base_url c +:+ "/api/tags") with
                      | Return response =>
                          if status response =? 200 then
                            match body response with
                            | Return (JDict kv) =>
                                match assoc "models" kv with
                                | Some models => models
                                | None => JList []
                                end
                            | _ => JList []
                            end
                          else JList []
                      | Raise _ => JList []
                      end)).
  { intros c. unfold list_models, try_except, bind, response_json, ret.
    destruct (http_get o _) as [response|e]; [|reflexivity].
    destruct (status response =? 200); [|reflexivity].
    destruct (body response) as [data|e]; [|reflexivity].
    unfold dict_get, ret, raise.
    destruct data as [| | | | |l|kv]; try reflexivity. }
  split; [apply H|].
  unfold MainRest.list_available_models, try_except, bind, ret.
  now rewrite H.
Qed.

End Refinement.
(** ** audio_pipeline.py: mixing and background music *)

Section Mixing.
Import Py PyMore Sys Host FFmpeg AudioPipeline AudioPipelineRest.
Import Scenario ScenarioRest.

Lemma get_audio_duration_run o audio_path w :
  _get_audio_duration o audio_path w
  = ([Run (ffprobe_cmd audio_path)],
     Return (measured_duration o w audio_path)).
Proof.
  unfold _get_audio_duration, measured_duration, try_except, bind, run, ret,
    pure.
  destruct (subprocess_run w (ffprobe_cmd audio_path)) as [result|e];
    [|reflexivity].
  now destruct (float_of_str o (strip (stdout result))).
Qed.

(** [apply_auto_ducking] in closed form. *)
Lemma apply_auto_ducking_run o voice_path music_path output_path w :
  let probes :=
    [Run (ffprobe_cmd voice_path); Run (ffprobe_cmd music_path)] in
  let d := measured_duration o w voice_path in
  apply_auto_ducking o voice_path music_path output_path w
  = match int_of_number (Float (fmul d (float_of_int 44100))) with
    | Raise e => (probes, Raise e)
    | Return size =>
        let loop_music := "loop=loop=-1:size=" +:+ str_of_int size in
        let first :=
          ducking_cmd voice_path music_path loop_music (str_float o d)
            output_path in
        let second := mix_cmd voice_path music_path loop_music output_path in
        match subprocess_run w first with
        | Raise e => ((probes ++ [Run first])%list, Raise e)
        | Return result =>
            if returncode result =? 0
            then ((probes ++ [Run first])%list, Return output_path)
            else match subprocess_run w second with
                 | Raise e =>
                     ((probes ++ [Run first; Run second])%list, Raise e)
                 | Return _ =>
                     ((probes ++ [Run first; Run second])%list,
                      Return output_path)
                 end
        end
    end.
Proof.
  intros probes d. unfold apply_auto_ducking. rewrite try_reraise.
  unfold bind at 1. rewrite get_audio_duration_run.
  unfold bind at 1. rewrite get_audio_duration_run.
  fold d. unfold bind at 1, pure at 1.
  destruct (int_of_number _) as [size|e]; [|reflexivity].
  unfold bind, ret, run. cbn [app].
  destruct (subprocess_run w _) as [result|e]; [|reflexivity].
  destruct (returncode result =? 0); [reflexivity|].
  now destruct (subprocess_run w _).
Qed.

(** The constructor the ducking handler runs first, when no pipeline is
    loaded: its exception, if any. *)
Let pipeline_error (o : Oracles) (st : Main.AppState) : option exn :=
  match Main.audio_pipeline st with
  | Some _ => None
  | None =>
      match makedirs o "assets/audio" with
      | Some e => Some e
      | None => makedirs o "assets/audio/voices"
      end
  end.

Lemma ducking_handler_run o st voice_path music_path output_path w :
  MainRest.apply_audio_ducking o st voice_path music_path output_path w
  = match pipeline_error o st with
    | Some e => ([], Return (MainRest.DuckingFailure (exn_str e)))
    | None =>
        match apply_auto_ducking o voice_path music_path output_path w with
        | (log, Return p) => (log, Return (MainRest.DuckingSuccess p))
        | (log, Raise e) =>
            (log, Return (MainRest.DuckingFailure (exn_str e)))
        end
    end.
Proof.
  unfold MainRest.apply_audio_ducking, pipeline_error,
    MainRest.new_audio_pipeline, try_except, bind, ret, os_makedirs.
  cbn [AudioPipeline.audio_dir AudioPipeline.default].
  destruct (Main.audio_pipeline st) as [p|].
  - cbn [app].
    destruct (apply_auto_ducking o voice_path music_path output_path w)
      as [log [q|e]]; now rewrite ?app_nil_r.
  - destruct (makedirs o "assets/audio"); [reflexivity|].
    destruct (makedirs o "assets/audio/voices"); [reflexivity|].
    cbn [app].
    destruct (apply_auto_ducking o voice_path music_path output_path w)
      as [log [q|e]]; now rewrite ?app_nil_r.
Qed.

(** X8. [apply_auto_ducking] probes both tracks, then answers with the output
    path as soon as the FFmpeg processes could be started: when the
    ducking command exits with an error it runs the plain mix and returns
    the same path without looking at how that one exited. It raises only
    when the measured length of the voice is infinite or not a number, or
    when a mixing process cannot be started. Both commands name the path
    it returns as their output, and the handler reports success whenever
    it returns (and failure when it raises, or when the directories of a
    pipeline created for the request cannot be made). *)
Theorem ducking_succeeds_whatever_ffmpeg_exits
    (o : Oracles) (st : Main.AppState)
    (voice_path music_path output_path : string) (w : World) :
  let probes :=
    [Run (ffprobe_cmd voice_path); Run (ffprobe_cmd music_path)] in
  let d := measured_duration o w voice_path in
  let mixing (size : Z) : list effect * outcome string :=
    let loop_music := "loop=loop=-1:size=" +:+ str_of_int size in
    let first :=
      ducking_cmd voice_path music_path loop_music (str_float o d)
        output_path in
    let second := mix_cmd voice_path music_path loop_music output_path in
    match subprocess_run w first with
    | Raise e => ((probes ++ [Run first])%list, Raise e)
    | Return result =>
        if returncode result =? 0
        then ((probes ++ [Run first])%list, Return output_path)
        else match subprocess_run w second with
             | Raise e => ((probes ++ [Run first; Run second])%list, Raise e)
             | Return _ =>
                 ((probes ++ [Run first; Run second])%list,
                  Return output_path)
             end
    end in
  let constructor_error : option exn :=
    match Main.audio_pipeline st with
    | Some _ => None
    | None =>
        match makedirs o "assets/audio" with
        | Some e => Some e
        | None => makedirs o "assets/audio/voices"
        end
    end in
  apply_auto_ducking o voice_path music_path output_path w
  = match int_of_number (Float (fmul d (float_of_int 44100))) with
    | Raise e => (probes, Raise e)
    | Return size => mixing size
    end
  /\ (forall loop_music duration,
         output_file (ducking_cmd voice_path music_path loop_music duration
                        output_path) = Some output_path
         /\ output_file (mix_cmd voice_path music_path loop_music
                           output_path) = Some output_path)
  /\ MainRest.apply_audio_ducking o st voice_path music_path output_path w
     = match constructor_error with
       | Some e => ([], Return (MainRest.DuckingFailure (exn_str e)))
       | None =>
           match apply_auto_ducking o voice_path music_path output_path w with
           | (log, Return p) => (log, Return (MainRest.DuckingSuccess p))
           | (log, Raise e) =>
               (log, Return (MainRest.DuckingFailure (exn_str e)))
           end
       end.
Proof.
  intros probes d mixing constructor_error. split; [|split].
  - apply apply_auto_ducking_run.
  - intros loop_music duration. split; reflexivity.
  - apply ducking_handler_run.
Qed.

(** X9. When the length of the voice track cannot be measured ([ffprobe]
    cannot be started, or prints no number), [apply_auto_ducking] goes on
    with 60 seconds: the music is looped over 2646000 samples and the mix
    is cut at [str(60.0)]. *)
Theorem ducking_assumes_sixty_seconds
    (o : Oracles) (voice_path music_path output_path : string) (w : World) :
  (forall result,
      subprocess_run w (ffprobe_cmd voice_path) = Return result ->
      exists e, float_of_str o (strip (stdout result)) = Raise e) ->
  exists rest,
    fst (apply_auto_ducking o voice_path music_path output_path w)
    = ([ Run (ffprobe_cmd voice_path); Run (ffprobe_cmd music_path);
         Run (ducking_cmd voice_path music_path "loop=loop=-1:size=2646000"
                (str_float o (float_of_int 60)) output_path) ] ++ rest)%list.
Proof.
  intros Hprobe.
  assert (Hd : measured_duration o w voice_path = float_of_int 60).
  { unfold measured_duration.
    destruct (subprocess_run w (ffprobe_cmd voice_path)) as [result|e];
      [|reflexivity].
    destruct (Hprobe result eq_refl) as [e ->]. reflexivity. }
  pose proof (apply_auto_ducking_run o voice_path music_path output_path w)
    as E. cbv zeta in E. rewrite Hd in E.
  change (int_of_number (Float (fmul (float_of_int 60) (float_of_int 44100))))
    with (@Return Z 2646000) in E.
  cbv iota beta in E.
  change ("loop=loop=-1:size=" +:+ str_of_int 2646000)
    with "loop=loop=-1:size=2646000" in E.
  rewrite E. clear E Hd Hprobe.
  destruct (subprocess_run w (ducking_cmd _ _ _ _ _)) as [result|e];
    [|exists []; reflexivity].
  destruct (returncode result =? 0); [exists []; reflexivity|].
  destruct (subprocess_run w (mix_cmd _ _ _ _)); eexists; reflexivity.
Qed.

Lemma ducking_assumes_sixty_seconds_witness :
  exists rest,
    fst (apply_auto_ducking plain_oracles "voice.wav" "music.mp3" "mixed.m4a"
           no_ffmpeg_world)
    = ([ Run (ffprobe_cmd "voice.wav"); Run (ffprobe_cmd "music.mp3");
         Run (ducking_cmd "voice.wav" "music.mp3" "loop=loop=-1:size=2646000"
                "60.0" "mixed.m4a") ] ++ rest)%list.
Proof.
  refine (ducking_assumes_sixty_seconds plain_oracles "voice.wav" "music.mp3"
            "mixed.m4a" no_ffmpeg_world _).
  intros result H. discriminate H.
Defined.

End Mixing.

Section BackgroundMusic.
Import Py PyMore Sys Host AudioPipeline AudioPipelineRest Scenario.

(** X10. [create_background_music] writes silence: one file of
    [int(44100 * duration)] zero-valued samples at 44100 Hz, named after
    the mood under the audio directory, and returns its path. It writes
    nothing and raises when [int] raises (an infinite or NaN duration),
    when the count is negative (a duration of -1/44100 s or below), or
    when [np.zeros] or [soundfile.write] raises. *)
Theorem background_music_is_silence
    (self : AudioPipeline.t) (mood : string) (duration : float) (w : World) :
  let output_path :=
    path_join (audio_dir self)
      ("background_" +:+ mood +:+ "_"
       +:+ str_of_int (abs_mod (str_hash w mood) 10000) +:+ ".mp3") in
  create_background_music self mood duration w
  = match int_of_number (Float (fmul (float_of_int 44100) duration)) with
    | Raise e => ([], Raise e)
    | Return n =>
        if n <? 0
        then ([], Raise (Exn "ValueError"
                           "negative dimensions are not allowed"))
        else
          match np_alloc w n with
          | Some e => ([], Raise e)
          | None =>
              match sf_write w output_path with
              | Some e => ([], Raise e)
              | None =>
                  ([SfWrite output_path (repeat 0%Q (Z.to_nat n)) 44100],
                   Return output_path)
              end
          end
    end
  /\ create_background_music self "calm" (truediv 5 2) plain_world
     = ([SfWrite (path_join (audio_dir self) "background_calm_3456.mp3")
           (repeat 0%Q (Z.to_nat 110250)) 44100],
        Return (path_join (audio_dir self) "background_calm_3456.mp3"))
  /\ snd (create_background_music self mood (SFopp (float_of_int 1)) w)
     = Raise (Exn "ValueError" "negative dimensions are not allowed").
Proof.
  intros output_path.
  assert (H : forall m d v,
             create_background_music self m d v
             = match int_of_number (Float (fmul (float_of_int 44100) d)) with
               | Raise e => ([], Raise e)
               | Return n =>
                   if n <? 0
                   then ([], Raise (Exn "ValueError"
                                      "negative dimensions are not allowed"))
                   else
                     match np_alloc v n with
                     | Some e => ([], Raise e)
                     | None =>
                         match sf_write v
                                 (path_join (audio_dir self)
                                    ("background_" +:+ m +:+ "_"
                                     +:+ str_of_int
                                           (abs_mod (str_hash v m) 10000)
                                     +:+ ".mp3")) with
                         | Some e => ([], Raise e)
                         | None =>
                             ([SfWrite
                                 (path_join (audio_dir self)
                                    ("background_" +:+ m +:+ "_"
                                     +:+ str_of_int
                                           (abs_mod (str_hash v m) 10000)
                                     +:+ ".mp3"))
                                 (repeat 0%Q (Z.to_nat n)) 44100],
                              Return
                                (path_join (audio_dir self)
                                   ("background_" +:+ m +:+ "_"
                                    +:+ str_of_int
                                          (abs_mod (str_hash v m) 10000)
                                    +:+ ".mp3")))
                         end
                     end
               end).
  { intros m d v. unfold create_background_music. rewrite try_reraise.
    unfold bind at 1, hash at 1. cbn [app].
    unfold bind, pure, allocate, write, ret, np_zeros.
    destruct (int_of_number _) as [n|e]; [|reflexivity].
    destruct (n <? 0); [reflexivity|].
    destruct (np_alloc v n); [reflexivity|].
    now destruct (sf_write v _). }
  split; [apply H|]. split.
  - rewrite H.
    change (int_of_number (Float (fmul (float_of_int 44100) (truediv 5 2))))
      with (@Return Z 110250).
    cbv iota.
    change (str_of_int (abs_mod (str_hash plain_world "calm") 10000))
      with "3456".
    change ("background_" +:+ "calm" +:+ "_" +:+ "3456" +:+ ".mp3")
      with "background_calm_3456.mp3".
    change (110250 <? 0) with false. cbv iota.
    change (np_alloc plain_world 110250) with (@None exn).
    change (sf_write plain_world
              (path_join (audio_dir self) "background_calm_3456.mp3"))
      with (@None exn).
    cbv iota. reflexivity.
  - rewrite H.
    change (int_of_number
              (Float (fmul (float_of_int 44100) (SFopp (float_of_int 1)))))
      with (@Return Z (-44100)).
    reflexivity.
Qed.

End BackgroundMusic.

(** ** video_engine.py: the command of an export, read back *)

Section ExportCommand.
Import Py PyMore Sys Host FFmpeg VideoEngine VideoEngineRest.
Import Scenario ScenarioRest.

Lemma existing_clips_kept clips i w :
  existing_clips clips i w = ([], Return (kept_clips w clips i)).
Proof.
  revert i. induction clips as [|clip rest IH]; intros i; [reflexivity|].
  cbn [existing_clips kept_clips]. unfold bind, os_path_exists, ret.
  rewrite IH. cbn [app]. now destruct (path_exists w _).
Qed.

(** The filter graph of a command. *)
Let graph (w : World) (resolution : string) (fps : Z)
    (clips : list VideoClip) (captions_path : option string) : string :=
  join_semicolon
    (if captions_found w captions_path
     then (video_filters resolution fps (kept_clips w clips 0)
           ++ [subtitles_filter (or_str captions_path EmptyString)])%list
     else video_filters resolution fps (kept_clips w clips 0)).

Lemma build_ffmpeg_command_closed
    resolution fps codec bitrate clips audio_path captions_path w :
  _build_ffmpeg_command resolution fps codec bitrate clips audio_path
    captions_path w
  = ([Run codecs_probe],
     Return (["ffmpeg"; "-y"]
             ++ (input_args (kept_clips w clips 0) ++ ["-i"; audio_path])
             ++ encode_args (graph w resolution fps clips captions_path)
                  (if truthy_str captions_path then "[outsub]" else "[outv]")
                  (str_of_int (Z.of_nat (length (kept_clips w clips 0)))
                   +:+ ":a")
                  (if nvenc_reported w then "h264_nvenc" else "h264")
                  bitrate fps)%list).
Proof.
  unfold _build_ffmpeg_command, graph, captions_found.
  rewrite (bind_return _ _ _ _ _ (existing_clips_kept clips 0 w)).
  cbn [app fst snd].
  destruct captions_path as [[|c p]|]; unfold bind, os_path_exists, ret;
    rewrite check_nvenc_run; cbn [app fst snd]; reflexivity.
Qed.

Lemma scan_inputs files rest :
  scan "-i" (input_args files ++ rest)%list None
  = (files ++ scan "-i" rest None)%list.
Proof.
  induction files as [|p files IH]; [reflexivity|].
  change (input_args (p :: files)) with ("-i" :: p :: input_args files).
  cbn [app scan].
  change (takes_value "-i") with true. cbn iota.
  change ("-i" =? "-i")%string with true. cbn iota.
  now rewrite IH.
Qed.

Lemma filter_complex_of_command files audio_path fc vmap amap vcodec bitrate
    fps :
  option_values "-filter_complex"
    (["ffmpeg"; "-y"]
     ++ (input_args files ++ ["-i"; audio_path])
     ++ encode_args fc vmap amap vcodec bitrate fps)%list
  = [fc].
Proof.
  unfold option_values. cbn [app tl scan].
  change (takes_value "-y") with false. cbn iota.
  rewrite <- app_assoc. rewrite scan_input_args by discriminate.
  reflexivity.
Qed.

Lemma maps_of_command files audio_path fc vmap amap vcodec bitrate fps :
  option_values "-map"
    (["ffmpeg"; "-y"]
     ++ (input_args files ++ ["-i"; audio_path])
     ++ encode_args fc vmap amap vcodec bitrate fps)%list
  = [vmap; amap].
Proof.
  unfold option_values. cbn [app tl scan].
  change (takes_value "-y") with false. cbn iota.
  rewrite <- app_assoc. rewrite scan_input_args by discriminate.
  reflexivity.
Qed.

(** X11. In the command of an export the inputs are the clips that exist, in
    order, followed by the audio file, and the audio stream that is
    mapped is the one of that last input: its index is the number of
    clips kept. Clips whose file is missing are left out without an
    error. *)
Theorem audio_map_points_at_the_audio_input
    (resolution : string) (fps : Z) (codec bitrate : string)
    (clips : list VideoClip) (audio_path : string)
    (captions_path : option string) (w : World) :
  let files := kept_clips w clips 0 in
  let filter_complex :=
    join_semicolon
      (if captions_found w captions_path
       then (video_filters resolution fps files
             ++ [subtitles_filter (or_str captions_path EmptyString)])%list
       else video_filters resolution fps files) in
  let cmd :=
    (["ffmpeg"; "-y"]
     ++ (input_args files ++ ["-i"; audio_path])
     ++ encode_args filter_complex
          (if truthy_str captions_path then "[outsub]" else "[outv]")
          (str_of_int (Z.of_nat (length files)) +:+ ":a")
          (if nvenc_reported w then "h264_nvenc" else "h264")
          bitrate fps)%list in
  _build_ffmpeg_command resolution fps codec bitrate clips audio_path
    captions_path w = ([Run codecs_probe], Return cmd)
  /\ option_values "-i" cmd = (files ++ [audio_path])%list
  /\ option_values "-map" cmd
     = [ if truthy_str captions_path then "[outsub]" else "[outv]";
         str_of_int (Z.of_nat (length files)) +:+ ":a" ]
  /\ (files ++ [audio_path])%list !! length files = Some audio_path
  /\ Forall (fun p => path_exists w p = true) files.
Proof.
  intros files filter_complex cmd.
  split; [apply build_ffmpeg_command_closed|].
  split; [|split; [|split]].
  - subst cmd. unfold option_values. cbn [app tl scan].
    change (takes_value "-y") with false. cbn iota.
    rewrite <- app_assoc. rewrite scan_inputs. reflexivity.
  - apply maps_of_command.
  - rewrite lookup_app_r by lia. now rewrite Nat.sub_diag.
  - subst files. generalize 0 as i.
    induction clips as [|clip rest IH]; intros i; [constructor|].
    cbn [kept_clips]. destruct (path_exists w _) eqn:E; [|apply IH].
    constructor; [exact E|apply IH].
Qed.

(** X12. Captions that are asked for but whose file is missing break the
    command: the video stream mapped is [outsub], yet the filter graph is
    the one of an export without captions, whose only output is
    [outv]. *)
Theorem missing_captions_map_an_absent_label
    (resolution : string) (fps : Z) (codec bitrate : string)
    (clips : list VideoClip) (audio_path captions : string) (w : World) :
  truthy_str (Some captions) = true ->
  path_exists w captions = false ->
  exists with_captions without,
    snd (_build_ffmpeg_command resolution fps codec bitrate clips audio_path
           (Some captions) w) = Return with_captions
    /\ snd (_build_ffmpeg_command resolution fps codec bitrate clips
              audio_path None w) = Return without
    /\ option_values "-filter_complex" with_captions
       = option_values "-filter_complex" without
    /\ option_values "-filter_complex" without
       = [join_semicolon (video_filters resolution fps (kept_clips w clips 0))]
    /\ head (option_values "-map" with_captions) = Some "[outsub]"
    /\ head (option_values "-map" without) = Some "[outv]".
Proof.
  intros Htruthy Hmissing.
  rewrite !build_ffmpeg_command_closed. cbn [snd].
  do 2 eexists. split; [reflexivity|]. split; [reflexivity|].
  assert (Hg : graph w resolution fps clips (Some captions)
               = graph w resolution fps clips None).
  { unfold graph, captions_found. destruct captions as [|c p];
      [discriminate Htruthy|]. now rewrite Hmissing. }
  rewrite Hg. rewrite Htruthy.
  rewrite !filter_complex_of_command, !maps_of_command.
  split; [reflexivity|]. split; [reflexivity|].
  split; reflexivity.
Qed.

Lemma missing_captions_map_an_absent_label_witness :
  exists with_captions without,
    snd (_build_ffmpeg_command "1080x1920" 30 "h.264" "8M" []
           "assets/audio/test.wav" (Some "captions.srt") plain_world)
    = Return with_captions
    /\ snd (_build_ffmpeg_command "1080x1920" 30 "h.264" "8M" []
              "assets/audio/test.wav" None plain_world) = Return without
    /\ option_values "-filter_complex" with_captions
       = option_values "-filter_complex" without
    /\ option_values "-filter_complex" without
       = [join_semicolon
            (video_filters "1080x1920" 30 (kept_clips plain_world [] 0))]
    /\ head (option_values "-map" with_captions) = Some "[outsub]"
    /\ head (option_values "-map" without) = Some "[outv]".
Proof.
  refine (missing_captions_map_an_absent_label "1080x1920" 30 "h.264" "8M"
            [] "assets/audio/test.wav" "captions.srt" plain_world _ _).
  - reflexivity.
  - reflexivity.
Defined.

End ExportCommand.

(** ** Settings of an export *)

Section ExportSettingsFacts.
Import Py PyMore Sys Host FFmpeg VideoEngine VideoEngineRest.
Import Scenario ScenarioRest.




Lemma bind_pure_step {A B} (m : IO A) (k : A -> IO B) (w : World) a :
  m w = ([], Return a) -> bind m k w = k a w.
Proof. intros H. unfold bind. rewrite H. now destruct (k a w). Qed.

Lemma attr_or_str_present obj name v key default p w :
  platform_attr obj = Some p ->
  attr_or_str obj name (Some v) key default w
  = ([], Return (or_str v (preset_field p key default))).
Proof.
  intros Hp. unfold attr_or_str, getattr, bind, ret. rewrite Hp.
  now destruct v as [[|c r]|].
Qed.

Lemma attr_or_int_present obj name v key default p w :
  platform_attr obj = Some p ->
  attr_or_int obj name (Some v) key default w
  = ([], Return (or_int v (preset_field p key default))).
Proof.
  intros Hp. unfold attr_or_int, getattr. rewrite Hp.
  destruct v as [k|]; [|reflexivity].
  unfold bind at 1, ret at 1. cbn [or_int].
  now destruct (k =? 0).
Qed.

(** On an object that has all the attributes, [export_video] runs as on
    the record of settings. *)
Lemma export_video_obj_of_record self settings clips audio_path captions w :
  export_video_obj self (object_of settings) clips audio_path captions w
  = export_video self settings clips audio_path captions w.
Proof.
  unfold export_video_obj, export_video. rewrite !try_reraise.
  change (resolution_attr (object_of settings))
    with (Some (resolution settings)).
  change (fps_attr (object_of settings)) with (Some (fps settings)).
  change (codec_attr (object_of settings)) with (Some (codec settings)).
  change (bit_rate_attr (object_of settings))
    with (Some (bit_rate settings)).
  rewrite (bind_pure_step _ _ _ _
             (attr_or_str_present (object_of settings) _ _ _ _
                (platform settings) w eq_refl)).
  rewrite (bind_pure_step _ _ _ _
             (attr_or_int_present (object_of settings) _ _ _ _
                (platform settings) w eq_refl)).
  rewrite (bind_pure_step _ _ _ _
             (attr_or_str_present (object_of settings) _ _ _ _
                (platform settings) w eq_refl)).
  rewrite (bind_pure_step _ _ _ _
             (attr_or_str_present (object_of settings) _ _ _ _
                (platform settings) w eq_refl)).
  reflexivity.
Qed.

(** X14. Through the HTTP handler every export fails before anything is run:
    [ProjectSettings] has no [codec] field, reading it raises
    [AttributeError], and the handler answers failure with that message
    (or with the message of the exception, when the directories of an
    engine created for the request cannot be made). *)
Theorem export_handler_always_fails
    (o : Oracles) (video_engine : option VideoEngine.t)
    (settings : MainRest.ProjectSettings)
    (clips : list VideoClip) (audio_path : string)
    (captions_path : option string) (w : World) :
  let constructor_error : option exn :=
    match video_engine with
    | Some _ => None
    | None =>
        match makedirs o "assets/video" with
        | Some e => Some e
        | None => makedirs o "output"
        end
    end in
  MainRest.export_video o video_engine settings clips audio_path
    captions_path w
  = ([], Return (MainRest.ExportFailure
                   match constructor_error with
                   | Some e => exn_str e
                   | None =>
                       "'ProjectSettings' object has no attribute 'codec'"
                   end
                   "Try reducing resolution or FPS settings")).
Proof.
  intros constructor_error.
  assert (H : forall engine,
             export_video_obj engine (MainRest.as_object settings) clips
               audio_path captions_path w
             = ([], Raise (Exn "AttributeError"
                             "'ProjectSettings' object has no attribute 'codec'"))).
  { intros engine. unfold export_video_obj. rewrite try_reraise.
    unfold attr_or_str, attr_or_int, getattr, MainRest.as_object.
    cbn [resolution_attr fps_attr codec_attr bit_rate_attr platform_attr
         class_name].
    unfold bind, ret, raise.
    destruct (MainRest.resolution settings) as [|c r];
      destruct (MainRest.fps settings =? 0); reflexivity. }
  unfold MainRest.export_video, try_except, constructor_error.
  destruct video_engine as [engine|].
  - unfold bind at 1, ret at 1. unfold bind at 1. rewrite H. reflexivity.
  - unfold MainRest.new_video_engine, os_makedirs.
    cbn [VideoEngine.video_dir VideoEngine.output_dir VideoEngine.default].
    unfold bind at 1. unfold bind at 1.
    destruct (makedirs o "assets/video"); [reflexivity|].
    unfold bind at 1.
    destruct (makedirs o "output"); [reflexivity|].
    unfold ret at 1. cbn [app]. unfold bind at 1. rewrite H. reflexivity.
Qed.

End ExportSettingsFacts.

(** ** Clips made by FFmpeg *)

Section ClipBuilders.
Import Py PyMore Sys Host FFmpeg VideoEngine VideoEngineRest WhisperService.
Import Scenario ScenarioRest.

(** What a function that runs one command and returns [output_path]
    ends with. *)
Let ending (w : World) (cmd : list string) (output_path failure : string)
  : outcome string :=
  match subprocess_run w cmd with
  | Return result =>
      if returncode result =? 0 then Return output_path
      else Raise (Exn "Exception" (failure +:+ stderr result))
  | Raise e => Raise e
  end.

(** X15. [create_text_overlay] and [create_transition] run one FFmpeg command
    each; the path they return when it exits with 0 is the last argument
    of that command, a file of the video directory named after a hash
    below 10000; when it exits otherwise they raise with its error
    output. Only the type [crossfade], spelled so, gets the cross-fade
    command, whose fade-out starts at [duration - 0.5]. *)
Theorem clip_builders_return_the_file_they_write
    (o : Oracles) (self : VideoEngine.t) (text style transition_type : string)
    (duration : float) (w : World) :
  let text_path :=
    path_join (video_dir self)
      ("text_" +:+ str_of_int (abs_mod (str_hash w text) 10000) +:+ ".mp4") in
  let text_cmd := text_overlay_cmd text (str_float o duration) text_path in
  let k :=
    abs_mod (str_hash w (transition_type +:+ str_float o duration)) 10000 in
  let transition_path :=
    path_join (video_dir self)
      ("transition_" +:+ transition_type +:+ "_" +:+ str_of_int k
       +:+ ".mp4") in
  let transition_cmd :=
    if String.eqb transition_type "crossfade"
    then crossfade_cmd (str_float o (fsub duration (truediv 1 2)))
           (str_float o duration) transition_path
    else fade_cmd (str_float o duration) transition_path in
  create_text_overlay o self text duration style w
  = ([Run text_cmd],
     ending w text_cmd text_path "Text overlay creation failed: ")
  /\ output_file text_cmd = Some text_path
  /\ create_transition o self transition_type duration w
     = ([Run transition_cmd],
        ending w transition_cmd transition_path
          "Transition creation failed: ")
  /\ output_file transition_cmd = Some transition_path
  /\ 0 <= k < 10000.
Proof.
  intros text_path text_cmd k transition_path transition_cmd.
  split; [|split; [reflexivity|split; [|split]]].
  - unfold create_text_overlay. rewrite try_reraise.
    unfold bind, hash, run, ret, raise, ending. cbn [app].
    fold text_path. fold text_cmd.
    destruct (subprocess_run w text_cmd) as [result|e]; [|reflexivity].
    now destruct (returncode result =? 0).
  - unfold create_transition. rewrite try_reraise.
    unfold bind, hash, run, ret, raise, ending. cbn [app].
    fold k. fold transition_path. fold transition_cmd.
    destruct (subprocess_run w transition_cmd) as [result|e]; [|reflexivity].
    now destruct (returncode result =? 0).
  - subst transition_cmd.
    now destruct (String.eqb transition_type "crossfade").
  - unfold k, abs_mod. apply Z.mod_pos_bound. lia.
Qed.

(** X16. [burn_captions] returns its [output_path] argument exactly when
    FFmpeg exits with 0, that path is the file the command writes, and
    the video is encoded with the software encoder without a probe of the
    hardware one. *)
Theorem burn_captions_returns_the_file_it_writes
    (video_path captions_path output_path style : string) (w : World) :
  let cmd := burn_cmd video_path captions_path output_path in
  burn_captions video_path captions_path output_path style w
  = ([Run cmd], ending w cmd output_path "Caption burning failed: ")
  /\ output_file cmd = Some output_path
  /\ video_encoder cmd = Some "h264".
Proof.
  intros cmd. split; [|split].
  - unfold burn_captions. rewrite try_reraise.
    unfold bind, run, ret, raise, ending. fold cmd.
    destruct (subprocess_run w cmd) as [result|e]; [|reflexivity].
    now destruct (returncode result =? 0).
  - reflexivity.
  - unfold video_encoder, option_values, cmd, burn_cmd. cbn [tl scan].
    change (takes_value "-y") with false. change (takes_value "-i") with true.
    change (takes_value "-vf") with true. change (takes_value "-c:v") with true.
    change (takes_value "-b:v") with true. change (takes_value "-c:a") with true.
    cbn iota.
    change ("-i" =? "-c:v")%string with false.
    change ("-vf" =? "-c:v")%string with false.
    change ("-c:v" =? "-c:v")%string with true.
    change ("-b:v" =? "-c:v")%string with false.
    change ("-c:a" =? "-c:v")%string with false. cbn iota.
    now destruct (takes_value output_path).
Qed.

End ClipBuilders.

(** ** whisper_service.py: time stamps *)

Section TimeStamps.
Import Py PyMore Sys Host WhisperService.

Lemma range_all_spec depth lo p :
  range_all depth lo p = true ->
  forall n, lo <= n < lo + 2 ^ Z.of_nat depth -> p n = true.
Proof.
  revert lo. induction depth as [|d IH]; intros lo H n Hn.
  - cbn [range_all] in H. change (2 ^ Z.of_nat 0) with 1 in Hn.
    now replace n with lo by lia.
  - cbn [range_all] in H. apply andb_prop in H. destruct H as [H1 H2].
    assert (E : 2 ^ Z.of_nat (S d) = 2 ^ Z.of_nat d + 2 ^ Z.of_nat d).
    { rewrite Nat2Z.inj_succ, Z.pow_succ_r by lia. lia. }
    rewrite E in Hn.
    destruct (Z.lt_ge_cases n (lo + 2 ^ Z.of_nat d)).
    + apply (IH lo H1). lia.
    + apply (IH _ H2). lia.
Qed.

(** The time stamp of [n] whole seconds. *)
Let clock (n : Z) : string :=
  format_0d 2 (n / 3600) +:+ ":" +:+ format_0d 2 (n mod 3600 / 60) +:+ ":"
  +:+ format_0d 2 (n mod 60) +:+ ",000".

Let formats_as_clock (n : Z) : bool :=
  match _format_timestamp (float_of_int n) with
  | Return s => String.eqb s (clock n)
  | Raise _ => false
  end.

(** X17. A whole number of seconds below 4096 (an hour and more) is
    formatted exactly: hours, minutes and seconds on two digits each and
    [000] milliseconds. *)
Theorem whole_seconds_are_formatted_exactly (n : Z) :
  0 <= n < 4096 ->
  _format_timestamp (float_of_int n)
  = Return (format_0d 2 (n / 3600) +:+ ":"
            +:+ format_0d 2 (n mod 3600 / 60) +:+ ":"
            +:+ format_0d 2 (n mod 60) +:+ ",000").
Proof.
  intros Hn.
  assert (Hall : range_all 12 0 formats_as_clock = true)
    by (vm_compute; reflexivity).
  pose proof (range_all_spec 12 0 formats_as_clock Hall n) as H.
  change (0 + 2 ^ Z.of_nat 12) with 4096 in H. specialize (H Hn).
  unfold formats_as_clock in H.
  destruct (_format_timestamp (float_of_int n)) as [s|e]; [|discriminate H].
  apply String.eqb_eq in H. now rewrite H.
Qed.

Lemma whole_seconds_are_formatted_exactly_witness :
  _format_timestamp (float_of_int 3599) = Return "00:59:59,000".
Proof.
  refine (whole_seconds_are_formatted_exactly 3599 _). lia.
Defined.

(** X18. The milliseconds of a time stamp are truncated from the binary
    fraction of the seconds, not rounded: 1.001 s is printed with 000
    milliseconds and 4.35 s with 349. A negative time is printed with a
    negative hour and the minutes, seconds and milliseconds counted up
    from it, and an infinite or undefined time raises [ValueError]. *)
Theorem timestamps_truncate_milliseconds :
  _format_timestamp (truediv 1001 1000) = Return "00:00:01,000"
  /\ _format_timestamp (truediv 435 100) = Return "00:00:04,349"
  /\ _format_timestamp (truediv 7323 2) = Return "01:01:01,500"
  /\ _format_timestamp (SFopp (truediv 1 2)) = Return "-1:59:59,500"
  /\ _format_timestamp (S754_infinity false)
     = Raise (Exn "ValueError" "cannot convert float NaN to integer")
  /\ _format_timestamp S754_nan
     = Raise (Exn "ValueError" "cannot convert float NaN to integer").
Proof.
  repeat split; vm_compute; reflexivity.
Qed.

End TimeStamps.

(** ** whisper_service.py: loading the model and transcribing *)

Section SpeechModel.
Import Py PyMore Sys Host WhisperService ScenarioRest ScenarioGpu.

(** X19. Without a GPU, or when the caller does not want one, [_load_model]
    always sets the device [cpu] and the compute type [int8], whatever the
    service held before, and it does so also when the model then fails to
    load; the model handle and its name change only when the load
    succeeds. *)
Theorem load_model_without_gpu
    (o : Oracles) (self : WhisperService.t) (model_size : string)
    (use_gpu : bool) :
  (if use_gpu then _check_gpu o else Return false) = Return false ->
  let self' := fst (_load_model o self model_size use_gpu) in
  device self' = "cpu"
  /\ compute_type self' = "int8"
  /\ model_dir self' = model_dir self
  /\ match whisper_model o model_size "cpu" "int8" (model_dir self) with
     | Return h =>
         snd (_load_model o self model_size use_gpu) = Return tt
         /\ model self' = Some h /\ model_name self' = model_size
     | Raise e =>
         snd (_load_model o self model_size use_gpu) = Raise e
         /\ model self' = model self /\ model_name self' = model_name self
     end.
Proof.
  intros Hgpu self'. subst self'.
  unfold _load_model, choose_device. rewrite Hgpu.
  cbn [device compute_type model_dir set_device set_compute_type].
  destruct (whisper_model o model_size "cpu" "int8" (model_dir self));
    cbn; repeat split; reflexivity.
Qed.

Lemma load_model_without_gpu_witness :
  device (fst (_load_model plain_oracles fresh_service "small" true)) = "cpu"
  /\ compute_type (fst (_load_model plain_oracles fresh_service "small" true))
     = "int8".
Proof.
  destruct (load_model_without_gpu plain_oracles fresh_service "small" true)
    as (Hd & Hc & _).
  - reflexivity.
  - split; [exact Hd|exact Hc].
Defined.

(** X20. On a GPU with less than 6 GiB, or whose memory cannot be read,
    [_load_model] moves the service to the [cpu] but leaves its compute
    type as it was: a fresh service loads its model on the CPU with
    [float16], not with the [int8] of the CPU branch. *)
Theorem load_model_on_a_small_gpu
    (o : Oracles) (self : WhisperService.t) (model_size : string) :
  _check_gpu o = Return true ->
  match cuda_total_memory o with
  | Return total_memory => total_memory < 6 * 1024 ^ 3
  | Raise _ => True
  end ->
  let self' := fst (_load_model o self model_size true) in
  device self' = "cpu"
  /\ compute_type self' = compute_type self
  /\ snd (_load_model o self model_size true)
     = match whisper_model o model_size "cpu" (compute_type self)
               (model_dir self) with
       | Return _ => Return tt
       | Raise e => Raise e
       end.
Proof.
  intros Hgpu Hmem self'. subst self'.
  unfold _load_model, choose_device. rewrite Hgpu.
  destruct (cuda_total_memory o) as [total_memory|e].
  - destruct (Z.ltb_spec total_memory (6 * 1024 ^ 3)); [|lia].
    cbn [device compute_type model_dir set_device].
    destruct (whisper_model o model_size "cpu" (compute_type self)
                (model_dir self)); cbn; auto.
  - cbn [device compute_type model_dir set_device].
    destruct (whisper_model o model_size "cpu" (compute_type self)
                (model_dir self)); cbn; auto.
Qed.

Lemma load_model_on_a_small_gpu_witness :
  device (fst (_load_model (gpu_oracles (4 * 1024 ^ 3)) fresh_service
                 "small" true)) = "cpu"
  /\ compute_type (fst (_load_model (gpu_oracles (4 * 1024 ^ 3))
                          fresh_service "small" true)) = "float16".
Proof.
  destruct (load_model_on_a_small_gpu (gpu_oracles (4 * 1024 ^ 3))
              fresh_service "small") as (Hd & Hc & _).
  - reflexivity.
  - vm_compute. reflexivity.
  - split; [exact Hd|exact Hc].
Defined.

(** The loop of [transcribe] in closed form. *)
Lemma collect_run raw gathered :
  collect raw gathered
  = (gathered
     +:+ concat_all (map (fun r => strip (seg_text r) +:+ " ") raw),
     map (fun r => {| start := seg_start r; end_ := seg_end r;
                      text := strip (seg_text r) |}) raw).
Proof.
  revert gathered. induction raw as [|r raw IH]; intros gathered.
  - cbn [collect map concat_all fold_right]. f_equal.
    induction gathered as [|c g IHg]; [reflexivity|].
    rewrite append_String. now rewrite <- IHg.
  - cbn [collect map]. rewrite IH. f_equal.
    unfold concat_all. cbn [fold_right]. now rewrite !append_assoc.
Qed.

End SpeechModel.

Section Captions.
Import Py PyMore Sys Host WhisperService ScenarioRest ScenarioGpu.

(** What the loop of [_segments_to_srt] has gathered stays in front of
    what it adds. *)
Lemma srt_from_content i segs content :
  srt_from i segs content
  = and_then (srt_from i segs EmptyString)
      (fun added => Return (content +:+ added)).
Proof.
  revert i content. induction segs as [|seg segs IH]; intros i content.
  - cbn [srt_from and_then]. f_equal.
    induction content as [|c g IHg]; [reflexivity|].
    rewrite append_String. now rewrite <- IHg.
  - cbn [srt_from]. destruct (srt_block i seg) as [block|e]; [|reflexivity].
    cbn [and_then]. rewrite IH. rewrite (IH (i + 1) (EmptyString +:+ block)).
    destruct (srt_from (i + 1) segs EmptyString) as [added|e];
      [|reflexivity].
    cbn [and_then]. f_equal.
    change (EmptyString +:+ block) with block. apply append_assoc.
Qed.

Lemma srt_from_app i a b content :
  srt_from i (a ++ b)%list content
  = and_then (srt_from i a content)
      (fun done => srt_from (i + Z.of_nat (length a)) b done).
Proof.
  revert i content. induction a as [|seg a IH]; intros i content.
  - cbn [app srt_from length and_then]. now rewrite Z.add_0_r.
  - cbn [app srt_from length].
    destruct (srt_block i seg) as [block|e]; [|reflexivity].
    cbn [and_then]. rewrite IH.
    replace (i + 1 + Z.of_nat (length a)) with (i + Z.of_nat (S (length a)))
      by lia.
    reflexivity.
Qed.

(** X21. [_segments_to_srt] numbers the blocks from 1 in the order of the
    segments: the segment that follows [k] others gets the number
    [k + 1], after the blocks of those and before the blocks of the
    rest; no segment is dropped or merged, and the first time stamp that
    cannot be formatted ends the conversion with its exception. *)
Theorem srt_numbers_the_segments_in_order
    (before : list segment) (seg : segment) (after : list segment) :
  let k := Z.of_nat (length before) in
  _segments_to_srt (before ++ seg :: after)%list
  = and_then (_segments_to_srt before) (fun done =>
    and_then (_format_timestamp (start seg)) (fun start_time =>
    and_then (_format_timestamp (end_ seg)) (fun end_time =>
    and_then (srt_from (k + 2) after EmptyString) (fun rest =>
    Return (done
            +:+ (str_of_int (k + 1) +:+ nl
                 +:+ start_time +:+ " --> " +:+ end_time +:+ nl
                 +:+ text seg +:+ nl +:+ nl)
            +:+ rest))))).
Proof.
  intros k. unfold _segments_to_srt. rewrite srt_from_app. fold k.
  destruct (srt_from 1 before EmptyString) as [done|e]; [|reflexivity].
  cbn [and_then srt_from]. unfold srt_block.
  replace (1 + k) with (k + 1) by lia.
  destruct (_format_timestamp (start seg)) as [start_time|e]; [|reflexivity].
  cbn [and_then].
  destruct (_format_timestamp (end_ seg)) as [end_time|e]; [|reflexivity].
  cbn [and_then]. rewrite srt_from_content.
  replace (k + 1 + 1) with (k + 2) by lia.
  destruct (srt_from (k + 2) after EmptyString) as [rest|e]; [|reflexivity].
  cbn [and_then]. now rewrite append_assoc.
Qed.

(** X22. A service that holds the model of the size asked for does not load
    it again, whatever [use_gpu] says: [transcribe] leaves the service as
    it is. Its result has one segment for each segment of the model, in
    order, with the same times and the text stripped of surrounding white
    space; the SRT text is made of these segments and the full text of
    their texts. *)
Theorem transcribe_reuses_the_loaded_model
    (o : Oracles) (self : WhisperService.t) (audio_path model_size : string)
    (lang : option string) (use_gpu : bool) (h : nat) :
  model self = Some h ->
  model_name self = model_size ->
  fst (transcribe o self audio_path model_size lang use_gpu) = self
  /\ snd (transcribe o self audio_path model_size lang use_gpu)
     = match model_transcribe o h audio_path lang with
       | Raise e => Raise e
       | Return (raw, info) =>
           let segs :=
             map (fun r => {| start := seg_start r; end_ := seg_end r;
                              text := strip (seg_text r) |}) raw in
           match _segments_to_srt segs with
           | Raise e => Raise e
           | Return srt_content =>
               Return {| full_text :=
                           strip (concat_all
                                    (map (fun s => text s +:+ " ") segs));
                         srt := srt_content;
                         segments := segs;
                         detected_language := language info;
                         detected_probability := language_probability info;
                         audio_duration := duration info |}
           end
       end.
Proof.
  intros Hmodel Hname. unfold transcribe. rewrite Hmodel, Hname.
  rewrite String.eqb_refl. cbn [negb]. rewrite Hmodel.
  destruct (model_transcribe o h audio_path lang) as [[raw info]|e];
    [|split; reflexivity].
  rewrite collect_run. cbn [fst snd]. split; [reflexivity|].
  cbv zeta. rewrite map_map. cbn [text].
  now destruct (_segments_to_srt _).
Qed.

Lemma transcribe_reuses_the_loaded_model_witness :
  fst (transcribe (gpu_oracles (12 * 1024 ^ 3))
         (set_model fresh_service 1 "small") "voice.wav" "small" None false)
  = set_model fresh_service 1 "small".
Proof.
  refine (proj1 (transcribe_reuses_the_loaded_model
                   (gpu_oracles (12 * 1024 ^ 3))
                   (set_model fresh_service 1 "small") "voice.wav" "small"
                   None false 1%nat _ _)); reflexivity.
Defined.

End Captions.

(** ** main.py: the startup checks and the download handler *)

Section StartupChecks.
Import Py PyMore Sys Host MainRest Scenario ScenarioRest.

(** X23. Neither startup check raises. [check_ffmpeg] answers whether
    [ffmpeg -version] ran and exited with 0. [check_gpu_availability]
    answers [True] only when [nvidia-smi] ran and exited with 0, its
    output holds the separator [", "] exactly once, and what follows it
    reads as an integer of at least 12; every other case, a failure of
    [int] included, is answered [False]. *)
Theorem startup_checks_never_raise (o : Oracles) (w : World) :
  check_ffmpeg w
  = ([Run ["ffmpeg"; "-version"]],
     Return match subprocess_run w ["ffmpeg"; "-version"] with
            | Return result => returncode result =? 0
            | Raise _ => false
            end)
  /\ check_gpu_availability o w
     = ([Run nvidia_smi_cmd],
        Return match subprocess_run w nvidia_smi_cmd with
               | Return result =>
                   if returncode result =? 0 then
                     match split_sep ", " (strip (stdout result)) with
                     | [gpu_name; vram] =>
                         match int_of_str o (strip vram) with
                         | Return vram_int => 12 <=? vram_int
                         | Raise _ => false
                         end
                     | _ => false
                     end
                   else false
               | Raise _ => false
               end).
Proof.
  split.
  - unfold check_ffmpeg, try_except, bind, run, ret.
    now destruct (subprocess_run w _).
  - unfold check_gpu_availability, try_except, bind, run, ret, pure.
    destruct (subprocess_run w nvidia_smi_cmd) as [result|e]; [|reflexivity].
    destruct (returncode result =? 0); [|reflexivity].
    destruct (split_sep ", " (strip (stdout result))) as [|a [|b [|c l]]];
      try reflexivity.
    cbn [unpack_pair ret snd app].
    now destruct (int_of_str o (strip b)).
Qed.

(** X24. On a machine with two cards [nvidia-smi] prints two lines, the
    output splits into three pieces, the unpacking raises, and the check
    answers that no GPU is available, whatever the memory of the
    cards. *)
Theorem gpu_check_rejects_two_cards
    (o : Oracles) (w : World) (result : completed) :
  subprocess_run w nvidia_smi_cmd = Return result ->
  length (split_sep ", " (strip (stdout result))) <> 2%nat ->
  check_gpu_availability o w = ([Run nvidia_smi_cmd], Return false).
Proof.
  intros Hrun Hparts.
  unfold check_gpu_availability, try_except, bind, run, ret, pure.
  rewrite Hrun.
  destruct (returncode result =? 0); [|reflexivity].
  destruct (split_sep ", " (strip (stdout result))) as [|a [|b [|c l]]];
    try reflexivity.
  cbn [length] in Hparts. contradiction.
Qed.

Lemma gpu_check_rejects_two_cards_witness :
  check_gpu_availability reading_oracles two_cards_world
  = ([Run nvidia_smi_cmd], Return false).
Proof.
  refine (gpu_check_rejects_two_cards reading_oracles two_cards_world
            two_cards _ _).
  - reflexivity.
  - vm_compute. discriminate.
Defined.

End StartupChecks.

Section Download.
Import Py PyMore Sys Host MainRest Scenario ScenarioRest.

(** X25. [download_file] never answers 404: the [HTTPException] it raises for
    a file found in none of the five directories is caught by its own
    handler and raised again with status 500, the text of the first as
    detail. A file that is found is served from the first directory, in
    the order of the list, that has it. *)
Theorem download_never_answers_404
    (o : Oracles) (w : World) (filename : string) :
  download_file o w filename
  = match first_existing w
            [ "output/"; "assets/audio/"; "assets/video/"; "models/";
              "projects/" ] filename with
    | Some file_path => FileResponse file_path filename
    | None =>
        HTTPException 500
          (http_exception_str o 404 ("File " +:+ filename +:+ " not found"))
    end
  /\ (forall detail, download_file o w filename <> HTTPException 404 detail).
Proof.
  unfold download_file. fold search_paths.
  destruct (first_existing w search_paths filename);
    (split; [reflexivity|intros detail H; discriminate H]).
Qed.



End Download.
